(** * xrproxy: the URL-rewriting bridge and the npm / PyPI facades

    A shallow embedding of
      - [bridge/src/services/proxy-service.ts] (ProxyService.rewriteUrls),
      - [npm/src/server.ts] (XRegistryServer.setupRoutes and its helpers),
      - [pypi/src/server.ts] (the API key check, the trailing slash
        handler, the 405 catch-all and the 404 handler),
    followed by the properties of the specification that concern them. *)

From Stdlib Require Import String Ascii List ZArith Lia Bool Permutation Sorted.
From Stdlib Require Import DecimalString.
Import ListNotations.
Set Warnings "-register-all".
Open Scope list_scope.
Open Scope string_scope.

(* ================================================================== *)
(** * The fragment of ECMAScript used by the sources                    *)
(* ================================================================== *)

Module JS.

(** ** Strings

    A JavaScript string is modelled by the bytes of its UTF-8 encoding
    (well-formed strings only).  On such strings [startsWith], [+],
    [===] and [indexOf] agree with their byte-wise counterparts. *)

Fixpoint startsWith (s p : string) {struct p} : bool :=
  match p with
  | EmptyString => true
  | String a p' =>
      match s with
      | EmptyString => false
      | String b s' => Ascii.eqb a b && startsWith s' p'
      end
  end.

Fixpoint drop (n : nat) (s : string) : string :=
  match n, s with
  | O, _ => s
  | S _, EmptyString => EmptyString
  | S n', String _ s' => drop n' s'
  end.

Fixpoint take (n : nat) (s : string) : string :=
  match n, s with
  | O, _ => EmptyString
  | S _, EmptyString => EmptyString
  | S n', String c s' => String c (take n' s')
  end.

(** [s.indexOf(p)]: the position of the first occurrence, if any. *)
Fixpoint indexOf (s p : string) : option nat :=
  if startsWith s p then Some O
  else match s with
       | EmptyString => None
       | String _ s' => option_map S (indexOf s' p)
       end.

Definition includes (s p : string) : bool :=
  match indexOf s p with Some _ => true | None => false end.

Definition dollar : ascii := "$"%char.

(** GetSubstitution (ECMA-262, 22.1.3.19.1) for a string pattern: there
    are no captures, so the only active replacement patterns are
    [$$], [$&], [$`] and [$']; every other [$] stands for itself. *)
Fixpoint getSubstitution (matched before after template : string) : string :=
  match template with
  | EmptyString => EmptyString
  | String c t1 =>
      if Ascii.eqb c dollar then
        match t1 with
        | EmptyString => String c EmptyString
        | String d t2 =>
            if Ascii.eqb d dollar then String dollar (getSubstitution matched before after t2)
            else if Ascii.eqb d "&"%char then matched ++ getSubstitution matched before after t2
            else if Ascii.eqb d "`"%char then before ++ getSubstitution matched before after t2
            else if Ascii.eqb d "'"%char then after ++ getSubstitution matched before after t2
            else String c (getSubstitution matched before after t1)
        end
      else String c (getSubstitution matched before after t1)
  end.

(** [s.replace(pattern, replacement)] with both arguments strings: only
    the first occurrence is replaced, and the replacement is a template. *)
Definition replace (s pattern replacement : string) : string :=
  match indexOf s pattern with
  | None => s
  | Some i =>
      let before := take i s in
      let after := drop (i + String.length pattern) s in
      before ++ getSubstitution pattern before after replacement ++ after
  end.

(** [s.split(sep)] for a non-empty separator. *)
Fixpoint split_go (sep : string) (skip : nat) (cur : string) (s : string) : list string :=
  match s with
  | EmptyString => [cur]
  | String c s' =>
      match skip with
      | S k => split_go sep k cur s'
      | O => if startsWith s sep
             then cur :: split_go sep (String.length sep - 1) EmptyString s'
             else split_go sep O (cur ++ String c EmptyString) s'
      end
  end.

Definition split (s sep : string) : list string := split_go sep O EmptyString s.

(** [s.replace(/\*/g, r)]: every asterisk replaced ([r] has no [$]). *)
Fixpoint replaceAllStars (s r : string) : string :=
  match s with
  | EmptyString => EmptyString
  | String c s' =>
      if Ascii.eqb c "*"%char then r ++ replaceAllStars s' r
      else String c (replaceAllStars s' r)
  end.

(** *** White space

    [trim] and [parseInt] strip the code points WhiteSpace and
    LineTerminator of ECMA-262 (12.2, 12.3): TAB, LF, VT, FF, CR and the
    space in one byte; U+00A0 in two; U+1680, U+2000 to U+200A, U+2028,
    U+2029, U+202F, U+205F, U+3000 and U+FEFF in three. *)

Definition isWhite (c : ascii) : bool :=
  let n := nat_of_ascii c in
  (n =? 32)%nat || ((9 <=? n)%nat && (n <=? 13)%nat).

(** U+00A0 is [C2 A0]. *)
Definition isWhite2 (a b : ascii) : bool :=
  (nat_of_ascii a =? 194)%nat && (nat_of_ascii b =? 160)%nat.

(** U+1680 is [E1 9A 80]; U+2000 to U+200A, U+2028, U+2029 and U+202F
    are [E2 80 80] to [E2 80 8A], [E2 80 A8], [E2 80 A9] and [E2 80 AF];
    U+205F is [E2 81 9F]; U+3000 is [E3 80 80]; U+FEFF is [EF BB BF]. *)
Definition isWhite3 (a b c : ascii) : bool :=
  let x := nat_of_ascii a in
  let y := nat_of_ascii b in
  let z := nat_of_ascii c in
  ((x =? 225)%nat && (y =? 154)%nat && (z =? 128)%nat)
  || ((x =? 226)%nat && (y =? 128)%nat
      && (((128 <=? z)%nat && (z <=? 138)%nat)
          || (z =? 168)%nat || (z =? 169)%nat || (z =? 175)%nat))
  || ((x =? 226)%nat && (y =? 129)%nat && (z =? 159)%nat)
  || ((x =? 227)%nat && (y =? 128)%nat && (z =? 128)%nat)
  || ((x =? 239)%nat && (y =? 187)%nat && (z =? 191)%nat).

(** [s.trimStart()]. *)
Fixpoint trimStart (s : string) : string :=
  match s with
  | String a s1 =>
      if isWhite a then trimStart s1
      else match s1 with
           | String b s2 =>
               if isWhite2 a b then trimStart s2
               else match s2 with
                    | String c s3 => if isWhite3 a b c then trimStart s3 else s
                    | EmptyString => s
                    end
           | EmptyString => s
           end
  | EmptyString => EmptyString
  end.

Fixpoint rev_string (acc s : string) : string :=
  match s with
  | EmptyString => acc
  | String c s' => rev_string (String c acc) s'
  end.

(** [trimStart] on the reversed bytes: a code point of white space is
    met last byte first.  In well-formed UTF-8 the bytes of such a code
    point at the end of a string are that code point. *)
Fixpoint trimStartReversed (s : string) : string :=
  match s with
  | String c s1 =>
      if isWhite c then trimStartReversed s1
      else match s1 with
           | String b s2 =>
               if isWhite2 b c then trimStartReversed s2
               else match s2 with
                    | String a s3 => if isWhite3 a b c then trimStartReversed s3 else s
                    | EmptyString => s
                    end
           | EmptyString => s
           end
  | EmptyString => EmptyString
  end.

(** [s.trimEnd()]. *)
Definition trimEnd (s : string) : string :=
  rev_string EmptyString (trimStartReversed (rev_string EmptyString s)).

(** [s.trim()]. *)
Definition trim (s : string) : string := trimEnd (trimStart s).

(** [s.endsWith(p)]. *)
Definition endsWith (s p : string) : bool :=
  (String.length p <=? String.length s)%nat
  && String.eqb (drop (String.length s - String.length p) s) p.

Definition upperChar (c : ascii) : ascii :=
  let n := nat_of_ascii c in
  if ((97 <=? n)%nat && (n <=? 122)%nat) then ascii_of_nat (n - 32) else c.

Definition lowerChar (c : ascii) : ascii :=
  let n := nat_of_ascii c in
  if ((65 <=? n)%nat && (n <=? 90)%nat) then ascii_of_nat (n + 32) else c.

Fixpoint mapChars (f : ascii -> ascii) (s : string) : string :=
  match s with
  | EmptyString => EmptyString
  | String c s' => String (f c) (mapChars f s')
  end.

(** Case mapping of the ASCII letters, for the results that the
    sources compare with an ASCII literal (["desc"], ["PUT"], ...). *)
Definition toUpperCase : string -> string := mapChars upperChar.
Definition toLowerCase : string -> string := mapChars lowerChar.

(** *** encodeURIComponent

    Every byte outside [A-Z a-z 0-9 - _ . ! ~ * ' ( )] is written as
    [%XX] with upper-case hexadecimal digits. *)

Definition isDigit (c : ascii) : bool :=
  let n := nat_of_ascii c in (48 <=? n)%nat && (n <=? 57)%nat.

Definition isAlpha (c : ascii) : bool :=
  let n := nat_of_ascii c in
  ((65 <=? n)%nat && (n <=? 90)%nat) || ((97 <=? n)%nat && (n <=? 122)%nat).

Definition uriUnreserved (c : ascii) : bool :=
  isAlpha c || isDigit c || includes "-_.!~*'()" (String c EmptyString).

Definition hexDigit (n : nat) : ascii :=
  if (n <? 10)%nat then ascii_of_nat (48 + n) else ascii_of_nat (55 + n).

Definition percentEncode (c : ascii) : string :=
  let n := nat_of_ascii c in
  String "%"%char (String (hexDigit (n / 16)) (String (hexDigit (n mod 16)) EmptyString)).

Fixpoint encodeURIComponent (s : string) : string :=
  match s with
  | EmptyString => EmptyString
  | String c s' =>
      if uriUnreserved c then String c (encodeURIComponent s')
      else percentEncode c ++ encodeURIComponent s'
  end.

(** ** Numbers

    The numbers the handlers compute with are the results of [parseInt],
    lengths and sums of those: integers, or NaN.  Integers are kept exact;
    a double is exact up to 2^53 and rounds beyond, which changes none of
    the comparisons with lengths that the handlers make. *)

Inductive number : Type :=
| NaN
| Num (z : Z).

Definition num_add (a b : number) : number :=
  match a, b with
  | Num x, Num y => Num (x + y)
  | _, _ => NaN
  end.

(** [a <= b], [a > b] and [a >= b]: every comparison with NaN is false. *)
Definition num_le (a b : number) : bool :=
  match a, b with Num x, Num y => (x <=? y)%Z | _, _ => false end.

Definition num_gt (a b : number) : bool :=
  match a, b with Num x, Num y => (y <? x)%Z | _, _ => false end.

Definition num_ge (a b : number) : bool :=
  match a, b with Num x, Num y => (y <=? x)%Z | _, _ => false end.

(** [Math.min(a, b)]. *)
Definition math_min (a b : number) : number :=
  match a, b with
  | Num x, Num y => Num (Z.min x y)
  | _, _ => NaN
  end.

Fixpoint digitsValue (acc : Z) (s : string) : Z :=
  match s with
  | String c s' =>
      if isDigit c then digitsValue (10 * acc + Z.of_nat (nat_of_ascii c - 48)) s'
      else acc
  | EmptyString => acc
  end.

(** [parseInt(s, 10)]: leading white space (of any kind, as in
    [trimStart]), an optional sign, then the longest run of decimal
    digits; NaN when that run is empty. *)
Definition parseInt (s : string) : number :=
  let t := trimStart s in
  let '(sign, body) :=
    match t with
    | String c r =>
        if Ascii.eqb c "-"%char then ((-1)%Z, r)
        else if Ascii.eqb c "+"%char then (1%Z, r)
        else (1%Z, t)
    | EmptyString => (1%Z, t)
    end in
  match body with
  | String c _ => if isDigit c then Num (sign * digitsValue 0 body) else NaN
  | EmptyString => NaN
  end.

(** [String(n)] for a natural number (below 10^21, where JavaScript
    turns to the exponent notation). *)
Definition natToString (n : nat) : string :=
  NilZero.string_of_uint (Nat.to_uint n).

Definition numToString (n : number) : string :=
  match n with
  | NaN => "NaN"
  | Num z => if (z <? 0)%Z then "-" ++ natToString (Z.to_nat (- z))
             else natToString (Z.to_nat z)
  end.

(** ** Arrays *)

(** ToIntegerOrInfinity followed by the clamping of a relative index. *)
Definition relIndex (len : nat) (i : number) : nat :=
  match i with
  | NaN => O
  | Num z => if (z <? 0)%Z then Z.to_nat (Z.max (Z.of_nat len + z) 0)
             else Nat.min (Z.to_nat z) len
  end.

(** [a.slice(start, end)]. *)
Definition slice {A : Type} (a : list A) (start stop : number) : list A :=
  let k := relIndex (List.length a) start in
  let final := relIndex (List.length a) stop in
  firstn (final - k) (skipn k a).

Fixpoint indexOfList (l : list string) (x : string) : option nat :=
  match l with
  | [] => None
  | y :: l' => if String.eqb y x then Some O else option_map S (indexOfList l' x)
  end.

(** [a.includes(x)] on an array of strings. *)
Definition has (l : list string) (x : string) : bool := existsb (String.eqb x) l.

(** [a.sort(cmp)]: the specification asks for a stable sort; straight
    insertion is one, and [cmp a b > 0] means [a] goes after [b]. *)
Fixpoint insertSorted {A : Type} (cmp : A -> A -> Z) (x : A) (l : list A) : list A :=
  match l with
  | [] => [x]
  | y :: l' => if (0 <? cmp x y)%Z then y :: insertSorted cmp x l' else x :: l
  end.

Definition sort {A : Type} (cmp : A -> A -> Z) (l : list A) : list A :=
  fold_right (insertSorted cmp) [] l.

(** ** Values

    The values that flow through the handlers are those of JSON plus
    [undefined].  An object is the list of its own enumerable properties
    in enumeration order (the order of [Object.keys] / [Object.entries]);
    its keys are pairwise distinct.  JavaScript enumerates the keys that
    are array indices first and in ascending order; a list given in that
    order is rebuilt in the same order by assigning its entries one by
    one, which is all the rewriter does, and nothing stated about the
    handlers depends on the order of the keys. *)

Inductive value : Type :=
| VUndefined
| VNull
| VBool (b : bool)
| VNum (n : number)
| VStr (s : string)
| VArr (items : list value)
| VObj (props : list (string * value)).

Definition props := list (string * value).

Definition truthy (v : value) : bool :=
  match v with
  | VUndefined | VNull => false
  | VBool b => b
  | VNum NaN => false
  | VNum (Num z) => negb (z =? 0)%Z
  | VStr s => negb (String.eqb s EmptyString)
  | VArr _ | VObj _ => true
  end.

(** [a || b] *)
Definition or_else (a b : value) : value := if truthy a then a else b.

Fixpoint lookup (o : props) (k : string) : option value :=
  match o with
  | [] => None
  | (k', v) :: o' => if String.eqb k' k then Some v else lookup o' k
  end.

Definition indices (n : nat) : list string := map natToString (seq 0 n).

Fixpoint chars (s : string) : list ascii :=
  match s with
  | EmptyString => []
  | String c s' => c :: chars s'
  end.

(** The own indexed or named properties of a value: those of an object,
    the elements of an array, the characters of a string (one byte each,
    which is exact for ASCII strings).  Properties inherited from the
    built-in prototypes are not part of the model. *)
Definition ownProps (v : value) : props :=
  match v with
  | VObj o => o
  | VArr items => combine (indices (List.length items)) items
  | VStr s =>
      combine (indices (List.length (chars s)))
              (map (fun c => VStr (String c EmptyString)) (chars s))
  | _ => []
  end.

(** [v?.[k]]: [undefined] when [v] has no such property. *)
Definition get (v : value) (k : string) : value :=
  match lookup (ownProps v) k with Some x => x | None => VUndefined end.

(** [Object.keys(v)] for a value that is neither null nor undefined. *)
Definition keys (v : value) : list string := map fst (ownProps v).

Fixpoint replaceProp (o : props) (k : string) (v : value) : props :=
  match o with
  | [] => []
  | (k', v') :: o' =>
      if String.eqb k' k then (k', v) :: o' else (k', v') :: replaceProp o' k v
  end.

Definition hasProp (o : props) (k : string) : bool :=
  match lookup o k with Some _ => true | None => false end.

(** [o[k] = v] on an object created by an object literal.  An existing
    property keeps its place; a new one goes last.  The key ["__proto__"]
    is not stored: the assignment reaches the accessor inherited from
    [Object.prototype] (ECMA-262, 20.1.3.8), which sets the prototype
    when [v] is an object or null and does nothing otherwise; either way
    no own property appears. *)
Definition setProp (o : props) (k : string) (v : value) : props :=
  if String.eqb k "__proto__" then o
  else if hasProp o k then replaceProp o k v
  else (o ++ [(k, v)])%list.

(** [a.length > 0] for an array or a string. *)
Definition lengthPositive (v : value) : bool :=
  match v with
  | VArr items => negb (Nat.eqb (List.length items) 0)
  | VStr s => negb (String.eqb s EmptyString)
  | VObj o => match lookup o "length" with
              | Some (VNum (Num z)) => (0 <? z)%Z
              | _ => false
              end
  | _ => false
  end.

Fixpoint joinWith (sep : string) (l : list string) : string :=
  match l with
  | [] => EmptyString
  | [x] => x
  | x :: l' => x ++ sep ++ joinWith sep l'
  end.

(** ToString, as template literals and [String(v)] apply it. *)
Fixpoint toStr (v : value) : string :=
  match v with
  | VUndefined => "undefined"
  | VNull => "null"
  | VBool true => "true"
  | VBool false => "false"
  | VNum n => numToString n
  | VStr s => s
  | VArr items =>
      joinWith ","
        (map (fun x => match x with
                       | VUndefined | VNull => EmptyString
                       | _ => toStr x
                       end) items)
  | VObj _ => "[object Object]"
  end.

End JS.

(* ================================================================== *)
(** * bridge/src/services/proxy-service.ts                              *)
(* ================================================================== *)

Module Proxy.
Import JS.

(** The string case of [rewriteUrls]. *)
Definition rewriteString (data downstreamUrl bridgeBaseUrl : string)
    (currentKey : option string) : string :=
  match currentKey with
  | Some key =>
      if String.eqb key "xid" then data
      else if startsWith data downstreamUrl
           then replace data downstreamUrl bridgeBaseUrl
           else data
  | None =>
      if startsWith data downstreamUrl
      then replace data downstreamUrl bridgeBaseUrl
      else data
  end.

(** [rewritten[key] = f(key, value)] for one of [Object.entries]. *)
Definition assign (f : string -> value -> value) (rewritten : props)
    (entry : string * value) : props :=
  let '(key, v) := entry in setProp rewritten key (f key v).

(** What [assign f] stores for an entry whose key is kept. *)
Definition mapped (f : string -> value -> value) (entry : string * value)
    : string * value :=
  let '(k, x) := entry in (k, f k x).

(** [ProxyService.rewriteUrls].  Array items are visited without a
    current key; the entries of an object are visited in enumeration
    order and assigned, one by one, to a fresh object.  The result is
    given by its own properties, which are what [JSON.stringify] writes
    into the response. *)
Fixpoint rewriteUrls (data : value) (downstreamUrl bridgeBaseUrl : string)
    (currentKey : option string) {struct data} : value :=
  match data with
  | VStr s => VStr (rewriteString s downstreamUrl bridgeBaseUrl currentKey)
  | VArr items =>
      VArr (map (fun item => rewriteUrls item downstreamUrl bridgeBaseUrl None) items)
  | VObj entries =>
      VObj (fold_left
              (assign (fun key v => rewriteUrls v downstreamUrl bridgeBaseUrl (Some key)))
              entries [])
  | _ => data
  end.

(** ** The proxy options and the response interceptor *)

(** [pathRewrite]; [apiPrefix] is [process.env.API_PATH_PREFIX || '']. *)
Definition pathRewrite (apiPrefix groupType path : string) : string :=
  let cleanPath :=
    if negb (String.eqb apiPrefix EmptyString) && startsWith path apiPrefix then
      let rest := drop (String.length apiPrefix) path in
      if String.eqb rest EmptyString then "/" else rest
    else path in
  if negb (startsWith cleanPath ("/" ++ groupType))
  then "/" ++ groupType ++ cleanPath
  else cleanPath.

(** [s.replace(new RegExp(escaped(target), 'g'), replacement)] for a
    non-empty [target]: the escaping makes the expression match the text
    of [target] literally; matches are taken from the left and do not
    overlap; the replacement is a template, as in [replace].  [before]
    is the part of the whole string already passed. *)
Fixpoint replaceEvery (target replacement : string) (skip : nat) (before s : string)
    : string :=
  match s with
  | EmptyString => EmptyString
  | String c s' =>
      match skip with
      | S k => replaceEvery target replacement k (before ++ String c EmptyString) s'
      | O =>
          if startsWith s target then
            getSubstitution target before (drop (String.length target) s) replacement
            ++ replaceEvery target replacement (String.length target - 1)
                 (before ++ String c EmptyString) s'
          else
            String c (replaceEvery target replacement O (before ++ String c EmptyString) s')
      end
  end.

(** The empty expression matches before every character and at the end
    (characters are bytes here, which is exact for ASCII text). *)
Fixpoint insertEverywhere (replacement before s : string) : string :=
  match s with
  | EmptyString => getSubstitution EmptyString before EmptyString replacement
  | String c s' =>
      getSubstitution EmptyString before s replacement
      ++ String c (insertEverywhere replacement (before ++ String c EmptyString) s')
  end.

(** The rewriting applied to the [Link] header. *)
Definition rewriteLinkValue (linkHeader targetUrl actualBaseUrl : string) : string :=
  if String.eqb targetUrl EmptyString
  then insertEverywhere actualBaseUrl EmptyString linkHeader
  else replaceEvery targetUrl actualBaseUrl O EmptyString linkHeader.

(** Response headers as Node gives them: lower-case names, here with
    string values. *)
Definition headers := list (string * string).

Fixpoint headerValue (hs : headers) (k : string) : option string :=
  match hs with
  | [] => None
  | (k', v) :: hs' => if String.eqb k' k then Some v else headerValue hs' k
  end.

Fixpoint replaceHeader (hs : headers) (k v : string) : headers :=
  match hs with
  | [] => []
  | (k', v') :: hs' =>
      if String.eqb k' k then (k', v) :: hs' else (k', v') :: replaceHeader hs' k v
  end.

(** [hs[k] = v] *)
Definition setHeader (hs : headers) (k v : string) : headers :=
  match headerValue hs k with
  | Some _ => replaceHeader hs k v
  | None => (hs ++ [(k, v)])%list
  end.

(** [hs[k]] is truthy *)
Definition headerSet (hs : headers) (k : string) : bool :=
  match headerValue hs k with
  | Some v => negb (String.eqb v EmptyString)
  | None => false
  end.

(** [if (!hs[k]) hs[k] = v] *)
Definition defaultHeader (hs : headers) (k v : string) : headers :=
  if headerSet hs k then hs else setHeader hs k v.

Definition corsHeaders : list (string * string) :=
  [("access-control-allow-origin", "*");
   ("access-control-allow-methods", "GET, POST, PUT, DELETE, OPTIONS, PATCH");
   ("access-control-allow-headers",
    "Origin, X-Requested-With, Content-Type, Accept, Authorization, X-MS-Client-Principal, X-Base-Url, X-Correlation-Id, X-Trace-Id");
   ("access-control-expose-headers",
    "X-Correlation-Id, X-Trace-Id, X-Request-Id, Location, Link, ETag, Cache-Control, Content-Length, Content-Type, Date, Expires, Last-Modified, X-Registry-Id, X-Registry-Version, X-Registry-Epoch, X-Registry-Self")].

(** The four [if (!proxyRes.headers[...])] of [proxyRes], in order. *)
Definition addCors (hs : headers) : headers :=
  fold_left (fun acc kv => defaultHeader acc (fst kv) (snd kv)) corsHeaders hs.

(** [if (hs['link']) hs['link'] = rewritten] on a copy of the headers. *)
Definition rewriteLink (hs : headers) (targetUrl actualBaseUrl : string) : headers :=
  if headerSet hs "link" then
    match headerValue hs "link" with
    | Some l => setHeader hs "link" (rewriteLinkValue l targetUrl actualBaseUrl)
    | None => hs
    end
  else hs.

(** What is written to the client. *)
Record delivered : Type := {
  deliveredStatus : Z;
  deliveredHeaders : headers;
  deliveredBody : string
}.

(** The [proxyRes] interceptor, for an upstream response whose body
    text has been collected.  [parse] is [JSON.parse] ([None] when it
    throws) and [stringify] is [JSON.stringify]; [statusCode] is 0 when
    the upstream response has none; [Buffer.byteLength] of a string is
    the length of its UTF-8 encoding, which is the string itself here. *)
Definition onProxyRes (parse : string -> option value) (stringify : value -> string)
    (targetUrl actualBaseUrl : string) (statusCode : Z) (upstreamHeaders : headers)
    (body : string) : delivered :=
  let hs := addCors upstreamHeaders in
  let code := if (statusCode =? 0)%Z then 200%Z else statusCode in
  let contentType :=
    match headerValue hs "content-type" with
    | Some c => c
    | None => EmptyString
    end in
  if negb (includes contentType "application/json") then
    {| deliveredStatus := code;
       deliveredHeaders := rewriteLink hs targetUrl actualBaseUrl;
       deliveredBody := body |}
  else
    match parse body with
    | Some data =>
        let rewrittenData := rewriteUrls data targetUrl actualBaseUrl None in
        let rewrittenHeaders := rewriteLink hs targetUrl actualBaseUrl in
        let rewrittenBody := stringify rewrittenData in
        {| deliveredStatus := code;
           deliveredHeaders :=
             setHeader rewrittenHeaders "content-length"
               (natToString (String.length rewrittenBody));
           deliveredBody := rewrittenBody |}
    | None =>
        {| deliveredStatus := code;
           deliveredHeaders := hs;
           deliveredBody := body |}
    end.

End Proxy.

(* ================================================================== *)
(** * Requests, responses and effects                                   *)
(* ================================================================== *)

Module Http.
Import JS.

(** A request as the handlers see it, after Express has parsed it.
    [segments] are the decoded path segments that route parameters
    bind (a trailing slash adds none); [path] is [req.path], the path
    name of [req.url], and [originalUrl] is [req.originalUrl], which no
    middleware rewrites; each query parameter occurs at most once and in
    plain form ([req.query[k]] is a string or undefined); [inline] is
    the list that the flags middleware leaves in
    [req.xregistryFlags.inline]. *)
Record request : Type := {
  method : string;
  segments : list string;
  path : string;
  originalUrl : string;
  query : list (string * string);
  inline : list string;
  authorization : option string;
  ip : string
}.

(** [body] is the value that [res.json] sends.  [JSON.stringify]
    leaves out a member whose value is undefined: the builders of the
    facades write such a member with [sentMember]. *)
Record response : Type := {
  status : Z;
  headers : list (string * string);
  body : value
}.

Fixpoint queryParam (q : list (string * string)) (k : string) : option string :=
  match q with
  | [] => None
  | (k', v) :: q' => if String.eqb k' k then Some v else queryParam q' k
  end.

(** [req.query[k] as string || dflt] *)
Definition queryOr (req : request) (k dflt : string) : string :=
  match queryParam (query req) k with
  | Some v => if String.eqb v EmptyString then dflt else v
  | None => dflt
  end.

(** A query parameter used as a condition: present and not empty. *)
Definition queryTruthy (req : request) (k : string) : option string :=
  match queryParam (query req) k with
  | Some v => if String.eqb v EmptyString then None else Some v
  | None => None
  end.

Definition header (r : response) (k : string) : option string :=
  queryParam (headers r) k.

(** What a handler does besides answering: the suspension points of
    the npm facade. *)
Inductive effect : Type :=
| AwaitCacheLoad
| GetPackageMetadata (packageName : string)
| GetVersionMetadata (packageName version : string)
| SearchPackages (text : string) (size from : number)
| OptimizedFilter (filter : string).

Inductive outcome (A : Type) : Type :=
| Returned (a : A)
| Thrown.
Arguments Returned {A} a.
Arguments Thrown {A}.

(** A computation logs its effects and returns or throws. *)
Definition M (A : Type) : Type := (list effect * outcome A)%type.

Definition ret {A : Type} (a : A) : M A := ([], Returned a).

Definition throw {A : Type} : M A := ([], Thrown).

Definition bind {A B : Type} (m : M A) (f : A -> M B) : M B :=
  match m with
  | (t, Returned a) => let '(t', r) := f a in ((t ++ t')%list, r)
  | (t, Thrown) => (t, Thrown)
  end.

(** [try { m } catch { h }] *)
Definition tryCatch {A : Type} (m : M A) (h : M A) : M A :=
  match m with
  | (t, Thrown) => let '(t', r) := h in ((t ++ t')%list, r)
  | (t, Returned a) => (t, Returned a)
  end.

(** [await] an external call whose result is [r]. *)
Definition await {A : Type} (e : effect) (r : outcome A) : M A := ([e], r).

Fixpoint forEach {A S : Type} (f : S -> A -> M S) (l : list A) (s : S) : M S :=
  match l with
  | [] => ret s
  | x :: l' => bind (f s x) (forEach f l')
  end.

(** [v.k]: a TypeError when [v] is null or undefined. *)
Definition member (v : value) (k : string) : M value :=
  match v with
  | VUndefined | VNull => throw
  | _ => ret (get v k)
  end.

Notation "x <- m ;; k" := (bind m (fun x => k))
  (at level 61, m at next level, right associativity).

(** The double quote, for header values. *)
Definition dquote : string := String (ascii_of_nat 34) EmptyString.

(** The answer of a handler that returned. *)
Definition statusOf (m : M response) : Z :=
  match snd m with
  | Returned r => status r
  | Thrown => 0%Z
  end.

Definition bodyOf (m : M response) : value :=
  match snd m with
  | Returned r => body r
  | Thrown => VUndefined
  end.

Definition headerOf (m : M response) (k : string) : option string :=
  match snd m with
  | Returned r => header r k
  | Thrown => None
  end.

Definition schemaContentType : string :=
  "application/json; schema=https://xregistry.io/schemas/xregistry-v1.0-rc2.json".

(** [res.status(code).json(body)] after the headers [hs] were set; the
    [writeHead] hook of [setupMiddleware] tags the content type. *)
Definition sendJson (code : Z) (hs : list (string * string)) (b : value) : response :=
  {| status := code;
     headers := (hs ++ [("Content-Type", schemaContentType)])%list;
     body := b |}.

(** [createProblemDetails]: RFC 9457 problem details; [detail] and
    [instance] are spread in only when truthy. *)
Definition createProblemDetails (code : Z) (title detail instance : string) : value :=
  VObj ([("type", VStr "about:blank"); ("title", VStr title); ("status", VNum (Num code))]
        ++ (if String.eqb detail EmptyString then [] else [("detail", VStr detail)])
        ++ (if String.eqb instance EmptyString then [] else [("instance", VStr instance)]))%list.

End Http.

(* ================================================================== *)
(** * npm/src/server.ts                                                 *)
(* ================================================================== *)

Module Npm.
Import JS Http.

(** The collaborators of [XRegistryServer] that live outside this file
    of the repository, and the process state a request observes.
    - [getBaseUrl] is config/constants.getBaseUrl;
    - [normalizePackageId] is utils/package-utils.normalizePackageId;
    - [getEpoch], [getCreatedAt], [getModifiedAt] are the EntityStateManager;
    - [now] is [new Date().toISOString()], read as one instant per request;
    - [getPackageMetadata], [getVersionMetadata], [searchPackages] are
      the NpmService (null is [VNull]; a rejected promise is [Thrown]);
    - [optimizedFilter] is FilterOptimizer.optimizedFilter;
    - [packageNamesCache] is the name cache when the request arrives and
      [loadedPackageNamesCache] the same field once [cacheLoadingPromise]
      has settled; each entry is the object [{ name }] that
      [loadPackageNamesCache] builds, represented by its name;
    - [localeCompareBase] is [localeCompare] with [sensitivity: 'base'],
      [localeCompareNumeric] the same with [numeric: true];
    - [inheritedString f] is [String(o[f])] for a member [f] that a plain
      object inherits with a truthy value, if there is one;
    - [regExpTest p s] is [new RegExp(p, 'i').test(s)];
    - [lowerCase] is [String.prototype.toLowerCase] on arbitrary text,
      where letters outside ASCII count too. *)
Record env : Type := {
  getBaseUrl : request -> string;
  normalizePackageId : string -> string;
  getEpoch : string -> number;
  getCreatedAt : string -> string;
  getModifiedAt : string -> string;
  now : string;
  getPackageMetadata : string -> outcome value;
  getVersionMetadata : string -> string -> outcome value;
  searchPackages : string -> number -> number -> option number -> outcome value;
  optimizedFilter : string -> outcome (list value);
  packageNamesCache : list string;
  loadedPackageNamesCache : list string;
  localeCompareBase : string -> string -> Z;
  localeCompareNumeric : string -> string -> Z;
  inheritedString : string -> option string;
  regExpTest : string -> string -> outcome bool;
  lowerCase : string -> string;
  model : value;
  healthBody : value;
  statsBody : value
}.

Definition nonEmpty (s : string) : bool := negb (String.eqb s EmptyString).

(** [...(v && { k: v })] *)
Definition spreadIf (k : string) (v : value) : props :=
  if truthy v then [(k, v)] else [].

(** [v !== ''] *)
Definition notEmptyString (v : value) : bool :=
  match v with
  | VStr s => nonEmpty s
  | _ => true
  end.

(** [k: v] in an object literal handed to [res.json]: nothing is sent
    for a member whose value is undefined. *)
Definition sentMember (k : string) (v : value) : props :=
  match v with
  | VUndefined => []
  | _ => [(k, v)]
  end.

(** [if (c) o.k = v] *)
Definition setIf (c : bool) (o : props) (k : string) (v : value) : props :=
  if c then setProp o k v else o.

Definition registryNotFound (req : request) (registryId : string) : response :=
  sendJson 404 []
    (createProblemDetails 404 "Registry not found"
       ("Registry '" ++ registryId ++ "' does not exist") (originalUrl req)).

Definition registryNotFoundPlain (req : request) (registryId : string) : response :=
  sendJson 404 []
    (createProblemDetails 404 "Registry not found"
       ("Registry " ++ registryId ++ " does not exist") (originalUrl req)).

Definition packageNotFound (req : request) (packageName : string) : response :=
  sendJson 404 []
    (createProblemDetails 404 "Package not found"
       ("Package '" ++ packageName ++ "' does not exist in registry") (originalUrl req)).

Definition failure (message : string) : response :=
  sendJson 500 [] (VObj [("error", VStr message)]).

(** ** GET / *)

Definition inlineModel : value :=
  VObj [("groups", VObj [("noderegistries", VObj
    [("plural", VStr "noderegistries"); ("singular", VStr "noderegistry");
     ("resources", VObj [("packages", VObj
        [("plural", VStr "packages"); ("singular", VStr "package");
         ("versions", VObj [("plural", VStr "versions");
                            ("singular", VStr "version")])])])])])].

Definition groupReference (baseUrl : string) : value :=
  VObj [("npmjs.org", VObj
    [("name", VStr "npmjs.org");
     ("xid", VStr "/noderegistries/npmjs.org");
     ("self", VStr (baseUrl ++ "/noderegistries/npmjs.org"));
     ("packagesurl", VStr (baseUrl ++ "/noderegistries/npmjs.org/packages"))])].

Definition registryInfo (E : env) (req : request) : props :=
  let baseUrl := getBaseUrl E req in
  let info :=
    [("specversion", VStr "1.0-rc2");
     ("registryid", VStr "npm-wrapper");
     ("xid", VStr "/");
     ("name", VStr "NPM Registry Service");
     ("self", VStr baseUrl);
     ("description", VStr "xRegistry-compliant NPM package registry");
     ("documentation", VStr "https://docs.npmjs.com/");
     ("epoch", VNum (getEpoch E "/"));
     ("createdat", VStr (getCreatedAt E "/"));
     ("modifiedat", VStr (getModifiedAt E "/"));
     ("modelurl", VStr (baseUrl ++ "/model"));
     ("capabilitiesurl", VStr (baseUrl ++ "/capabilities"));
     ("noderegistriesurl", VStr (baseUrl ++ "/noderegistries"));
     ("noderegistriescount", VNum (Num 1))] in
  let info1 :=
    setIf (has (inline req) "*" || has (inline req) "model") info "model" inlineModel in
  if has (inline req) "*" || has (inline req) "endpoints"
  then setProp info1 "endpoints" (groupReference baseUrl)
  else setProp info1 "noderegistries" (groupReference baseUrl).

Definition rootHandler (E : env) (req : request) : M response :=
  ret (sendJson 200 [("xRegistry-Version", "1.0-rc2")] (VObj (registryInfo E req))).

(** ** GET /noderegistries and GET /noderegistries/:registryId *)

Definition groupInfo (E : env) (req : request) (registryId : string) : value :=
  let baseUrl := getBaseUrl E req in
  let groupPath := "/noderegistries/" ++ registryId in
  VObj [("noderegistryid", VStr registryId);
        ("name", VStr registryId);
        ("xid", VStr groupPath);
        ("self", VStr (baseUrl ++ groupPath));
        ("epoch", VNum (getEpoch E groupPath));
        ("createdat", VStr (getCreatedAt E groupPath));
        ("modifiedat", VStr (getModifiedAt E groupPath));
        ("packagesurl", VStr (baseUrl ++ groupPath ++ "/packages"));
        ("packagescount", VNum (Num 2000000))].

Definition groupsHandler (E : env) (req : request) : M response :=
  ret (sendJson 200 [] (VObj [("npmjs.org", groupInfo E req "npmjs.org")])).

Definition groupHandler (E : env) (req : request) (registryId : string) : M response :=
  if negb (String.eqb registryId "npmjs.org") then ret (registryNotFound req registryId)
  else ret (sendJson 200 [] (groupInfo E req registryId)).

(** ** GET /noderegistries/:registryId/packages *)

Definition packagesPath : string := "/noderegistries/npmjs.org/packages".

(** The entry that all three branches of the handler build for a name;
    [name] is the value found upstream and [packageName] its string. *)
Definition collectionEntry (E : env) (baseUrl : string) (name : value)
    (createdat modifiedat : value) : props :=
  let packageName := toStr name in
  [("name", name);
   ("xid", VStr (packagesPath ++ "/" ++ packageName));
   ("self", VStr (baseUrl ++ packagesPath ++ "/" ++ encodeURIComponent packageName));
   ("packageid", VStr (normalizePackageId E packageName));
   ("epoch", VNum (Num 1));
   ("createdat", createdat);
   ("modifiedat", modifiedat)].

Record filterExpr : Type := {
  field : string;
  operator : string;
  fvalue : string
}.

(** [const [field, value] = part.split(sep)] *)
Definition firstTwo (l : list string) : string * string :=
  (nth 0 l EmptyString, nth 1 l EmptyString).

Definition parsePart (part : string) : list filterExpr :=
  if includes part "!=" then
    let '(f, v) := firstTwo (split part "!=") in
    if nonEmpty f && nonEmpty v
    then [{| field := trim f; operator := "!="; fvalue := trim v |}] else []
  else if includes part "=" then
    let '(f, v) := firstTwo (split part "=") in
    if nonEmpty f && nonEmpty v
    then [{| field := trim f; operator := "="; fvalue := trim v |}] else []
  else [].

Definition parseFilterExpressions (filter : string) : list filterExpr :=
  flat_map parsePart (split filter "&").

Definition wildcardPattern (filterValue : string) : string :=
  "^" ++ replaceAllStars filterValue ".*" ++ "$".

(** [matchesFilter]; [v] is [result.package?.name || ''], on which
    [toLowerCase] exists only when it is a string. *)
Definition matchesFilter (E : env) (v : value) (fe : filterExpr) : M bool :=
  let filterValue := fvalue fe in
  let exact :=
    match v with
    | VStr s => ret (String.eqb (lowerCase E s) (lowerCase E filterValue))
    | _ => throw
    end in
  let wild := ([], regExpTest E (wildcardPattern filterValue) (toStr v)) in
  if String.eqb (operator fe) "=" then
    if includes filterValue "*" then wild else exact
  else if String.eqb (operator fe) "!=" then
    b <- (if includes filterValue "*" then wild else exact) ;; ret (negb b)
  else ret false.

Fixpoint filterM {A : Type} (f : A -> M bool) (l : list A) : M (list A) :=
  match l with
  | [] => ret []
  | x :: l' =>
      b <- f x ;; r <- filterM f l' ;; ret (if b then x :: r else r)
  end.

(** The loop of [handlePackageFilter] over the parsed expressions,
    taken when the name cache is empty. *)
Fixpoint searchFallback (E : env) (filters : list filterExpr) (limit offset : number)
    : M (list value) :=
  match filters with
  | [] => ret []
  | fe :: rest =>
      if String.eqb (field fe) "name" then
        let searchQuery :=
          if includes (fvalue fe) "*" then replaceAllStars (fvalue fe) EmptyString
          else fvalue fe in
        if nonEmpty searchQuery then
          searchResults <- await (SearchPackages searchQuery limit offset)
                             (searchPackages E searchQuery limit offset None) ;;
          let objects := get searchResults "objects" in
          if truthy objects then
            match objects with
            | VArr items =>
                filterM (fun result =>
                           p <- member result "package" ;;
                           matchesFilter E (or_else (get p "name") (VStr EmptyString)) fe)
                        items
            | _ => throw
            end
          else searchFallback E rest limit offset
        else searchFallback E rest limit offset
      else searchFallback E rest limit offset
  end.

Definition handlePackageFilter (E : env) (filter : string) (limit offset : number)
    : M (list value) :=
  tryCatch
    (if negb (Nat.eqb (List.length (packageNamesCache E)) 0) then
       filteredResults <- await (OptimizedFilter filter) (optimizedFilter E filter) ;;
       ret (slice filteredResults offset (num_add offset limit))
     else searchFallback E (parseFilterExpressions filter) limit offset)
    (ret []).

(** The body of [searchResults.forEach] in the filter branch. *)
Definition addFiltered (E : env) (baseUrl : string) (packages : props) (pkg : value)
    : M props :=
  n <- member pkg "name" ;;
  let name := or_else n (get (get pkg "package") "name") in
  if truthy name then
    let date := or_else (get pkg "date") (VStr (now E)) in
    let e0 := collectionEntry E baseUrl name date date in
    let meta (c : value -> bool) (k : string) (e : props) :=
      setIf (truthy (get pkg k) && c (get pkg k)) e k (get pkg k) in
    let e7 :=
      meta notEmptyString "repository"
        (meta lengthPositive "keywords"
           (meta notEmptyString "homepage"
              (meta notEmptyString "license"
                 (meta notEmptyString "author"
                    (meta notEmptyString "version"
                       (meta notEmptyString "description" e0)))))) in
    ret (setProp packages (toStr name) (VObj e7))
  else ret packages.

(** The comparator of the sort branch. *)
Definition sortValue (E : env) (sortField a : string) : string :=
  if String.eqb sortField "name" || String.eqb sortField "packageid" then a
  else match inheritedString E sortField with
       | Some s => s
       | None => a
       end.

Definition compareEntries (E : env) (sortField sortOrder a b : string) : Z :=
  let comparison := localeCompareBase E (sortValue E sortField a) (sortValue E sortField b) in
  if String.eqb sortOrder "desc" then (- comparison)%Z else comparison.

Definition sortedCache (E : env) (sortParam : string) : list string :=
  let cache := loadedPackageNamesCache E in
  match split sortParam "=" with
  | [sortField; order] =>
      if nonEmpty sortField && nonEmpty order
      then sort (compareEntries E sortField (toLowerCase order)) cache
      else cache
  | _ => cache
  end.

Definition packageSlice (E : env) (sortParam : string) (limit offset : number)
    : list string :=
  let sorted := sortedCache E sortParam in
  let startIdx := offset in
  let endIdx := math_min (num_add offset limit) (Num (Z.of_nat (List.length sorted))) in
  slice sorted startIdx endIdx.

Definition addCached (E : env) (baseUrl : string) (packages : props) (packageName : string)
    : props :=
  setProp packages packageName
    (VObj (collectionEntry E baseUrl (VStr packageName) (VStr (now E)) (VStr (now E)))).

(** The body of [searchResults.objects.forEach] in the search branch. *)
Definition addSearched (E : env) (baseUrl : string) (packages : props) (result : value)
    : M props :=
  p <- member result "package" ;;
  let name := get p "name" in
  if truthy name then
    let date := or_else (get p "date") (VStr (now E)) in
    let e0 := collectionEntry E baseUrl name date date in
    let e1 := setIf (truthy (get p "description")) e0 "description" (get p "description") in
    let e2 := setIf (truthy (get p "version")) e1 "version" (get p "version") in
    ret (setProp packages (toStr name) (VObj e2))
  else ret packages.

(** The branch that asks upstream for a popular term. *)
Definition searchPopular (E : env) (baseUrl : string) (limit offset : number) : M props :=
  searchResults <- await (SearchPackages "react" limit offset)
                     (searchPackages E "react" limit offset (Some (Num 1))) ;;
  let objects := get searchResults "objects" in
  if truthy objects && lengthPositive objects then
    match objects with
    | VArr items => forEach (addSearched E baseUrl) items []
    | _ => throw
    end
  else ret [].

(** The [packages] object, branch by branch. *)
Definition collectPackages (E : env) (req : request) (limit offset : number) : M props :=
  let baseUrl := getBaseUrl E req in
  match queryTruthy req "filter" with
  | Some filter =>
      searchResults <- handlePackageFilter E filter limit offset ;;
      forEach (addFiltered E baseUrl) searchResults []
  | None =>
      match queryTruthy req "sort" with
      | Some sortParam =>
          _ <- await AwaitCacheLoad (Returned tt) ;;
          if negb (Nat.eqb (List.length (loadedPackageNamesCache E)) 0) then
            ret (fold_left (addCached E baseUrl) (packageSlice E sortParam limit offset) [])
          else
            searchPopular E baseUrl limit offset
      | None =>
          searchPopular E baseUrl limit offset
      end
  end.

Definition linkHeader (E : env) (req : request) (limit offset : number)
    (returnedCount : nat) : list (string * string) :=
  let filter := queryTruthy req "filter" in
  let count := Num (Z.of_nat returnedCount) in
  let shouldSetLink :=
    match filter with
    | Some _ => num_gt count (Num 0)
    | None => num_ge count limit
    end in
  if shouldSetLink then
    let nextOffset := num_add offset limit in
    let nextUrl := getBaseUrl E req ++ packagesPath ++ "?limit=" ++ numToString limit
                   ++ "&offset=" ++ numToString nextOffset in
    match filter with
    | Some f => [("Link", "<" ++ nextUrl ++ "&filter=" ++ encodeURIComponent f
                          ++ ">; rel=" ++ dquote ++ "next" ++ dquote)]
    | None => [("Link", "<" ++ nextUrl ++ ">; rel=" ++ dquote ++ "next" ++ dquote)]
    end
  else [].

Definition limitOf (req : request) : number := parseInt (queryOr req "limit" "20").
Definition offsetOf (req : request) : number := parseInt (queryOr req "offset" "0").

Definition packagesHandler (E : env) (req : request) (registryId : string) : M response :=
  tryCatch
    (if negb (String.eqb registryId "npmjs.org") then ret (registryNotFound req registryId)
     else
       let limit := limitOf req in
       let offset := offsetOf req in
       if num_le limit (Num 0) then
         ret (sendJson 400 []
                (createProblemDetails 400 "Invalid Request"
                   "The limit parameter must be greater than 0" (originalUrl req)))
       else
         packages <- collectPackages E req limit offset ;;
         ret (sendJson 200 (linkHeader E req limit offset (List.length packages))
                (VObj packages)))
    (ret (failure "Failed to retrieve packages")).

(** ** GET .../packages/:packageName and .../packages/:packageName/meta *)

Definition firstKey (v : value) : value :=
  match keys v with
  | k :: _ => VStr k
  | [] => VUndefined
  end.

Definition emptyObject : value := VObj [].

(** [metadata['dist-tags']?.latest || Object.keys(metadata.versions || {})[0] || '0.0.0'] *)
Definition defaultVersionOf (metadata : value) : value :=
  or_else (or_else (get (get metadata "dist-tags") "latest")
                   (firstKey (or_else (get metadata "versions") emptyObject)))
          (VStr "0.0.0").

(** [Object.keys(metadata.versions || {}).length] *)
Definition versionsCountOf (metadata : value) : nat :=
  List.length (keys (or_else (get metadata "versions") emptyObject)).

Definition packagePathOf (registryId packageName : string) : string :=
  "/noderegistries/" ++ registryId ++ "/packages/" ++ packageName.

Definition packageInfo (E : env) (req : request) (registryId packageName : string)
    (metadata : value) : value :=
  let baseUrl := getBaseUrl E req in
  let packagePath := packagePathOf registryId packageName in
  VObj [("name", VStr packageName);
        ("xid", VStr packagePath);
        ("self", VStr (baseUrl ++ packagePath));
        ("packageid", VStr (normalizePackageId E packageName));
        ("epoch", VNum (getEpoch E packagePath));
        ("createdat", or_else (get (get metadata "time") "created")
                              (VStr (getCreatedAt E packagePath)));
        ("modifiedat", or_else (get (get metadata "time") "modified")
                               (VStr (getModifiedAt E packagePath)));
        ("versionid", defaultVersionOf metadata);
        ("isdefault", VBool true);
        ("metaurl", VStr (baseUrl ++ packagePath ++ "/meta"));
        ("versionsurl", VStr (baseUrl ++ packagePath ++ "/versions"));
        ("versionscount", VNum (Num (Z.of_nat (versionsCountOf metadata))));
        ("description", or_else (get metadata "description") (VStr EmptyString));
        ("homepage", or_else (get metadata "homepage") (VStr EmptyString));
        ("repository", or_else (get metadata "repository") emptyObject);
        ("keywords", or_else (get metadata "keywords") (VArr []));
        ("license", or_else (get metadata "license") (VStr EmptyString));
        ("author", or_else (get metadata "author") emptyObject);
        ("maintainers", or_else (get metadata "maintainers") (VArr []));
        ("dist-tags", or_else (get metadata "dist-tags") emptyObject)].

Definition metaInfo (E : env) (req : request) (registryId packageName : string)
    (metadata : value) : value :=
  let baseUrl := getBaseUrl E req in
  let packagePath := packagePathOf registryId packageName in
  VObj [("xid", VStr packagePath);
        ("self", VStr (baseUrl ++ packagePath));
        ("name", VStr packageName);
        ("packageid", VStr (normalizePackageId E packageName));
        ("epoch", VNum (getEpoch E packagePath));
        ("createdat", or_else (get (get metadata "time") "created")
                              (VStr (getCreatedAt E packagePath)));
        ("modifiedat", or_else (get (get metadata "time") "modified")
                               (VStr (getModifiedAt E packagePath)));
        ("versionid", defaultVersionOf metadata);
        ("isdefault", VBool true);
        ("metaurl", VStr (baseUrl ++ packagePath ++ "/meta"));
        ("versionsurl", VStr (baseUrl ++ packagePath ++ "/versions"));
        ("versionscount", VNum (Num (Z.of_nat (versionsCountOf metadata))))].

Definition packageHandler (E : env) (req : request) (registryId packageName : string)
    : M response :=
  tryCatch
    (if negb (String.eqb registryId "npmjs.org") then ret (registryNotFound req registryId)
     else
       metadata <- await (GetPackageMetadata packageName) (getPackageMetadata E packageName) ;;
       if negb (truthy metadata) then ret (packageNotFound req packageName)
       else ret (sendJson 200 [] (packageInfo E req registryId packageName metadata)))
    (ret (failure "Failed to retrieve package metadata")).

Definition packageMetaHandler (E : env) (req : request) (registryId packageName : string)
    : M response :=
  tryCatch
    (if negb (String.eqb registryId "npmjs.org") then ret (registryNotFound req registryId)
     else
       metadata <- await (GetPackageMetadata packageName) (getPackageMetadata E packageName) ;;
       if negb (truthy metadata) then ret (packageNotFound req packageName)
       else ret (sendJson 200 [] (metaInfo E req registryId packageName metadata)))
    (ret (failure "Failed to retrieve package metadata")).

(** ** GET .../versions/:version and .../versions/:version/meta *)

(** [allVersions.indexOf(version)] and the choice of the ancestor:
    the key just before [version] in [allVersions], or [version] itself
    when it is the first key or not a key at all. *)
Definition ancestorOf (allVersions : list string) (version : string) : string :=
  match indexOfList allVersions version with
  | Some (S i) => nth i allVersions version
  | _ => version
  end.

(** [Object.keys(packageMetadata?.versions || {})] *)
Definition allVersionsOf (packageMetadata : value) : list string :=
  keys (or_else (get packageMetadata "versions") emptyObject).

(** [version === packageMetadata?.['dist-tags']?.latest] *)
Definition isDefaultVersion (packageMetadata : value) (version : string) : bool :=
  match get (get packageMetadata "dist-tags") "latest" with
  | VStr d => String.eqb version d
  | _ => false
  end.

Definition versionPathOf (registryId packageName version : string) : string :=
  "/noderegistries/" ++ registryId ++ "/packages/" ++ packageName ++ "/versions/" ++ version.

Definition versionNotFound (req : request) (packageName version : string) : response :=
  sendJson 404 []
    (createProblemDetails 404 "Version not found"
       ("Version " ++ version ++ " of package " ++ packageName ++ " does not exist")
       (originalUrl req)).

Definition versionMetaInfo (E : env) (req : request) (registryId packageName version : string)
    (versionData packageMetadata : value) : value :=
  let baseUrl := getBaseUrl E req in
  let versionPath := versionPathOf registryId packageName version in
  VObj ([("xid", VStr versionPath);
         ("self", VStr (baseUrl ++ versionPath))]
        ++ sentMember "versionid" (get versionData "versionid")
        ++ [("packageid", VStr (normalizePackageId E packageName));
            ("epoch", VNum (getEpoch E versionPath));
            ("createdat", or_else (get versionData "createdat")
                                  (VStr (getCreatedAt E versionPath)));
            ("modifiedat", or_else (get versionData "modifiedat")
                                   (VStr (getModifiedAt E versionPath)));
            ("isdefault", VBool (isDefaultVersion packageMetadata version));
            ("ancestor", VStr (ancestorOf (allVersionsOf packageMetadata) version))])%list.

Definition versionInfo (E : env) (req : request) (registryId packageName version : string)
    (versionData packageMetadata : value) : value :=
  let baseUrl := getBaseUrl E req in
  let versionPath := versionPathOf registryId packageName version in
  VObj (sentMember "versionid" (get versionData "versionid")
        ++ [("xid", VStr versionPath);
            ("self", VStr (baseUrl ++ versionPath))]
        ++ sentMember "name" (get versionData "name")
        ++ [("packageid", VStr (normalizePackageId E packageName));
         ("epoch", VNum (getEpoch E versionPath));
         ("createdat", or_else (get versionData "createdat")
                               (VStr (getCreatedAt E versionPath)));
         ("modifiedat", or_else (get versionData "modifiedat")
                                (VStr (getModifiedAt E versionPath)));
         ("isdefault", VBool (isDefaultVersion packageMetadata version));
         ("ancestor", VStr (ancestorOf (allVersionsOf packageMetadata) version));
         ("description", or_else (get versionData "description") (VStr EmptyString));
         ("deprecated", or_else (get versionData "deprecated") (VBool false));
         ("contenttype", VStr "application/vnd.npm.install-v1+json")]
        ++ spreadIf "license" (get versionData "license")
        ++ spreadIf "homepage" (get versionData "homepage")
        ++ spreadIf "repository" (get versionData "repository")
        ++ spreadIf "bugs" (get versionData "bugs")
        ++ spreadIf "keywords" (get versionData "keywords")
        ++ spreadIf "dependencies" (get versionData "dependencies")
        ++ spreadIf "devDependencies" (get versionData "devDependencies")
        ++ spreadIf "peerDependencies" (get versionData "peerDependencies")
        ++ spreadIf "dist" (get versionData "dist"))%list.

Definition versionLookup (E : env) (req : request) (registryId packageName version : string)
    (build : value -> value -> value) (message : string) : M response :=
  tryCatch
    (if negb (String.eqb registryId "npmjs.org")
     then ret (registryNotFoundPlain req registryId)
     else
       versionData <- await (GetVersionMetadata packageName version)
                        (getVersionMetadata E packageName version) ;;
       if negb (truthy versionData) then ret (versionNotFound req packageName version)
       else
         packageMetadata <- await (GetPackageMetadata packageName)
                              (getPackageMetadata E packageName) ;;
         ret (sendJson 200 [] (build versionData packageMetadata)))
    (ret (failure message)).

Definition versionMetaHandler (E : env) (req : request)
    (registryId packageName version : string) : M response :=
  versionLookup E req registryId packageName version
    (versionMetaInfo E req registryId packageName version)
    "Failed to retrieve version metadata".

Definition versionHandler (E : env) (req : request)
    (registryId packageName version : string) : M response :=
  versionLookup E req registryId packageName version
    (versionInfo E req registryId packageName version)
    "Failed to retrieve package version".

(** ** GET .../packages/:packageName/versions *)

(** [sortParts.length === 2 && sortParts[1] ? sortParts[1].toLowerCase() : 'asc'] *)
Definition versionSortOrder (req : request) : string :=
  match queryTruthy req "sort" with
  | Some sortParam =>
      match split sortParam "=" with
      | [_; order] => if nonEmpty order then toLowerCase order else "asc"
      | _ => "asc"
      end
  | None => "asc"
  end.

Definition compareVersions (E : env) (sortOrder a b : string) : Z :=
  let comparison := localeCompareNumeric E a b in
  if String.eqb sortOrder "desc" then (- comparison)%Z else comparison.

Definition versionsLimitOf (req : request) : number := parseInt (queryOr req "limit" "100").

(** The keys are cut to the limit first and sorted afterwards. *)
Definition versionKeys (E : env) (req : request) (metadata : value) : list string :=
  let limited := slice (keys (get metadata "versions")) (Num 0) (versionsLimitOf req) in
  sort (compareVersions E (versionSortOrder req)) limited.

Definition versionEntry (E : env) (req : request) (packageName : string) (metadata : value)
    (versionId : string) : value :=
  let baseUrl := getBaseUrl E req in
  let versionData := get (get metadata "versions") versionId in
  let time := get (get metadata "time") versionId in
  let stamp := if truthy (get metadata "time") && truthy time then time else VStr (now E) in
  VObj [("versionid", VStr versionId);
        ("xid", VStr (packagesPath ++ "/" ++ packageName ++ "/versions/" ++ versionId));
        ("self", VStr (baseUrl ++ packagesPath ++ "/" ++ encodeURIComponent packageName
                       ++ "/versions/" ++ encodeURIComponent versionId));
        ("name", VStr versionId);
        ("epoch", VNum (Num 1));
        ("createdat", stamp);
        ("modifiedat", stamp);
        ("description",
           if truthy versionData && truthy (get versionData "description")
           then get versionData "description"
           else or_else (get metadata "description") (VStr EmptyString));
        ("deprecated",
           if truthy versionData && truthy (get versionData "deprecated")
           then get versionData "deprecated"
           else VBool false)].

Definition versionsObj (E : env) (req : request) (packageName : string) (metadata : value)
    : props :=
  fold_left (fun o versionId => setProp o versionId (versionEntry E req packageName metadata versionId))
            (versionKeys E req metadata) [].

Definition versionsHandler (E : env) (req : request) (registryId packageName : string)
    : M response :=
  tryCatch
    (if negb (String.eqb registryId "npmjs.org") then ret (registryNotFound req registryId)
     else
       metadata <- await (GetPackageMetadata packageName) (getPackageMetadata E packageName) ;;
       if negb (truthy metadata) || negb (truthy (get metadata "versions"))
       then ret (packageNotFound req packageName)
       else ret (sendJson 200 [] (VObj (versionsObj E req packageName metadata))))
    (ret (failure "Failed to retrieve package versions")).

(** ** The catch-all for write methods, and the 404 handler *)

Definition writeMethods : list string := ["PUT"; "PATCH"; "POST"; "DELETE"].

(** [None] stands for the call of [next()]. *)
Definition writeMethodCatchAll (req : request) : option response :=
  let method := toUpperCase (Http.method req) in
  if has writeMethods method then
    Some (sendJson 405 []
            (createProblemDetails 405 "Method Not Allowed"
               ("This registry is read-only. " ++ method ++ " operations are not supported.")
               (originalUrl req)))
  else None.

Definition notFoundHandler (req : request) : response :=
  sendJson 404 []
    (createProblemDetails 404 "Not Found"
       ("Route " ++ Http.method req ++ " " ++ originalUrl req ++ " not found")
       (originalUrl req)).

(** ** The route table of [setupRoutes], in registration order *)

Inductive endpoint : Type :=
| Health
| Root
| Capabilities
| Export
| Model
| Stats
| Groups
| Group (registryId : string)
| Packages (registryId : string)
| Package (registryId packageName : string)
| PackageMeta (registryId packageName : string)
| VersionMeta (registryId packageName version : string)
| Version (registryId packageName version : string)
| Versions (registryId packageName : string).

(** A literal path segment; routing is case-insensitive by default. *)
Definition lit (segment literal : string) : bool :=
  String.eqb (toLowerCase segment) literal.

(** The [app.get] route that a path selects; a parameter binds one
    non-empty segment, so no two routes overlap. *)
Definition route (segs : list string) : option endpoint :=
  match segs with
  | [] => Some Root
  | [a] =>
      if lit a "health" then Some Health
      else if lit a "capabilities" then Some Capabilities
      else if lit a "export" then Some Export
      else if lit a "model" then Some Model
      else if lit a "noderegistries" then Some Groups
      else None
  | [a; b] =>
      if lit a "performance" && lit b "stats" then Some Stats
      else if lit a "noderegistries" && nonEmpty b then Some (Group b)
      else None
  | a :: r :: c :: rest =>
      if lit a "noderegistries" && nonEmpty r && lit c "packages" then
        match rest with
        | [] => Some (Packages r)
        | [p] => if nonEmpty p then Some (Package r p) else None
        | [p; d] =>
            if nonEmpty p && lit d "meta" then Some (PackageMeta r p)
            else if nonEmpty p && lit d "versions" then Some (Versions r p)
            else None
        | [p; d; v] =>
            if nonEmpty p && lit d "versions" && nonEmpty v then Some (Version r p v)
            else None
        | [p; d; v; m] =>
            if nonEmpty p && lit d "versions" && nonEmpty v && lit m "meta"
            then Some (VersionMeta r p v) else None
        | _ => None
        end
      else None
  end.

Definition capabilities : value :=
  VObj [("apis", VArr [VStr "/capabilities"; VStr "/model"; VStr "/export"]);
        ("flags", VArr (map VStr ["inline"; "filter"; "sort"; "epoch"; "noreadonly";
                                  "schema"; "doc"]));
        ("mutable", VBool false);
        ("pagination", VBool true);
        ("specversions", VArr [VStr "1.0-rc2"])].

Definition handle (E : env) (req : request) (e : endpoint) : M response :=
  match e with
  | Health => ret (sendJson 200 [] (healthBody E))
  | Root => rootHandler E req
  | Capabilities => ret (sendJson 200 [] capabilities)
  | Export =>
      ret {| status := 302;
             headers := [("Location", "/?doc&inline=*,capabilities,modelsource")];
             body := VUndefined |}
  | Model => ret (sendJson 200 [] (model E))
  | Stats => ret (sendJson 200 [] (statsBody E))
  | Groups => groupsHandler E req
  | Group r => groupHandler E req r
  | Packages r => packagesHandler E req r
  | Package r p => packageHandler E req r p
  | PackageMeta r p => packageMetaHandler E req r p
  | VersionMeta r p v => versionMetaHandler E req r p v
  | Version r p v => versionHandler E req r p v
  | Versions r p => versionsHandler E req r p
  end.

(** [app.get] serves GET, and HEAD in the absence of a HEAD route. *)
Definition isRead (m : string) : bool := String.eqb m "GET" || String.eqb m "HEAD".

(** The routes of [setupRoutes] applied to a request that the
    middleware of [setupMiddleware] has passed on. *)
Definition dispatch (E : env) (req : request) : M response :=
  match (if isRead (Http.method req) then route (segments req) else None) with
  | Some e => handle E req e
  | None =>
      match writeMethodCatchAll req with
      | Some r => ret r
      | None => ret (notFoundHandler req)
      end
  end.

(** ** fetchPackageMetadata, the metadata fetcher of the filter optimizer *)


(** The registry that an endpoint names, if it names one. *)
Definition registryOf (e : endpoint) : option string :=
  match e with
  | Group r | Packages r | Package r _ | PackageMeta r _
  | VersionMeta r _ _ | Version r _ _ | Versions r _ => Some r
  | _ => None
  end.

End Npm.

(* ================================================================== *)
(** * pypi/src/server.ts                                                *)
(* ================================================================== *)

Module Pypi.
Import JS Http.

(** [routers] stands for the routers mounted from routes/xregistry and
    routes/packages and for the two GET routes of this file: the answer
    they give, or [None] when the request falls through them.
    [apiKey] is the configured key, if any.  The CORS and logging
    middleware that come first are taken to pass every request on. *)
Record env : Type := {
  apiKey : option string;
  routers : request -> option response
}.

Definition unauthorized (req : request) (title detail : string) : response :=
  {| status := 401;
     headers := [];
     body := VObj [("type", VStr "https://github.com/xregistry/spec/blob/main/core/spec.md#unauthorized");
                   ("title", VStr title);
                   ("status", VNum (Num 401));
                   ("instance", VStr (originalUrl req));
                   ("detail", VStr detail)] |}.

(** The API key middleware, installed only when a key is configured. *)
Definition authenticate (key : string) (req : request) : option response :=
  if String.eqb (method req) "OPTIONS" then None
  else if String.eqb (path req) "/model"
          && (String.eqb (ip req) "127.0.0.1" || String.eqb (ip req) "::1") then None
  else
    match authorization req with
    | None =>
        Some (unauthorized req "Authentication required"
                "API key must be provided in the Authorization header")
    | Some authHeader =>
        if String.eqb authHeader EmptyString then
          Some (unauthorized req "Authentication required"
                  "API key must be provided in the Authorization header")
        else
          let parts := split authHeader " " in
          let scheme := nth 0 parts EmptyString in
          if negb (String.eqb (toLowerCase scheme) "bearer") then
            Some (unauthorized req "Invalid authorization format"
                    "Format is: Authorization: Bearer <api-key>")
          else
            match nth_error parts 1 with
            | Some credentials =>
                if String.eqb credentials key then None
                else Some (unauthorized req "Invalid API key"
                             "The provided API key is not valid")
            | None => Some (unauthorized req "Invalid API key"
                              "The provided API key is not valid")
            end
    end.

Definition writeMethods : list string := ["PUT"; "PATCH"; "POST"; "DELETE"].

(** The 405 catch-all; [None] stands for the call of [next()]. *)
Definition methodNotAllowed (req : request) : option response :=
  if existsb (String.eqb (method req)) writeMethods then
    Some {| status := 405;
            headers := [];
            body := VObj [("type", VStr "about:blank");
                          ("title", VStr "Method Not Allowed");
                          ("status", VNum (Num 405));
                          ("detail", VStr (method req ++ " method not supported on " ++ path req));
                          ("instance", VStr (path req))] |}
  else None.

Definition notFound (req : request) : response :=
  {| status := 404;
     headers := [];
     body := VObj [("type", VStr "https://github.com/xregistry/spec/blob/main/core/spec.md#not-found");
                   ("title", VStr "Not Found");
                   ("status", VNum (Num 404));
                   ("instance", VStr (if String.eqb (originalUrl req) EmptyString
                                      then path req else originalUrl req));
                   ("detail", VStr ("The requested resource '" ++ path req ++ "' was not found"))] |}.

(** The trailing slash handler: [req.url] becomes the path without its
    last slash, followed by the query string, so that [req.path] loses
    the slash and [req.query] stays; [req.originalUrl] is not touched. *)
Definition trailingSlash (req : request) : request :=
  if (1 <? String.length (path req))%nat && endsWith (path req) "/" then
    {| method := method req;
       segments := segments req;
       path := take (String.length (path req) - 1) (path req);
       originalUrl := originalUrl req;
       query := query req;
       inline := inline req;
       authorization := authorization req;
       ip := ip req |}
  else req.

(** The authentication step: absent without a (truthy) key. *)
Definition guard (E : env) (req : request) : option response :=
  match apiKey E with
  | Some key => if String.eqb key EmptyString then None else authenticate key req
  | None => None
  end.

(** The middleware chain of the application, in registration order:
    the API key check reads the request as it came; the routers, the
    405 catch-all and the 404 handler read it as the trailing slash
    handler leaves it. *)
Definition app (E : env) (req : request) : response :=
  match guard E req with
  | Some r => r
  | None =>
      let req' := trailingSlash req in
      match routers E req' with
      | Some r => r
      | None =>
          match methodNotAllowed req' with
          | Some r => r
          | None => notFound req'
          end
      end
  end.

End Pypi.

(* ================================================================== *)
(** * The vocabulary of the specification                               *)
(* ================================================================== *)

Module Spec.
Import JS Http.

(** [self = bridgeBaseUrl + xid] on an entity. *)
Definition selfIsBasePlusXid (base : string) (entity : value) : bool :=
  match get entity "xid", get entity "self" with
  | VStr xid, VStr self => String.eqb self (base ++ xid)
  | _, _ => false
  end.

Fixpoint noDollar (s : string) : bool :=
  match s with
  | EmptyString => true
  | String c s' => negb (Ascii.eqb c dollar) && noDollar s'
  end.

(** The rewriter as section 4.D words it: recurse, skip the fields
    whose key is [xid], and in every other string that begins with the
    upstream origin put the bridge base URL in place of that prefix. *)
Fixpoint rewriteSpec (upstream bridge : string) (key : option string) (v : value)
    {struct v} : value :=
  match v with
  | VStr s =>
      match key with
      | Some k =>
          if String.eqb k "xid" then v
          else if startsWith s upstream
               then VStr (bridge ++ drop (String.length upstream) s) else v
      | None =>
          if startsWith s upstream
          then VStr (bridge ++ drop (String.length upstream) s) else v
      end
  | VArr items => VArr (map (rewriteSpec upstream bridge None) items)
  | VObj entries =>
      VObj (map (fun entry => let '(k, x) := entry in
                              (k, rewriteSpec upstream bridge (Some k) x)) entries)
  | _ => v
  end.

Fixpoint distinct (l : list string) : bool :=
  match l with
  | [] => true
  | x :: l' => negb (has l' x) && distinct l'
  end.

(** Keys pairwise distinct and none of them ["__proto__"]. *)
Definition plainKeys (l : list string) : bool :=
  distinct l && negb (has l "__proto__").

(** The same of the properties of an object under construction. *)
Definition good (o : props) : Prop :=
  NoDup (map fst o) /\ ~ In "__proto__" (map fst o).

(** A value all of whose objects have plain keys. *)
Fixpoint plain (v : value) : bool :=
  match v with
  | VArr items => forallb plain items
  | VObj entries =>
      plainKeys (map fst entries)
      && forallb (fun entry => let '(_, x) := entry in plain x) entries
  | _ => true
  end.

(** The upstream search never returns more hits than the [size] asked. *)
Definition honoursSize (E : Npm.env) : Prop :=
  forall text z from popularity v items,
    (0 <= z)%Z ->
    Npm.searchPackages E text (Num z) from popularity = Returned v ->
    get v "objects" = VArr items ->
    (Z.of_nat (List.length items) <= z)%Z.

(** A comparator under which two elements are never each after the other. *)
Definition asymmetric {A : Type} (cmp : A -> A -> Z) : Prop :=
  forall a b, (0 < cmp a b)%Z -> (cmp b a <= 0)%Z.

Definition inOrder {A : Type} (cmp : A -> A -> Z) (a b : A) : Prop := (cmp a b <= 0)%Z.

(** A problem-details body whose [status] member is the HTTP status. *)
Definition isProblem (resp : response) : bool :=
  match get (body resp) "type", get (body resp) "title", get (body resp) "status" with
  | VStr t, VStr _, VNum (Num c) => String.eqb t "about:blank" && (c =? status resp)%Z
  | _, _, _ => false
  end.

(** The answers of the npm facade. *)
Definition wellAnswered (resp : response) : Prop :=
  status resp = 200%Z
  \/ status resp = 302%Z
  \/ ((status resp = 400%Z \/ status resp = 404%Z \/ status resp = 405%Z)
      /\ isProblem resp = true)
  \/ (status resp = 500%Z /\ exists message, body resp = VObj [("error", VStr message)]).

Fixpoint lacks (c : ascii) (s : string) : bool :=
  match s with
  | EmptyString => true
  | String b s' => negb (Ascii.eqb b c) && lacks c s'
  end.

Definition space : ascii := " "%char.

(** The request is outside the API key check of the PyPI facade, which
    reads [req.path] before any middleware has rewritten it. *)
Definition exempt (req : request) : Prop :=
  method req = "OPTIONS"
  \/ (path req = "/model" /\ (ip req = "127.0.0.1" \/ ip req = "::1")).

(** An entry of the packages collection stored under the key [k]. *)
Definition keyedEntry (base k : string) (e : value) : Prop :=
  toStr (get e "name") = k
  /\ get e "xid" = VStr (Npm.packagesPath ++ "/" ++ k)
  /\ get e "self" = VStr (base ++ Npm.packagesPath ++ "/" ++ encodeURIComponent k).

Definition allKeyed (base : string) (packages : props) : Prop :=
  forall k e, In (k, e) packages -> keyedEntry base k e.

(** A packages collection: every entry under its own name, no key
    twice, and no key ["__proto__"]. *)
Definition wellKeyed (base : string) (packages : props) : Prop :=
  allKeyed base packages /\ good packages.

End Spec.

(* ================================================================== *)
(** * Concrete environments and requests                                *)
(* ================================================================== *)

Module Samples.
Import JS Http.

Definition byteCompare (a b : string) : Z :=
  match String.compare a b with
  | Lt => (-1)%Z
  | Eq => 0%Z
  | Gt => 1%Z
  end.

Definition base : string := "https://bridge.example".

(** An npm facade over a given name cache and upstream documents. *)
Definition npmEnv (cache : list string) (packument : string -> outcome value)
    (versionDoc : string -> string -> outcome value)
    (hits : string -> number -> outcome value) : Npm.env :=
  {| Npm.getBaseUrl := fun _ => base;
     Npm.normalizePackageId := toLowerCase;
     Npm.getEpoch := fun _ => Num 1;
     Npm.getCreatedAt := fun _ => "2024-01-01T00:00:00.000Z";
     Npm.getModifiedAt := fun _ => "2024-01-01T00:00:00.000Z";
     Npm.now := "2024-06-01T00:00:00.000Z";
     Npm.getPackageMetadata := packument;
     Npm.getVersionMetadata := versionDoc;
     Npm.searchPackages := fun text size _ _ => hits text size;
     Npm.optimizedFilter := fun _ => Returned [];
     Npm.packageNamesCache := cache;
     Npm.loadedPackageNamesCache := cache;
     Npm.localeCompareBase := byteCompare;
     Npm.localeCompareNumeric := byteCompare;
     Npm.inheritedString := fun _ => None;
     Npm.regExpTest := fun _ _ => Returned false;
     Npm.lowerCase := toLowerCase;
     Npm.model := VObj [];
     Npm.healthBody := VObj [("status", VStr "healthy")];
     Npm.statsBody := VObj [] |}.

Definition noPackument : string -> outcome value := fun _ => Returned VNull.
Definition noVersionDoc : string -> string -> outcome value := fun _ _ => Returned VNull.
Definition noHits : string -> number -> outcome value :=
  fun _ _ => Returned (VObj [("objects", VArr [])]).

(** The path name of a URL: what comes before the query string. *)
Definition pathName (url : string) : string :=
  match indexOf url "?" with
  | Some i => take i url
  | None => url
  end.

Definition request_ (m : string) (segs : list string) (url : string)
    (q : list (string * string)) : request :=
  {| method := m; segments := segs; path := pathName url; originalUrl := url;
     query := q; inline := []; authorization := None; ip := "203.0.113.7" |}.

Definition packagesSegments : list string := ["noderegistries"; "npmjs.org"; "packages"].

(** A cache holding one scoped name, listed with [sort=name=asc]. *)
Definition scopedEnv : Npm.env := npmEnv ["@scope/pkg"] noPackument noVersionDoc noHits.

Definition scopedRequest : request :=
  request_ "GET" packagesSegments "/noderegistries/npmjs.org/packages?sort=name=asc"
    [("sort", "name=asc")].

(** A package whose [versions] map lists the newer version first. *)
Definition twoVersions : value :=
  VObj [("name", VStr "demo");
        ("dist-tags", VObj [("latest", VStr "2.0.0")]);
        ("versions", VObj [("2.0.0", VObj [("version", VStr "2.0.0")]);
                           ("1.0.0", VObj [("version", VStr "1.0.0")])]);
        ("time", VObj [("created", VStr "2020-01-01T00:00:00.000Z");
                       ("modified", VStr "2021-01-01T00:00:00.000Z");
                       ("1.0.0", VStr "2020-01-01T00:00:00.000Z");
                       ("2.0.0", VStr "2021-01-01T00:00:00.000Z")])].

Definition firstVersionDoc : value :=
  VObj [("versionid", VStr "1.0.0");
        ("name", VStr "demo");
        ("createdat", VStr "2020-01-01T00:00:00.000Z");
        ("modifiedat", VStr "2020-01-01T00:00:00.000Z")].

Definition twoVersionsEnv : Npm.env :=
  npmEnv [] (fun _ => Returned twoVersions) (fun _ _ => Returned firstVersionDoc) noHits.

Definition versionRequest (suffix : list string) (url : string) : request :=
  request_ "GET" (["noderegistries"; "npmjs.org"; "packages"; "demo"; "versions"] ++ suffix)%list
    url [].

(** A package with 101 versions, [1.0.0] to [1.0.100]. *)
Definition manyVersions : value :=
  VObj [("name", VStr "busy");
        ("versions",
           VObj (map (fun i => ("1.0." ++ natToString i, VObj [])) (seq 0 101)))].

Definition manyVersionsEnv : Npm.env :=
  npmEnv [] (fun _ => Returned manyVersions) noVersionDoc noHits.

Definition busyRequest (suffix : list string) (url : string)
    (q : list (string * string)) : request :=
  request_ "GET" (["noderegistries"; "npmjs.org"; "packages"; "busy"] ++ suffix)%list url q.

(** The versions of [twoVersions] listed with [limit=1] and a sort. *)
Definition sortedVersionsRequest : request :=
  request_ "GET" ["noderegistries"; "npmjs.org"; "packages"; "demo"; "versions"]
    "/noderegistries/npmjs.org/packages/demo/versions?limit=1&sort=versionid=asc"
    [("limit", "1"); ("sort", "versionid=asc")].

Definition cachedEnv : Npm.env :=
  npmEnv ["lodash"; "express"; "react"] noPackument noVersionDoc noHits.

Definition sortedPackagesRequest : request :=
  request_ "GET" packagesSegments
    "/noderegistries/npmjs.org/packages?limit=2&sort=name=asc"
    [("limit", "2"); ("sort", "name=asc")].

Definition limitRequest (limit : string) : request :=
  request_ "GET" packagesSegments "/noderegistries/npmjs.org/packages"
    [("limit", limit)].

Definition filteredRequest : request :=
  request_ "GET" packagesSegments "/noderegistries/npmjs.org/packages?filter=name=zzz*"
    [("filter", "name=zzz*")].

Definition filterSortRequest : request :=
  request_ "GET" packagesSegments
    "/noderegistries/npmjs.org/packages?filter=name=*&sort=name=desc"
    [("filter", "name=*"); ("sort", "name=desc")].

Definition putRequest : request :=
  request_ "PUT" packagesSegments "/noderegistries/npmjs.org/packages" [].

(** The bridge in front of a facade. *)
Definition upstream : string := "http://npm:3100".

(** A body in which an object carries a key named [__proto__]. *)
Definition protoBody : value :=
  VObj [("name", VStr "demo");
        ("bugs", VObj [("__proto__", VObj [("xid", VStr "/noderegistries/npmjs.org");
                                           ("self", VStr "http://npm:3100/noderegistries/npmjs.org")]);
                       ("url", VStr "http://npm:3100/issues")])].

(** A bridge base URL that holds a replacement pattern. *)
Definition patternBase : string := "https://bridge.example/$&".

(** An ordinary body: an entity with [xid] and [self], and an array. *)
Definition plainBody : value :=
  VObj [("xid", VStr "http://npm:3100/noderegistries/npmjs.org");
        ("self", VStr "http://npm:3100/noderegistries/npmjs.org");
        ("links", VArr [VStr "http://npm:3100/model"; VStr "https://example.org/"; VNum (Num 3)]);
        ("npmjs.org", VObj [("xid", VStr "/noderegistries/npmjs.org");
                            ("packagesurl", VStr "http://npm:3100/noderegistries/npmjs.org/packages")])].

(** A bridge whose base URL is a proper prefix of the upstream origin. *)
Definition shortBridge : string := "http://registry".
Definition longUpstream : string := "http://registry.internal".
Definition foreignUrl : value := VStr "http://registry.internal.internal/pkg".

Definition openPypi : Pypi.env := {| Pypi.apiKey := None; Pypi.routers := fun _ => None |}.

Definition keyedPypi : Pypi.env :=
  {| Pypi.apiKey := Some "secret"; Pypi.routers := fun _ => None |}.

Definition pypiPut : request :=
  request_ "PUT" ["pythonregistries"; "pypi.org"; "packages"]
    "/pythonregistries/pypi.org/packages" [].

Definition bearerRequest (credentials : string) : request :=
  {| method := "GET"; segments := ["pythonregistries"];
     path := "/pythonregistries"; originalUrl := "/pythonregistries";
     query := []; inline := []; authorization := Some credentials;
     ip := "203.0.113.7" |}.

(** A facade whose upstream knows one package, without versions. *)
Definition bareEnv : Npm.env :=
  npmEnv [] (fun _ => Returned (VObj [("name", VStr "bare")])) noVersionDoc noHits.

Definition failingEnv : Npm.env :=
  npmEnv [] (fun _ => Thrown) (fun _ _ => Thrown) (fun _ _ => Thrown).

Definition descriptionFilterRequest : request :=
  request_ "GET" packagesSegments "/noderegistries/npmjs.org/packages?filter=description=web*"
    [("filter", "description=web*")].

(** An upstream search that answers two hits whatever size is asked. *)
Definition twoHits : string -> number -> outcome value :=
  fun _ _ =>
    Returned (VObj [("objects",
                     VArr [VObj [("package", VObj [("name", VStr "react")])];
                           VObj [("package", VObj [("name", VStr "react-dom")])]])]).

Definition generousEnv : Npm.env := npmEnv [] noPackument noVersionDoc twoHits.

(** U+00A0, the no-break space, in UTF-8. *)
Definition nbsp : string :=
  String (ascii_of_nat 194) (String (ascii_of_nat 160) EmptyString).

(** [filter=%C2%A0name=react] *)
Definition spacedFilterRequest : request :=
  request_ "GET" packagesSegments
    "/noderegistries/npmjs.org/packages?filter=%C2%A0name=react"
    [("filter", nbsp ++ "name=react")].

(** A request for [/model/] from the loopback address, without
    credentials. *)
Definition modelSlashRequest (m : string) : request :=
  {| method := m; segments := ["model"];
     path := "/model/"; originalUrl := "/model/";
     query := []; inline := []; authorization := None;
     ip := "127.0.0.1" |}.

(** A facade whose upstream serves a version document of a package it
    has no document for. *)
Definition orphanEnv : Npm.env :=
  npmEnv [] noPackument (fun _ _ => Returned firstVersionDoc) noHits.

Definition upstreamHeadersSample : Proxy.headers :=
  [("content-type", "application/json; charset=utf-8");
   ("access-control-allow-origin", "https://app.example");
   ("link", "<http://npm:3100/noderegistries/npmjs.org/packages?limit=2&offset=2>; rel=next")].

End Samples.

(* ================================================================== *)
(** * Facts about the ECMAScript fragment                               *)
(* ================================================================== *)

Module JSFacts.
Import JS Spec.

Lemma startsWith_app (p r : string) : startsWith (p ++ r) p = true.
Proof.
  induction p as [|c p IH]; simpl.
  - reflexivity.
  - now rewrite Ascii.eqb_refl.
Qed.

Lemma startsWith_drop (s p : string) :
  startsWith s p = true -> s = p ++ drop (String.length p) s.
Proof.
  revert s; induction p as [|c p IH]; intros s H; simpl.
  - reflexivity.
  - destruct s as [|b s]; simpl in H; [discriminate|].
    apply andb_true_iff in H as [Hc Hs].
    apply Ascii.eqb_eq in Hc; subst b.
    simpl. f_equal. now apply IH.
Qed.

Lemma indexOf_startsWith (s p : string) :
  startsWith s p = true -> indexOf s p = Some O.
Proof.
  intros H. destruct s; simpl; now rewrite H.
Qed.

Lemma getSubstitution_noDollar (m b a t : string) :
  noDollar t = true -> getSubstitution m b a t = t.
Proof.
  induction t as [|c t IH]; simpl; intros H.
  - reflexivity.
  - apply andb_true_iff in H as [Hc Ht].
    apply negb_true_iff in Hc. rewrite Hc.
    f_equal. now apply IH.
Qed.

(** On a string that begins with the pattern, [replace] with a
    replacement free of [$] swaps the prefix. *)
Lemma replace_prefix (s p r : string) :
  startsWith s p = true -> noDollar r = true ->
  replace s p r = r ++ drop (String.length p) s.
Proof.
  intros Hs Hr. unfold replace.
  rewrite (indexOf_startsWith _ _ Hs). simpl.
  now rewrite getSubstitution_noDollar.
Qed.

(** Two strings neither of which begins with the other differ at some
    position inside both, whatever follows the first. *)
Lemma startsWith_incomparable (b d r : string) :
  startsWith b d = false -> startsWith d b = false ->
  startsWith (b ++ r) d = false.
Proof.
  revert d; induction b as [|cb b IH]; intros d Hbd Hdb.
  - destruct d; simpl in Hdb; discriminate.
  - destruct d as [|cd d]; simpl in *; [discriminate|].
    destruct (Ascii.eqb cd cb) eqn:E.
    + apply Ascii.eqb_eq in E; subst cd.
      rewrite Ascii.eqb_refl in Hdb. simpl in *. now apply IH.
    + reflexivity.
Qed.

Lemma has_In (l : list string) (x : string) : has l x = true <-> In x l.
Proof.
  unfold has. rewrite existsb_exists. split.
  - intros [y [Hy E]]. apply String.eqb_eq in E. now subst.
  - intros H. exists x. split; [assumption | apply String.eqb_refl].
Qed.

Lemma has_notIn (l : list string) (x : string) : has l x = false <-> ~ In x l.
Proof.
  rewrite <- has_In. destruct (has l x); split; intros; congruence.
Qed.

Lemma distinct_NoDup (l : list string) : distinct l = true -> NoDup l.
Proof.
  induction l as [|x l IH]; simpl; intros H.
  - constructor.
  - apply andb_true_iff in H as [Hx Hl]. apply negb_true_iff in Hx.
    constructor; [now apply has_notIn | now apply IH].
Qed.

Lemma plainKeys_spec (l : list string) :
  plainKeys l = true -> NoDup l /\ ~ In "__proto__" l.
Proof.
  unfold plainKeys. intros H. apply andb_true_iff in H as [Hd Hp].
  apply negb_true_iff in Hp. split; [now apply distinct_NoDup | now apply has_notIn].
Qed.

(** *** Property assignment *)

Lemma lookup_In (o : props) (k : string) :
  (exists v, lookup o k = Some v) <-> In k (map fst o).
Proof.
  induction o as [|[k' v'] o IH]; simpl.
  - split; [intros [v H]; discriminate | tauto].
  - destruct (String.eqb_spec k' k) as [->|N].
    + split; [auto | intros _; now exists v'].
    + rewrite IH. split; [auto | intros [E|H]; [contradiction | assumption]].
Qed.

Lemma hasProp_In (o : props) (k : string) : hasProp o k = true <-> In k (map fst o).
Proof.
  rewrite <- lookup_In. unfold hasProp. destruct (lookup o k); split.
  - intros _. now eexists.
  - reflexivity.
  - discriminate.
  - intros [v H]. discriminate.
Qed.

Lemma hasProp_notIn (o : props) (k : string) :
  hasProp o k = false <-> ~ In k (map fst o).
Proof.
  rewrite <- hasProp_In. destruct (hasProp o k); split; intros; congruence.
Qed.

Lemma keys_replaceProp (o : props) (k : string) (v : value) :
  map fst (replaceProp o k v) = map fst o.
Proof.
  induction o as [|[k' v'] o IH]; simpl.
  - reflexivity.
  - destruct (String.eqb k' k); simpl; [reflexivity | now rewrite IH].
Qed.

Lemma length_replaceProp (o : props) (k : string) (v : value) :
  List.length (replaceProp o k v) = List.length o.
Proof.
  rewrite <- (length_map fst), keys_replaceProp. apply length_map.
Qed.

Lemma In_replaceProp (o : props) (k : string) (v : value) (k0 : string) (w : value) :
  In (k0, w) (replaceProp o k v) -> In (k0, w) o \/ (k0 = k /\ w = v).
Proof.
  induction o as [|[k' v'] o IH]; simpl.
  - tauto.
  - destruct (String.eqb_spec k' k) as [->|N]; simpl.
    + intros [E|H]; [inversion E; subst; auto | auto].
    + intros [E|H]; [auto | destruct (IH H); auto].
Qed.

(** A fresh key other than ["__proto__"] goes last. *)
Lemma setProp_fresh (o : props) (k : string) (v : value) :
  k <> "__proto__" -> ~ In k (map fst o) -> setProp o k v = (o ++ [(k, v)])%list.
Proof.
  intros Hp Hk. unfold setProp.
  apply String.eqb_neq in Hp. rewrite Hp.
  apply hasProp_notIn in Hk. now rewrite Hk.
Qed.

Lemma length_setProp (o : props) (k : string) (v : value) :
  (List.length (setProp o k v) <= S (List.length o))%nat.
Proof.
  unfold setProp. destruct (String.eqb k "__proto__"); [lia|].
  destruct (hasProp o k).
  - rewrite length_replaceProp. lia.
  - rewrite length_app. simpl. lia.
Qed.

Lemma In_setProp (o : props) (k : string) (v : value) (k0 : string) (w : value) :
  In (k0, w) (setProp o k v) -> In (k0, w) o \/ (k0 = k /\ w = v).
Proof.
  unfold setProp. destruct (String.eqb k "__proto__"); [auto|].
  destruct (hasProp o k).
  - apply In_replaceProp.
  - rewrite in_app_iff. simpl. intros [H|[E|[]]]; [auto | inversion E; auto].
Qed.

(** The keys after an assignment: the old ones, and the assigned one
    unless it is ["__proto__"]. *)
Lemma keys_setProp (o : props) (k : string) (v : value) (x : string) :
  In x (map fst (setProp o k v)) <->
  In x (map fst o) \/ (x = k /\ k <> "__proto__").
Proof.
  unfold setProp. destruct (String.eqb_spec k "__proto__") as [->|N].
  - split; [auto | intros [H|[_ H]]; [assumption | congruence]].
  - destruct (hasProp o k) eqn:E.
    + rewrite keys_replaceProp. apply hasProp_In in E.
      split; [auto | intros [H|[-> _]]; assumption].
    + rewrite map_app, in_app_iff. simpl.
      split; [intros [H|[H|[]]]; auto | intros [H|[-> _]]; auto].
Qed.

Lemma good_setProp (o : props) (k : string) (v : value) :
  good o -> good (setProp o k v).
Proof.
  intros [Hn Hp]. unfold setProp, good.
  destruct (String.eqb_spec k "__proto__") as [->|N]; [now split|].
  destruct (hasProp o k) eqn:E.
  - rewrite keys_replaceProp. now split.
  - apply hasProp_notIn in E. rewrite map_app. simpl. split.
    + apply NoDup_app; [assumption | constructor; [simpl; tauto | constructor] |].
      intros x Hx [<-|[]]. contradiction.
    + rewrite in_app_iff. simpl. intros [H|[H|[]]]; [contradiction | congruence].
Qed.

(** *** Reading a property after assignments *)

Lemma lookup_app (o1 o2 : props) (k : string) :
  lookup (o1 ++ o2)%list k
  = match lookup o1 k with Some x => Some x | None => lookup o2 k end.
Proof.
  induction o1 as [|[k' v'] o1 IH]; simpl; [reflexivity|].
  destruct (String.eqb k' k); [reflexivity | exact IH].
Qed.

Lemma lookup_replaceProp_same (o : props) (k : string) (v : value) :
  hasProp o k = true -> lookup (replaceProp o k v) k = Some v.
Proof.
  unfold hasProp. induction o as [|[k' v'] o IH]; simpl; [discriminate|].
  destruct (String.eqb k' k) eqn:Ek; simpl; rewrite Ek; [reflexivity | exact IH].
Qed.

Lemma lookup_replaceProp_other (o : props) (k : string) (v : value) (k0 : string) :
  k0 <> k -> lookup (replaceProp o k v) k0 = lookup o k0.
Proof.
  intros Hn. induction o as [|[k' v'] o IH]; simpl; [reflexivity|].
  destruct (String.eqb_spec k' k) as [->|Nk]; simpl.
  - destruct (String.eqb_spec k k0) as [->|_]; [congruence | reflexivity].
  - now rewrite IH.
Qed.

Lemma lookup_setProp_same (o : props) (k : string) (v : value) :
  k <> "__proto__" -> lookup (setProp o k v) k = Some v.
Proof.
  intros Hp. unfold setProp. apply String.eqb_neq in Hp. rewrite Hp.
  destruct (hasProp o k) eqn:Eh.
  - now apply lookup_replaceProp_same.
  - rewrite lookup_app. unfold hasProp in Eh.
    destruct (lookup o k); [discriminate|]. simpl. now rewrite String.eqb_refl.
Qed.

Lemma lookup_setProp_other (o : props) (k : string) (v : value) (k0 : string) :
  k0 <> k -> lookup (setProp o k v) k0 = lookup o k0.
Proof.
  intros Hn. unfold setProp. destruct (String.eqb k "__proto__"); [reflexivity|].
  destruct (hasProp o k).
  - now apply lookup_replaceProp_other.
  - rewrite lookup_app. destruct (lookup o k0); [reflexivity|]. simpl.
    destruct (String.eqb_spec k k0) as [->|_]; [congruence | reflexivity].
Qed.

End JSFacts.

(* ================================================================== *)
(** * The URL rewriter                                                  *)
(* ================================================================== *)

Module ProxyFacts.
Import JS Spec Proxy JSFacts.

(** Induction over values, with the hypothesis available for every
    array item and every property value. *)
Section ValueInduction.
Variable P : value -> Prop.
Hypothesis HUndefined : P VUndefined.
Hypothesis HNull : P VNull.
Hypothesis HBool : forall b, P (VBool b).
Hypothesis HNum : forall n, P (VNum n).
Hypothesis HStr : forall s, P (VStr s).
Hypothesis HArr : forall items, Forall P items -> P (VArr items).
Hypothesis HObj : forall entries, Forall (fun e => P (snd e)) entries -> P (VObj entries).

Lemma value_induction : forall v : value, P v.
Proof.
  fix IH 1. intros [| | b | n | s | items | entries].
  - exact HUndefined.
  - exact HNull.
  - apply HBool.
  - apply HNum.
  - apply HStr.
  - apply HArr. revert items. fix IHitems 1.
    intros [|x items]; constructor; [apply IH | apply IHitems].
  - apply HObj. revert entries. fix IHentries 1.
    intros [|[k x] entries]; constructor; [apply IH | apply IHentries].
Qed.
End ValueInduction.

Lemma rewriteUrls_object (entries : props) (d b : string) (key : option string) :
  rewriteUrls (VObj entries) d b key
  = VObj (fold_left (assign (fun k v => rewriteUrls v d b (Some k))) entries []).
Proof. reflexivity. Qed.

Lemma rewriteUrls_array (items : list value) (d b : string) (key : option string) :
  rewriteUrls (VArr items) d b key
  = VArr (map (fun item => rewriteUrls item d b None) items).
Proof. reflexivity. Qed.

(** *** Assigning all entries to a fresh object *)

Section Assign.
Variable f : string -> value -> value.

(** Entries with plain keys are copied one for one. *)
Lemma assign_plain (entries acc : props) :
  NoDup (map fst acc ++ map fst entries) ->
  ~ In "__proto__" (map fst entries) ->
  fold_left (assign f) entries acc = (acc ++ map (mapped f) entries)%list.
Proof.
  revert acc; induction entries as [|[k x] entries IH]; intros acc Hn Hp; simpl.
  - now rewrite app_nil_r.
  - simpl in Hn, Hp.
    assert (Hk : ~ In k (map fst acc)).
    { apply NoDup_remove_2 in Hn. rewrite in_app_iff in Hn. tauto. }
    rewrite setProp_fresh by tauto.
    rewrite IH.
    + now rewrite <- app_assoc.
    + rewrite map_app. simpl. rewrite <- app_assoc. exact Hn.
    + tauto.
Qed.

Lemma assign_good (entries acc : props) :
  good acc -> good (fold_left (assign f) entries acc).
Proof.
  revert acc; induction entries as [|[k x] entries IH]; intros acc H; simpl.
  - assumption.
  - apply IH. now apply good_setProp.
Qed.

(** Whatever ends up in the object was computed from an entry. *)
Lemma assign_values (entries acc : props) (k : string) (w : value) :
  In (k, w) (fold_left (assign f) entries acc) ->
  In (k, w) acc \/ exists x, In (k, x) entries /\ w = f k x.
Proof.
  revert acc; induction entries as [|[k' x'] entries IH]; intros acc H; simpl in *.
  - now left.
  - destruct (IH _ H) as [Hs|[x [Hx E]]].
    + destruct (In_setProp _ _ _ _ _ Hs) as [Ha|[-> ->]].
      * now left.
      * right. exists x'. auto.
    + right. exists x. auto.
Qed.

Lemma assign_length (entries acc : props) :
  (List.length (fold_left (assign f) entries acc)
   <= List.length acc + List.length entries)%nat.
Proof.
  revert acc; induction entries as [|[k x] entries IH]; intros acc; simpl.
  - lia.
  - specialize (IH (setProp acc k (f k x))).
    pose proof (length_setProp acc k (f k x)). lia.
Qed.
End Assign.

Lemma good_nil : good [].
Proof. split; [constructor | simpl; tauto]. Qed.

(** *** The rewriter against the words of the specification *)

Lemma rewriteString_spec (s d b : string) (key : option string) :
  noDollar b = true ->
  VStr (rewriteString s d b key) = rewriteSpec d b key (VStr s).
Proof.
  intros Hb. unfold rewriteString. simpl.
  destruct key as [k|].
  - destruct (String.eqb k "xid"); [reflexivity|].
    destruct (startsWith s d) eqn:E; [|reflexivity].
    now rewrite replace_prefix.
  - destruct (startsWith s d) eqn:E; [|reflexivity].
    now rewrite replace_prefix.
Qed.

(** On values whose objects have plain keys, and for a bridge base URL
    free of [$], the code computes what section 4.D describes. *)
Lemma rewriteUrls_refines (d b : string) :
  noDollar b = true ->
  forall v key, plain v = true -> rewriteUrls v d b key = rewriteSpec d b key v.
Proof.
  intros Hb v.
  induction v as [| | | | s | items IH | entries IH] using value_induction;
    intros key Hv; try reflexivity.
  - now apply rewriteString_spec.
  - rewrite rewriteUrls_array. simpl. f_equal.
    simpl in Hv. rewrite forallb_forall in Hv. rewrite Forall_forall in IH.
    apply map_ext_in. intros x Hx. now apply IH; [|apply Hv].
  - rewrite rewriteUrls_object. simpl in Hv |- *.
    apply andb_true_iff in Hv as [Hk Hv].
    apply plainKeys_spec in Hk as [Hn Hp].
    rewrite assign_plain by assumption. simpl. f_equal.
    rewrite forallb_forall in Hv. rewrite Forall_forall in IH.
    apply map_ext_in. intros [k x] Hx. simpl. f_equal.
    apply (IH _ Hx). exact (Hv _ Hx).
Qed.

(** A field named [xid] holding a string comes out byte-identical. *)
Lemma rewriteUrls_xid (s d b : string) :
  rewriteUrls (VStr s) d b (Some "xid") = VStr s.
Proof. reflexivity. Qed.

(** *** Idempotence *)

Lemma rewriteString_twice (s d b : string) (key : option string) :
  noDollar b = true ->
  startsWith b d = false -> startsWith d b = false ->
  rewriteString (rewriteString s d b key) d b key = rewriteString s d b key.
Proof.
  intros Hb Hbd Hdb.
  assert (H : forall t, startsWith t d = true ->
                        (if startsWith (replace t d b) d
                         then replace (replace t d b) d b else replace t d b)
                        = replace t d b).
  { intros t Ht. rewrite (replace_prefix _ _ _ Ht Hb).
    now rewrite startsWith_incomparable. }
  unfold rewriteString. destruct key as [k|].
  - destruct (String.eqb k "xid"); [reflexivity|].
    destruct (startsWith s d) eqn:E; [now apply H | now rewrite E].
  - destruct (startsWith s d) eqn:E; [now apply H | now rewrite E].
Qed.

Lemma map_fixed {A : Type} (g : A -> A) (l : list A) :
  (forall x, In x l -> g x = x) -> map g l = l.
Proof.
  intros H. rewrite <- (map_id l) at 2. now apply map_ext_in.
Qed.

End ProxyFacts.

Module ProxyClaims.
Import JS Spec Proxy JSFacts ProxyFacts Samples.

(** C2.  The rewriter is meant to leave every string under a key named
    [xid] byte-identical and to put the bridge base URL in place of the
    upstream origin at the head of every other string.  The code misses
    two cases.  An entry whose key is [__proto__] is assigned to the
    fresh object through the inherited accessor and so never becomes an
    own property of the output: the [xid] and [self] strings below it
    are absent from the body that is sent.  And
    [String.prototype.replace] reads its second argument as a
    template, so a bridge base URL holding [$&] brings the upstream
    origin back.  In both cases the code and the description differ. *)
Theorem rewriteUrls_misses_proto_and_pattern :
  rewriteUrls protoBody upstream base None
    = VObj [("name", VStr "demo");
            ("bugs", VObj [("url", VStr "https://bridge.example/issues")])]
  /\ rewriteUrls protoBody upstream base None <> rewriteSpec upstream base None protoBody
  /\ rewriteUrls (VStr "http://npm:3100/model") upstream patternBase None
       = VStr "https://bridge.example/http://npm:3100/model"
  /\ rewriteSpec upstream patternBase None (VStr "http://npm:3100/model")
       = VStr "https://bridge.example/$&/model".
Proof.
  repeat split; try reflexivity.
  vm_compute. discriminate.
Qed.

(** Away from those two cases the rewriter does what C2 says. *)
Example rewriteUrls_plainBody :
  rewriteUrls plainBody upstream base None
  = VObj [("xid", VStr "http://npm:3100/noderegistries/npmjs.org");
          ("self", VStr "https://bridge.example/noderegistries/npmjs.org");
          ("links", VArr [VStr "https://bridge.example/model"; VStr "https://example.org/";
                          VNum (Num 3)]);
          ("npmjs.org", VObj [("xid", VStr "/noderegistries/npmjs.org");
                              ("packagesurl",
                               VStr "https://bridge.example/noderegistries/npmjs.org/packages")])].
Proof. reflexivity. Qed.

(** C9, as the specification states it, fails: a bridge base URL that
    does not begin with the upstream origin may still be a prefix of it,
    and then the first pass can produce a string that begins with the
    upstream origin again.  The same happens, whatever the prefixes,
    when the bridge base URL holds the pattern [$&]. *)
Lemma rewriteUrls_not_idempotent :
  (startsWith shortBridge longUpstream = false
   /\ rewriteUrls (rewriteUrls foreignUrl longUpstream shortBridge None)
        longUpstream shortBridge None
      <> rewriteUrls foreignUrl longUpstream shortBridge None)
  /\ (startsWith "$&/v1" "http://up" = false
      /\ rewriteUrls (rewriteUrls (VStr "http://up/x") "http://up" "$&/v1" None)
           "http://up" "$&/v1" None
         <> rewriteUrls (VStr "http://up/x") "http://up" "$&/v1" None).
Proof.
  repeat split; try reflexivity; vm_compute; discriminate.
Qed.

(** C9, amended.  Rewriting twice is rewriting once, for every value and
    every current key, when neither the upstream origin nor the bridge
    base URL begins with the other and the bridge base URL holds no [$]. *)
Theorem rewriteUrls_idempotent (d b : string) :
  noDollar b = true ->
  startsWith b d = false -> startsWith d b = false ->
  forall v key,
    rewriteUrls (rewriteUrls v d b key) d b key = rewriteUrls v d b key.
Proof.
  intros Hb Hbd Hdb v.
  induction v as [| | | | s | items IH | entries IH] using value_induction;
    intros key; try reflexivity.
  - simpl. f_equal. now apply rewriteString_twice.
  - rewrite !rewriteUrls_array. f_equal. rewrite map_map.
    rewrite Forall_forall in IH. apply map_ext_in. intros x Hx. now apply IH.
  - rewrite !rewriteUrls_object. f_equal.
    set (f := fun k v => rewriteUrls v d b (Some k)).
    pose proof (assign_good f entries [] good_nil) as [Hn Hp].
    rewrite assign_plain by assumption. simpl.
    apply map_fixed. intros [k w] Hw. simpl. f_equal.
    destruct (assign_values f entries [] k w Hw) as [[]|[x [Hx ->]]].
    rewrite Forall_forall in IH. exact (IH _ Hx (Some k)).
Qed.

Lemma rewriteUrls_idempotent_witness :
  noDollar base = true
  /\ startsWith base upstream = false /\ startsWith upstream base = false
  /\ rewriteUrls (rewriteUrls plainBody upstream base None) upstream base None
     = rewriteUrls plainBody upstream base None.
Proof.
  split; [reflexivity|]. split; [reflexivity|]. split; [reflexivity|].
  apply (rewriteUrls_idempotent upstream base); reflexivity.
Defined.

End ProxyClaims.

(* ================================================================== *)
(** * The npm facade                                                    *)
(* ================================================================== *)

Module NpmFacts.
Import JS Http Spec Npm JSFacts.

#[local] Arguments bind {A B} m f : simpl never.
#[local] Arguments await {A} e r : simpl never.

(** *** Problem details *)

Lemma problem_fields (code : Z) (title detail instance : string) :
  get (createProblemDetails code title detail instance) "type" = VStr "about:blank"
  /\ get (createProblemDetails code title detail instance) "title" = VStr title
  /\ get (createProblemDetails code title detail instance) "status" = VNum (Num code).
Proof. repeat split. Qed.

Lemma problem_detail (code : Z) (title detail instance : string) :
  detail <> EmptyString ->
  get (createProblemDetails code title detail instance) "detail" = VStr detail.
Proof.
  intros H. apply String.eqb_neq in H.
  unfold createProblemDetails, get. simpl. now rewrite H.
Qed.

(** *** Routing *)

Lemma write_method_not_read (m : string) :
  has writeMethods (toUpperCase m) = true -> isRead m = false.
Proof.
  intros H. unfold isRead.
  destruct (String.eqb_spec m "GET") as [->|_]; [discriminate H|].
  destruct (String.eqb_spec m "HEAD") as [->|_]; [discriminate H|].
  reflexivity.
Qed.

(** *** The monad *)

Lemma bind_returned {A B : Type} (m : M A) (f : A -> M B) (t : list effect) (b : B) :
  bind m f = (t, Returned b) ->
  exists t1 a t2, m = (t1, Returned a) /\ f a = (t2, Returned b) /\ t = (t1 ++ t2)%list.
Proof.
  unfold bind. destruct m as [t1 [a|]]; [|discriminate].
  destruct (f a) as [t2 r] eqn:E. intros H. inversion H; subst.
  exists t1, a, t2. auto.
Qed.

(** A handler that answers 200 inside [try] and 500 from [catch]
    answers nothing else. *)
Lemma served_status {A : Type} (m : M A) (hs : A -> list (string * string))
    (b : A -> value) (message : string) (resp : response) :
  snd (tryCatch (x <- m ;; ret (sendJson 200 (hs x) (b x))) (ret (failure message)))
    = Returned resp ->
  (resp = failure message /\ snd m = Thrown)
  \/ exists x t, m = (t, Returned x) /\ resp = sendJson 200 (hs x) (b x).
Proof.
  unfold bind. destruct m as [t [x|]]; simpl; intros H; inversion H; subst.
  - right. now exists x, t.
  - now left.
Qed.

(** *** Ancestors *)

Lemma indexOfList_app (pre : list string) (v : string) (post : list string) :
  ~ In v pre -> indexOfList (pre ++ v :: post) v = Some (List.length pre).
Proof.
  induction pre as [|y pre IH]; simpl; intros H.
  - now rewrite String.eqb_refl.
  - destruct (String.eqb_spec y v) as [->|N]; [tauto|].
    rewrite IH by tauto. reflexivity.
Qed.

Lemma indexOfList_absent (l : list string) (v : string) :
  ~ In v l -> indexOfList l v = None.
Proof.
  induction l as [|y l IH]; simpl; intros H.
  - reflexivity.
  - destruct (String.eqb_spec y v) as [->|N]; [tauto|].
    rewrite IH by tauto. reflexivity.
Qed.

(** The ancestor is the key listed just before the version. *)
Lemma ancestorOf_previous (pre : list string) (v1 v2 : string) (post : list string) :
  ~ In v2 pre -> v1 <> v2 ->
  ancestorOf (pre ++ v1 :: v2 :: post) v2 = v1.
Proof.
  intros Hp Hn. unfold ancestorOf.
  replace (pre ++ v1 :: v2 :: post)%list with ((pre ++ [v1]) ++ v2 :: post)%list
    by now rewrite <- app_assoc.
  rewrite indexOfList_app.
  - rewrite length_app. simpl. rewrite Nat.add_1_r.
    rewrite <- app_assoc. simpl.
    rewrite app_nth2 by lia. now rewrite Nat.sub_diag.
  - rewrite in_app_iff. simpl. intros [H|[H|[]]]; [tauto | congruence].
Qed.

Lemma ancestorOf_first (v : string) (rest : list string) :
  ancestorOf (v :: rest) v = v.
Proof. unfold ancestorOf. simpl. now rewrite String.eqb_refl. Qed.

Lemma ancestorOf_absent (l : list string) (v : string) :
  ~ In v l -> ancestorOf l v = v.
Proof. intros H. unfold ancestorOf. now rewrite indexOfList_absent. Qed.

(** *** The members of the version views *)

Lemma lookup_sentMember (k : string) (v : value) (k0 : string) :
  lookup (sentMember k v) k0
  = if String.eqb k k0
    then match v with VUndefined => None | _ => Some v end
    else None.
Proof. destruct v; simpl; destruct (String.eqb k k0); reflexivity. Qed.

Lemma get_sentMember (k : string) (v : value) (o : props) :
  lookup o k = None -> get (VObj (sentMember k v ++ o)%list) k = v.
Proof.
  intros H. unfold get. cbn [ownProps].
  rewrite lookup_app, lookup_sentMember, String.eqb_refl, H. now destruct v.
Qed.

Lemma lookup_spreadIf_other (k : string) (v : value) (k0 : string) :
  k0 <> k -> lookup (spreadIf k v) k0 = None.
Proof.
  intros H. unfold spreadIf. destruct (truthy v); [|reflexivity].
  simpl. destruct (String.eqb_spec k k0); [congruence | reflexivity].
Qed.

Ltac member_lookup :=
  unfold get; cbn [ownProps];
  rewrite ?lookup_app, ?lookup_sentMember;
  repeat (rewrite lookup_spreadIf_other by discriminate);
  cbn [lookup String.eqb Ascii.eqb Bool.eqb].

(** What the full version view holds under the names of the meta view. *)
Lemma versionInfo_members (E : env) (req : request) (r p v : string)
    (versionData packageMetadata : value) :
  let view := versionInfo E req r p v versionData packageMetadata in
  let versionPath := versionPathOf r p v in
  get view "xid" = VStr versionPath
  /\ get view "self" = VStr (getBaseUrl E req ++ versionPath)
  /\ get view "versionid" = get versionData "versionid"
  /\ get view "packageid" = VStr (normalizePackageId E p)
  /\ get view "epoch" = VNum (getEpoch E versionPath)
  /\ get view "createdat"
     = or_else (get versionData "createdat") (VStr (getCreatedAt E versionPath))
  /\ get view "modifiedat"
     = or_else (get versionData "modifiedat") (VStr (getModifiedAt E versionPath))
  /\ get view "isdefault" = VBool (isDefaultVersion packageMetadata v)
  /\ get view "ancestor" = VStr (ancestorOf (allVersionsOf packageMetadata) v).
Proof.
  intros view versionPath. unfold view, versionInfo.
  repeat split; member_lookup; try reflexivity.
  destruct (lookup (ownProps versionData) "versionid") as [[| | | | | |]|]; reflexivity.
Qed.

Lemma versionMetaInfo_members (E : env) (req : request) (r p v : string)
    (versionData packageMetadata : value) :
  let view := versionMetaInfo E req r p v versionData packageMetadata in
  let versionPath := versionPathOf r p v in
  get view "xid" = VStr versionPath
  /\ get view "self" = VStr (getBaseUrl E req ++ versionPath)
  /\ get view "versionid" = get versionData "versionid"
  /\ get view "packageid" = VStr (normalizePackageId E p)
  /\ get view "epoch" = VNum (getEpoch E versionPath)
  /\ get view "createdat"
     = or_else (get versionData "createdat") (VStr (getCreatedAt E versionPath))
  /\ get view "modifiedat"
     = or_else (get versionData "modifiedat") (VStr (getModifiedAt E versionPath))
  /\ get view "isdefault" = VBool (isDefaultVersion packageMetadata v)
  /\ get view "ancestor" = VStr (ancestorOf (allVersionsOf packageMetadata) v).
Proof.
  intros view versionPath. unfold view, versionMetaInfo.
  repeat split; member_lookup; try reflexivity.
  destruct (lookup (ownProps versionData) "versionid") as [[| | | | | |]|]; reflexivity.
Qed.

(** *** encodeURIComponent *)

Lemma encodeURIComponent_unreserved (s : string) :
  forallb uriUnreserved (chars s) = true -> encodeURIComponent s = s.
Proof.
  induction s as [|c s IH]; simpl; intros H.
  - reflexivity.
  - apply andb_true_iff in H as [Hc Hs]. rewrite Hc. f_equal. now apply IH.
Qed.

(** *** The registry document *)

Lemma registryInfo_xid_self (E : env) (req : request) :
  get (VObj (registryInfo E req)) "xid" = VStr "/"
  /\ get (VObj (registryInfo E req)) "self" = VStr (getBaseUrl E req).
Proof.
  unfold registryInfo, setIf.
  destruct (has (inline req) "*"), (has (inline req) "model"),
    (has (inline req) "endpoints"); split; reflexivity.
Qed.

(** *** Sorting *)

Section Sorting.
Context {A : Type} (cmp : A -> A -> Z).

Lemma insertSorted_perm (x : A) (l : list A) :
  Permutation (insertSorted cmp x l) (x :: l).
Proof.
  induction l as [|y l IH]; simpl.
  - apply Permutation_refl.
  - destruct (0 <? cmp x y)%Z.
    + apply Permutation_trans with (y :: x :: l).
      * now apply perm_skip.
      * apply perm_swap.
    + apply Permutation_refl.
Qed.

Lemma sort_perm (l : list A) : Permutation (sort cmp l) l.
Proof.
  induction l as [|x l IH]; simpl.
  - apply Permutation_refl.
  - apply Permutation_trans with (x :: sort cmp l).
    + apply insertSorted_perm.
    + now apply perm_skip.
Qed.

Lemma insertSorted_HdRel (a x : A) (l : list A) :
  inOrder cmp a x -> HdRel (inOrder cmp) a l ->
  HdRel (inOrder cmp) a (insertSorted cmp x l).
Proof.
  intros Hax Hal. destruct l as [|y l]; simpl.
  - now constructor.
  - inversion Hal; subst. destruct (0 <? cmp x y)%Z; now constructor.
Qed.

Lemma insertSorted_sorted (x : A) (l : list A) :
  asymmetric cmp -> Sorted (inOrder cmp) l ->
  Sorted (inOrder cmp) (insertSorted cmp x l).
Proof.
  intros Hasym. induction l as [|y l IH]; simpl; intros Hs.
  - repeat constructor.
  - inversion Hs; subst.
    destruct (Z.ltb_spec 0 (cmp x y)) as [Hgt|Hle].
    + constructor; [now apply IH|].
      apply insertSorted_HdRel; [|assumption].
      now apply Hasym.
    + constructor; [assumption|]. now constructor.
Qed.

Lemma sort_sorted (l : list A) :
  asymmetric cmp -> Sorted (inOrder cmp) (sort cmp l).
Proof.
  intros Hasym. induction l as [|x l IH]; simpl.
  - constructor.
  - now apply insertSorted_sorted.
Qed.
End Sorting.

(** *** Slices *)

Lemma slice_whole {A : Type} (a : list A) (l : Z) :
  (Z.of_nat (List.length a) <= l)%Z -> slice a (Num 0) (Num l) = a.
Proof.
  intros H. unfold slice, relIndex. simpl.
  destruct (Z.ltb_spec l 0) as [Hneg|Hpos]; [lia|].
  rewrite Nat.min_r by lia. rewrite Nat.sub_0_r. apply firstn_all.
Qed.

Lemma slice_contiguous {A : Type} (a : list A) (start stop : number) :
  exists i n, slice a start stop = firstn n (skipn i a).
Proof. unfold slice. eauto. Qed.

(** A window of [limit] positions holds at most [limit] elements,
    wherever it starts and whether or not its end is capped. *)
Lemma slice_window {A : Type} (a : list A) (offset : number) (l : Z) :
  (0 <= l)%Z ->
  (Z.of_nat (List.length (slice a offset (num_add offset (Num l)))) <= l)%Z
  /\ (Z.of_nat (List.length
                  (slice a offset
                     (math_min (num_add offset (Num l))
                               (Num (Z.of_nat (List.length a)))))) <= l)%Z.
Proof.
  intros Hl. unfold slice.
  split; rewrite length_firstn; destruct offset as [|o]; simpl; try lia.
  - destruct (Z.ltb_spec o 0), (Z.ltb_spec (o + l) 0); lia.
  - destruct (Z.ltb_spec o 0),
      (Z.ltb_spec (Z.min (o + l) (Z.of_nat (List.length a))) 0); lia.
Qed.

Lemma firstn_min_length {A : Type} (n : nat) (a : list A) :
  firstn (Nat.min n (List.length a)) a = firstn n a.
Proof.
  destruct (Nat.le_ge_cases n (List.length a)) as [H|H].
  - now rewrite Nat.min_l.
  - rewrite Nat.min_r by assumption. now rewrite !firstn_all2 by lia.
Qed.

(** [a.slice(0, l)] is the first [l] elements, all but the last [-l]
    when [l] is negative, and nothing when [l] is NaN. *)
Lemma slice_prefix {A : Type} (a : list A) (l : Z) :
  (0 <= l)%Z -> slice a (Num 0) (Num l) = firstn (Z.to_nat l) a.
Proof.
  intros H. unfold slice, relIndex. simpl.
  destruct (Z.ltb_spec l 0) as [Hneg|_]; [lia|].
  rewrite Nat.sub_0_r. apply firstn_min_length.
Qed.

Lemma slice_negative {A : Type} (a : list A) (l : Z) :
  (l < 0)%Z ->
  slice a (Num 0) (Num l) = firstn (List.length a - Z.to_nat (- l)) a.
Proof.
  intros H. unfold slice, relIndex. simpl.
  destruct (Z.ltb_spec l 0) as [_|Hpos]; [|lia].
  rewrite Nat.sub_0_r. f_equal. lia.
Qed.

Lemma slice_nan {A : Type} (a : list A) (start : number) : slice a start NaN = [].
Proof. reflexivity. Qed.

Lemma slice_incl {A : Type} (a : list A) (start stop : number) (x : A) :
  In x (slice a start stop) -> In x a.
Proof.
  unfold slice. intros H.
  rewrite <- (firstn_skipn (relIndex (List.length a) start) a).
  apply in_or_app. right.
  rewrite <- (firstn_skipn (relIndex (List.length a) stop - relIndex (List.length a) start)
                (skipn (relIndex (List.length a) start) a)).
  apply in_or_app. now left.
Qed.

Lemma slice_NoDup {A : Type} (a : list A) (start stop : number) :
  NoDup a -> NoDup (slice a start stop).
Proof.
  unfold slice. intros H.
  rewrite <- (firstn_skipn (relIndex (List.length a) start) a) in H.
  apply NoDup_app_remove_l in H.
  rewrite <- (firstn_skipn (relIndex (List.length a) stop - relIndex (List.length a) start)
                (skipn (relIndex (List.length a) start) a)) in H.
  now apply NoDup_app_remove_r in H.
Qed.

(** Capping the end of a slice at the length changes nothing. *)
Lemma slice_capped {A : Type} (a : list A) (start stop : number) :
  slice a start (math_min stop (Num (Z.of_nat (List.length a)))) = slice a start stop.
Proof.
  unfold slice. destruct stop as [|z]; [reflexivity|]. simpl.
  destruct (Z.ltb_spec z 0), (Z.ltb_spec (Z.min z (Z.of_nat (List.length a))) 0);
    do 2 f_equal; lia.
Qed.

(** From a position that is not negative, [a.slice(o, o + l)] is the [l]
    elements that follow the first [o]. *)
Lemma slice_positions {A : Type} (a : list A) (o l : Z) :
  (0 <= o)%Z -> (0 <= l)%Z ->
  slice a (Num o) (num_add (Num o) (Num l)) = firstn (Z.to_nat l) (skipn (Z.to_nat o) a).
Proof.
  intros Ho Hl. unfold slice, relIndex. simpl.
  destruct (Z.ltb_spec o 0); [lia|]. destruct (Z.ltb_spec (o + l) 0); [lia|].
  destruct (Nat.le_ge_cases (List.length a) (Z.to_nat o)) as [Hbig|Hin].
  - rewrite (Nat.min_r (Z.to_nat o)) by assumption.
    rewrite !skipn_all2 by lia. now rewrite !firstn_nil.
  - rewrite (Nat.min_l (Z.to_nat o)) by assumption.
    rewrite <- (firstn_min_length (Z.to_nat l)).
    f_equal. rewrite length_skipn. lia.
Qed.

(** *** Objects built key by key *)

Section SetAll.
Variable g : string -> value.

Lemma setAll_keys (ks : list string) (acc : props) (x : string) :
  In x (map fst (fold_left (fun o k => setProp o k (g k)) ks acc)) <->
  In x (map fst acc) \/ (In x ks /\ x <> "__proto__").
Proof.
  revert acc; induction ks as [|k ks IH]; intros acc; simpl.
  - tauto.
  - rewrite IH, keys_setProp. split.
    + intros [[H|[-> H]]|[H1 H2]]; auto.
    + intros [H|[[<-|H1] H2]]; auto.
Qed.

Lemma setAll_length (ks : list string) (acc : props) :
  (List.length (fold_left (fun o k => setProp o k (g k)) ks acc)
   <= List.length acc + List.length ks)%nat.
Proof.
  revert acc; induction ks as [|k ks IH]; intros acc; simpl.
  - lia.
  - specialize (IH (setProp acc k (g k))).
    pose proof (length_setProp acc k (g k)). lia.
Qed.

Lemma setAll_plain (ks : list string) (acc : props) :
  NoDup (map fst acc ++ ks) -> ~ In "__proto__" ks ->
  fold_left (fun o k => setProp o k (g k)) ks acc
  = (acc ++ map (fun k => (k, g k)) ks)%list.
Proof.
  revert acc; induction ks as [|k ks IH]; intros acc Hn Hp; simpl.
  - now rewrite app_nil_r.
  - simpl in Hp.
    assert (Hk : ~ In k (map fst acc)).
    { apply NoDup_remove_2 in Hn. rewrite in_app_iff in Hn. tauto. }
    rewrite setProp_fresh by tauto.
    rewrite IH.
    + now rewrite <- app_assoc.
    + rewrite map_app. simpl. rewrite <- app_assoc. exact Hn.
    + tauto.
Qed.
End SetAll.

(** *** Loops that may throw *)

Lemma forEach_length {A : Type} (f : props -> A -> M props) (l : list A) :
  (forall s x t s', f s x = (t, Returned s') ->
                    (List.length s' <= S (List.length s))%nat) ->
  forall s t s', forEach f l s = (t, Returned s') ->
                 (List.length s' <= List.length s + List.length l)%nat.
Proof.
  intros Hf. induction l as [|x l IH]; simpl; intros s t s' H.
  - inversion H; subst. lia.
  - apply bind_returned in H as [t1 [s1 [t2 [H1 [H2 _]]]]].
    apply Hf in H1. apply IH in H2. lia.
Qed.

Lemma filterM_length {A : Type} (f : A -> M bool) (l : list A) :
  forall t r, filterM f l = (t, Returned r) ->
              (List.length r <= List.length l)%nat.
Proof.
  induction l as [|x l IH]; simpl; intros t r H.
  - inversion H; subst. simpl. lia.
  - apply bind_returned in H as [t1 [b [t2 [_ [H2 _]]]]].
    apply bind_returned in H2 as [t3 [r' [t4 [H3 [H4 _]]]]].
    apply IH in H3. inversion H4; subst. destruct b; simpl; lia.
Qed.

Lemma addFiltered_length (E : env) (baseUrl : string) (s : props) (x : value)
    (t : list effect) (s' : props) :
  addFiltered E baseUrl s x = (t, Returned s') ->
  (List.length s' <= S (List.length s))%nat.
Proof.
  unfold addFiltered. intros H.
  apply bind_returned in H as [t1 [n [t2 [_ [H _]]]]].
  destruct (truthy (or_else n (get (get x "package") "name")));
    inversion H; subst; [apply length_setProp | lia].
Qed.

Lemma addSearched_length (E : env) (baseUrl : string) (s : props) (x : value)
    (t : list effect) (s' : props) :
  addSearched E baseUrl s x = (t, Returned s') ->
  (List.length s' <= S (List.length s))%nat.
Proof.
  unfold addSearched. intros H.
  apply bind_returned in H as [t1 [n [t2 [_ [H _]]]]].
  destruct (truthy (get n "name"));
    inversion H; subst; [apply length_setProp | lia].
Qed.

(** *** The candidates of one page *)

Lemma searchFallback_length (E : env) (filters : list filterExpr) (l : Z)
    (offset : number) :
  honoursSize E -> (0 <= l)%Z ->
  forall t rs, searchFallback E filters (Num l) offset = (t, Returned rs) ->
               (Z.of_nat (List.length rs) <= l)%Z.
Proof.
  intros Hup Hl. induction filters as [|fe rest IH]; simpl; intros t rs H.
  - inversion H; subst. simpl. lia.
  - destruct (String.eqb (field fe) "name"); [|now apply IH in H].
    match type of H with
    | (if nonEmpty ?q then _ else _) = _ => destruct (nonEmpty q); [|now apply IH in H]
    end.
    apply bind_returned in H as [t1 [sr [t2 [H1 [H2 _]]]]].
    unfold await in H1. inversion H1 as [[Ht Hsr]].
    destruct (truthy (get sr "objects")); [|now apply IH in H2].
    destruct (get sr "objects") as [| | | | |items|] eqn:Hobj; try discriminate H2.
    apply filterM_length in H2.
    pose proof (Hup _ _ _ _ _ _ Hl Hsr Hobj). lia.
Qed.

Lemma handlePackageFilter_length (E : env) (filter : string) (l : Z)
    (offset : number) :
  honoursSize E -> (0 <= l)%Z ->
  forall t rs, handlePackageFilter E filter (Num l) offset = (t, Returned rs) ->
               (Z.of_nat (List.length rs) <= l)%Z.
Proof.
  intros Hup Hl t rs. unfold handlePackageFilter.
  destruct (negb (Nat.eqb (List.length (packageNamesCache E)) 0)).
  - destruct (optimizedFilter E filter) as [fr|]; simpl; intros H; inversion H; subst.
    + apply slice_window. exact Hl.
    + simpl. lia.
  - destruct (searchFallback E (parseFilterExpressions filter) (Num l) offset)
      as [t' [rs'|]] eqn:Hs; simpl; intros H; inversion H; subst.
    + eapply searchFallback_length; eassumption.
    + simpl. lia.
Qed.

Lemma searchPopular_length (E : env) (baseUrl : string) (l : Z) (offset : number) :
  honoursSize E -> (0 <= l)%Z ->
  forall t ps, searchPopular E baseUrl (Num l) offset = (t, Returned ps) ->
               (Z.of_nat (List.length ps) <= l)%Z.
Proof.
  intros Hup Hl t ps H. unfold searchPopular in H.
  apply bind_returned in H as [t1 [sr [t2 [H1 [H2 _]]]]].
  unfold await in H1. inversion H1 as [[Ht Hsr]].
  destruct (truthy (get sr "objects") && lengthPositive (get sr "objects")).
  - destruct (get sr "objects") as [| | | | |items|] eqn:Hobj; try discriminate H2.
    apply forEach_length in H2; [|intros; eapply addSearched_length; eassumption].
    pose proof (Hup _ _ _ _ _ _ Hl Hsr Hobj). simpl in H2. lia.
  - inversion H2; subst. simpl. lia.
Qed.

(** The page of the sort branch is [sortedCache.slice(offset, offset + limit)]. *)
Lemma packageSlice_window (E : env) (sortParam : string) (limit offset : number) :
  packageSlice E sortParam limit offset
  = slice (sortedCache E sortParam) offset (num_add offset limit).
Proof. unfold packageSlice. apply slice_capped. Qed.

(** With plain keys upstream, the versions collection holds the keys of
    its window, each once. *)
Lemma versionsObj_keys (E : env) (req : request) (p : string) (metadata : value)
    (vs : props) :
  get metadata "versions" = VObj vs ->
  plainKeys (map fst vs) = true ->
  Permutation (map fst (versionsObj E req p metadata))
              (slice (map fst vs) (Num 0) (versionsLimitOf req)).
Proof.
  intros Hvs Hplain. apply plainKeys_spec in Hplain as [Hn Hp].
  unfold versionsObj, versionKeys. rewrite Hvs.
  change (keys (VObj vs)) with (map fst vs).
  set (window := slice (map fst vs) (Num 0) (versionsLimitOf req)).
  set (sorted := sort (compareVersions E (versionSortOrder req)) window).
  assert (Hperm : Permutation sorted window) by apply sort_perm.
  rewrite setAll_plain with (g := fun k => versionEntry E req p metadata k).
  - simpl. rewrite map_map. simpl. rewrite map_id. exact Hperm.
  - simpl. eapply Permutation_NoDup; [apply Permutation_sym; exact Hperm|].
    now apply slice_NoDup.
  - intros Hin. apply Hp. eapply slice_incl.
    eapply Permutation_in; eassumption.
Qed.

Lemma packageSlice_length (E : env) (sortParam : string) (l : Z) (offset : number) :
  (0 <= l)%Z ->
  (Z.of_nat (List.length (packageSlice E sortParam (Num l) offset)) <= l)%Z.
Proof.
  intros Hl. unfold packageSlice. now apply slice_window.
Qed.

(** Whatever the branch, a page holds at most [limit] packages. *)
Lemma collectPackages_length (E : env) (req : request) (l : Z) (offset : number) :
  honoursSize E -> (0 <= l)%Z ->
  forall t ps, collectPackages E req (Num l) offset = (t, Returned ps) ->
               (Z.of_nat (List.length ps) <= l)%Z.
Proof.
  intros Hup Hl t ps H. unfold collectPackages in H.
  destruct (queryTruthy req "filter") as [filter|].
  - apply bind_returned in H as [t1 [rs [t2 [H1 [H2 _]]]]].
    apply handlePackageFilter_length in H1; [|assumption..].
    apply forEach_length in H2; [|intros; eapply addFiltered_length; eassumption].
    simpl in H2. lia.
  - destruct (queryTruthy req "sort") as [sortParam|].
    + apply bind_returned in H as [t1 [u [t2 [_ [H2 _]]]]].
      destruct (negb (Nat.eqb (List.length (loadedPackageNamesCache E)) 0)).
      * inversion H2; subst.
        pose proof (setAll_length
                      (fun k => VObj (collectionEntry E (getBaseUrl E req) (VStr k)
                                        (VStr (now E)) (VStr (now E))))
                      (packageSlice E sortParam (Num l) offset) []) as Hlen.
        pose proof (packageSlice_length E sortParam l offset Hl).
        unfold addCached. simpl in Hlen. lia.
      * eapply searchPopular_length; eassumption.
    + eapply searchPopular_length; eassumption.
Qed.

(** The route of the packages collection. *)
Lemma dispatch_packages (E : env) (req : request) :
  isRead (method req) = true ->
  segments req = ["noderegistries"; "npmjs.org"; "packages"] ->
  dispatch E req = packagesHandler E req "npmjs.org".
Proof.
  intros Hm Hs. unfold dispatch. rewrite Hm, Hs. reflexivity.
Qed.

(** *** The trailing slash handler of the PyPI facade *)

Lemma take_drop (n : nat) (s : string) : take n s ++ drop n s = s.
Proof.
  revert s; induction n as [|n IH]; intros [|c s]; simpl; try reflexivity.
  now rewrite IH.
Qed.

Lemma trailingSlash_path (req : request) :
  path (Pypi.trailingSlash req) = path req
  \/ path req = path (Pypi.trailingSlash req) ++ "/".
Proof.
  unfold Pypi.trailingSlash.
  destruct ((1 <? String.length (path req))%nat) eqn:Hl; simpl; [|now left].
  destruct (endsWith (path req) "/") eqn:He; simpl; [|now left].
  right. unfold endsWith in He. apply andb_true_iff in He as [_ He].
  apply String.eqb_eq in He. simpl in He.
  rewrite <- He. symmetry. apply take_drop.
Qed.

End NpmFacts.

Module NpmClaims.
Import JS Http Spec Npm JSFacts NpmFacts Samples.

(** C7.  On the packages collection of the registry [npmjs.org], [limit]
    is 20 when absent (or empty) and [offset] is 0; and whenever the
    limit parses to a number that is at most 0 (so for [limit=0]) the
    handler answers 400 with a problem-details body and has performed no
    effect at all: nothing was awaited and nothing was asked upstream. *)
Theorem packages_limit_rejected (E : env) (req : request) :
  (queryParam (query req) "limit" = None -> limitOf req = Num 20)
  /\ (queryParam (query req) "offset" = None -> offsetOf req = Num 0)
  /\ (forall z, limitOf req = Num z -> (z <= 0)%Z ->
        exists resp,
          packagesHandler E req "npmjs.org" = ([], Returned resp)
          /\ status resp = 400%Z
          /\ get (body resp) "type" = VStr "about:blank"
          /\ get (body resp) "title" = VStr "Invalid Request"
          /\ get (body resp) "status" = VNum (Num 400)
          /\ get (body resp) "detail" = VStr "The limit parameter must be greater than 0")
  /\ (queryParam (query req) "limit" = Some "0" -> limitOf req = Num 0).
Proof.
  repeat split.
  - intros H. unfold limitOf, queryOr. now rewrite H.
  - intros H. unfold offsetOf, queryOr. now rewrite H.
  - intros z Hz Hle.
    eexists. unfold packagesHandler. simpl. rewrite Hz. simpl.
    apply Z.leb_le in Hle. rewrite Hle. simpl.
    repeat split.
  - intros H. unfold limitOf, queryOr. now rewrite H.
Qed.

Lemma packages_limit_rejected_witness :
  limitOf (limitRequest "0") = Num 0
  /\ (0 <= 0)%Z
  /\ exists resp,
       packagesHandler cachedEnv (limitRequest "0") "npmjs.org" = ([], Returned resp)
       /\ status resp = 400%Z
       /\ get (body resp) "type" = VStr "about:blank"
       /\ get (body resp) "title" = VStr "Invalid Request"
       /\ get (body resp) "status" = VNum (Num 400)
       /\ get (body resp) "detail" = VStr "The limit parameter must be greater than 0".
Proof.
  split; [reflexivity|]. split; [lia|].
  destruct (packages_limit_rejected cachedEnv (limitRequest "0")) as [_ [_ [H _]]].
  apply (H 0%Z); [reflexivity | lia].
Defined.

Example limit_examples :
  limitOf (limitRequest "-5") = Num (-5)
  /\ limitOf (limitRequest "") = Num 20
  /\ limitOf (limitRequest "7") = Num 7
  /\ limitOf (limitRequest "abc") = NaN
  /\ limitOf (limitRequest "12abc") = Num 12.
Proof. repeat split. Qed.

(** White space of any kind before the digits is skipped: [limit=%C2%A00]
    is the number 0 and is rejected like [limit=0]. *)
Example limit_white_space_examples :
  limitOf (limitRequest (nbsp ++ "0")) = Num 0
  /\ limitOf (limitRequest (" " ++ nbsp ++ "-3")) = Num (-3)
  /\ limitOf (limitRequest (nbsp ++ "x")) = NaN
  /\ statusOf (packagesHandler cachedEnv (limitRequest (nbsp ++ "0")) "npmjs.org") = 400%Z.
Proof. repeat split. Qed.

(** C10.  A limit that does not parse ([parseInt] yields NaN, as for
    [limit=abc]) passes the guard, since [NaN <= 0] is false: the
    handler goes on to collect packages with a NaN limit and answers 200
    (or 500 if that throws), never 400.  A 400 is given exactly when the
    limit parses to a number that is at most 0. *)
Theorem packages_nan_limit_served (E : env) (req : request) :
  (limitOf req = NaN ->
     num_le (limitOf req) (Num 0) = false
     /\ packagesHandler E req "npmjs.org"
        = tryCatch
            (packages <- collectPackages E req NaN (offsetOf req) ;;
             ret (sendJson 200 (linkHeader E req NaN (offsetOf req) (List.length packages))
                    (VObj packages)))
            (ret (failure "Failed to retrieve packages"))
     /\ forall resp, snd (packagesHandler E req "npmjs.org") = Returned resp ->
                     status resp = 200%Z \/ status resp = 500%Z)
  /\ (forall resp, snd (packagesHandler E req "npmjs.org") = Returned resp ->
        (status resp = 400%Z <-> exists z, limitOf req = Num z /\ (z <= 0)%Z)).
Proof.
  assert (Hserved : forall limit resp,
            snd (tryCatch
                   (packages <- collectPackages E req limit (offsetOf req) ;;
                    ret (sendJson 200
                           (linkHeader E req limit (offsetOf req) (List.length packages))
                           (VObj packages)))
                   (ret (failure "Failed to retrieve packages"))) = Returned resp ->
            status resp = 200%Z \/ status resp = 500%Z).
  { intros limit resp H. apply served_status in H.
    destruct H as [[-> _]|[x [t [_ ->]]]]; [now right | now left]. }
  split.
  - intros Hnan.
    assert (Heq : packagesHandler E req "npmjs.org"
                  = tryCatch
                      (packages <- collectPackages E req NaN (offsetOf req) ;;
                       ret (sendJson 200
                              (linkHeader E req NaN (offsetOf req) (List.length packages))
                              (VObj packages)))
                      (ret (failure "Failed to retrieve packages"))).
    { unfold packagesHandler. simpl. now rewrite Hnan. }
    repeat split.
    + now rewrite Hnan.
    + exact Heq.
    + intros resp H. rewrite Heq in H. now apply Hserved in H.
  - intros resp H. unfold packagesHandler in H. simpl in H.
    destruct (limitOf req) as [|z] eqn:Hl.
    + simpl in H. apply Hserved in H. split.
      * intros E4. rewrite E4 in H. destruct H; discriminate.
      * intros [z [Hz _]]. discriminate.
    + simpl in H. destruct (Z.leb_spec z 0) as [Hle|Hgt].
      * simpl in H. inversion H; subst. split; [|reflexivity].
        intros _. now exists z.
      * apply Hserved in H. split.
        -- intros E4. rewrite E4 in H. destruct H; discriminate.
        -- intros [z' [Hz' Hle]]. inversion Hz'; subst. lia.
Qed.

Lemma packages_nan_limit_served_witness :
  limitOf (limitRequest "abc") = NaN
  /\ num_le (limitOf (limitRequest "abc")) (Num 0) = false
  /\ exists resp,
       snd (packagesHandler cachedEnv (limitRequest "abc") "npmjs.org") = Returned resp
       /\ (status resp = 200%Z \/ status resp = 500%Z).
Proof.
  split; [reflexivity|].
  destruct (packages_nan_limit_served cachedEnv (limitRequest "abc")) as [H _].
  destruct (H eq_refl) as [H1 [H2 H3]].
  split; [exact H1|].
  eexists. split; [reflexivity|]. apply H3. reflexivity.
Defined.

(** C8, as stated, fails on the PyPI facade: with an API key configured
    a PUT without credentials is answered 401 by the authentication
    middleware, which runs before the 405 catch-all; and the detail of
    the PyPI 405 names the method and the path, it does not say that the
    registry is read-only. *)
Lemma pypi_write_not_always_405_read_only :
  status (Pypi.app keyedPypi pypiPut) = 401%Z
  /\ status (Pypi.app openPypi pypiPut) = 405%Z
  /\ get (body (Pypi.app openPypi pypiPut)) "detail"
     = VStr "PUT method not supported on /pythonregistries/pypi.org/packages"
  /\ includes "PUT method not supported on /pythonregistries/pypi.org/packages" "read-only"
     = false.
Proof. repeat split. Qed.

(** C8, amended.  In the npm facade every request whose method is PUT,
    PATCH, POST or DELETE, on any path, is answered 405 with a
    problem-details body titled "Method Not Allowed" whose detail says
    that the registry is read-only, and the answer is given without any
    effect.  In the PyPI facade such a request is answered 405 with a
    problem-details body of the same title, whose detail names the
    method and the path (without its trailing slash, if it had one),
    provided it passes the API key check, which reads the path as it
    came, and no mounted router answers it first. *)
Theorem write_methods_answered_405 :
  (forall (E : env) (req : request),
     has writeMethods (toUpperCase (method req)) = true ->
     exists resp,
       dispatch E req = ([], Returned resp)
       /\ status resp = 405%Z
       /\ get (body resp) "type" = VStr "about:blank"
       /\ get (body resp) "title" = VStr "Method Not Allowed"
       /\ get (body resp) "status" = VNum (Num 405)
       /\ get (body resp) "detail"
          = VStr ("This registry is read-only. " ++ toUpperCase (method req)
                  ++ " operations are not supported."))
  /\ (forall (E : Pypi.env) (req : request),
        has Pypi.writeMethods (method req) = true ->
        Pypi.guard E req = None ->
        Pypi.routers E (Pypi.trailingSlash req) = None ->
        status (Pypi.app E req) = 405%Z
        /\ get (body (Pypi.app E req)) "type" = VStr "about:blank"
        /\ get (body (Pypi.app E req)) "title" = VStr "Method Not Allowed"
        /\ get (body (Pypi.app E req)) "status" = VNum (Num 405)
        /\ get (body (Pypi.app E req)) "detail"
           = VStr (method req ++ " method not supported on "
                   ++ path (Pypi.trailingSlash req))
        /\ (path (Pypi.trailingSlash req) = path req
            \/ path req = path (Pypi.trailingSlash req) ++ "/")).
Proof.
  split.
  - intros E req H. eexists. unfold dispatch.
    rewrite (write_method_not_read _ H).
    unfold writeMethodCatchAll. rewrite H.
    repeat split.
  - intros E req H Hg Hr.
    assert (Hm : method (Pypi.trailingSlash req) = method req).
    { unfold Pypi.trailingSlash. now destruct (_ && _). }
    unfold Pypi.app, Pypi.methodNotAllowed.
    rewrite Hg. cbv zeta. rewrite Hr, Hm. unfold has in H. rewrite H.
    repeat split. apply trailingSlash_path.
Qed.

Lemma write_methods_answered_405_witness :
  (has writeMethods (toUpperCase (method putRequest)) = true
   /\ exists resp,
        dispatch cachedEnv putRequest = ([], Returned resp)
        /\ status resp = 405%Z
        /\ get (body resp) "type" = VStr "about:blank"
        /\ get (body resp) "title" = VStr "Method Not Allowed"
        /\ get (body resp) "status" = VNum (Num 405)
        /\ get (body resp) "detail"
           = VStr ("This registry is read-only. " ++ toUpperCase (method putRequest)
                   ++ " operations are not supported."))
  /\ (has Pypi.writeMethods (method pypiPut) = true
      /\ Pypi.guard openPypi pypiPut = None
      /\ Pypi.routers openPypi (Pypi.trailingSlash pypiPut) = None
      /\ status (Pypi.app openPypi pypiPut) = 405%Z).
Proof.
  destruct write_methods_answered_405 as [Hnpm Hpypi].
  split.
  - split; [reflexivity|]. apply (Hnpm cachedEnv putRequest). reflexivity.
  - split; [reflexivity|]. split; [reflexivity|]. split; [reflexivity|].
    apply (Hpypi openPypi pypiPut); reflexivity.
Defined.

(** C3.  Both version views take as ancestor the key that precedes the
    version in the [versions] map of the upstream document, in the order
    of [Object.keys]; the publication times in [time] are never read.
    For an upstream document that lists 2.0.0 (published 2021) before
    1.0.0 (published 2020), the oldest version 1.0.0 is given the
    ancestor 2.0.0 instead of itself, in the full view and in the meta
    view alike. *)
Theorem ancestor_ignores_publication_time :
  (get (get twoVersions "time") "1.0.0" = VStr "2020-01-01T00:00:00.000Z"
   /\ get (get twoVersions "time") "2.0.0" = VStr "2021-01-01T00:00:00.000Z"
   /\ String.ltb "2020-01-01T00:00:00.000Z" "2021-01-01T00:00:00.000Z" = true)
  /\ (exists resp,
        snd (dispatch twoVersionsEnv
               (versionRequest ["1.0.0"]
                  "/noderegistries/npmjs.org/packages/demo/versions/1.0.0"))
          = Returned resp
        /\ status resp = 200%Z
        /\ get (body resp) "versionid" = VStr "1.0.0"
        /\ get (body resp) "ancestor" = VStr "2.0.0")
  /\ (exists resp,
        snd (dispatch twoVersionsEnv
               (versionRequest ["1.0.0"; "meta"]
                  "/noderegistries/npmjs.org/packages/demo/versions/1.0.0/meta"))
          = Returned resp
        /\ status resp = 200%Z
        /\ get (body resp) "versionid" = VStr "1.0.0"
        /\ get (body resp) "ancestor" = VStr "2.0.0").
Proof.
  split; [repeat split|].
  split; eexists; repeat split.
Qed.

(** What the two views do compute: the predecessor in key order. *)
Lemma version_views_ancestor (E : env) (req : request) (r p v : string)
    (versionData packageMetadata : value) :
  get (versionInfo E req r p v versionData packageMetadata) "ancestor"
    = VStr (ancestorOf (allVersionsOf packageMetadata) v)
  /\ get (versionMetaInfo E req r p v versionData packageMetadata) "ancestor"
    = VStr (ancestorOf (allVersionsOf packageMetadata) v).
Proof.
  split.
  - apply (versionInfo_members E req r p v versionData packageMetadata).
  - apply (versionMetaInfo_members E req r p v versionData packageMetadata).
Qed.

(** C1, as stated, fails on the packages collection: the entry of a
    scoped package has the raw name in [xid] and the percent-encoded
    name in [self], so [self] is not the base URL followed by [xid]. *)
Lemma scoped_entry_self_is_not_base_plus_xid :
  exists resp,
    dispatch scopedEnv scopedRequest = ([AwaitCacheLoad], Returned resp)
    /\ status resp = 200%Z
    /\ getBaseUrl scopedEnv scopedRequest = "https://bridge.example"
    /\ get (get (body resp) "@scope/pkg") "xid"
       = VStr "/noderegistries/npmjs.org/packages/@scope/pkg"
    /\ get (get (body resp) "@scope/pkg") "self"
       = VStr "https://bridge.example/noderegistries/npmjs.org/packages/%40scope%2Fpkg"
    /\ selfIsBasePlusXid "https://bridge.example" (get (body resp) "@scope/pkg") = false.
Proof. eexists. repeat split. Qed.

Lemma selfIsBasePlusXid_intro (base xid : string) (entity : value) :
  get entity "xid" = VStr xid -> get entity "self" = VStr (base ++ xid) ->
  selfIsBasePlusXid base entity = true.
Proof.
  intros Hx Hs. unfold selfIsBasePlusXid. rewrite Hx, Hs. apply String.eqb_refl.
Qed.

(** C1, amended.  With [base] the base URL of the request:
    - the group, the package resource, its meta view, the version view
      and the version meta view have [self = base + xid];
    - so have the group references inside the registry document;
    - an entry of the packages collection, and an entry of the versions
      collection, has [self = base + xid] when [encodeURIComponent]
      leaves the package name (and the version id) unchanged;
    - the registry document has [xid = "/"] and [self = base]. *)
Theorem self_is_base_plus_xid (E : env) (req : request) :
  let base := getBaseUrl E req in
  (forall r, selfIsBasePlusXid base (groupInfo E req r) = true)
  /\ (forall r p metadata,
        selfIsBasePlusXid base (packageInfo E req r p metadata) = true
        /\ selfIsBasePlusXid base (metaInfo E req r p metadata) = true)
  /\ (forall r p v versionData packageMetadata,
        selfIsBasePlusXid base (versionInfo E req r p v versionData packageMetadata) = true
        /\ selfIsBasePlusXid base (versionMetaInfo E req r p v versionData packageMetadata)
           = true)
  /\ selfIsBasePlusXid base (get (groupReference base) "npmjs.org") = true
  /\ (forall name createdat modifiedat,
        encodeURIComponent (toStr name) = toStr name ->
        selfIsBasePlusXid base (VObj (collectionEntry E base name createdat modifiedat))
        = true)
  /\ (forall p metadata versionId,
        encodeURIComponent p = p -> encodeURIComponent versionId = versionId ->
        selfIsBasePlusXid base (versionEntry E req p metadata versionId) = true)
  /\ (get (VObj (registryInfo E req)) "xid" = VStr "/"
      /\ get (VObj (registryInfo E req)) "self" = VStr base).
Proof.
  intros base. repeat split; intros.
  - now apply selfIsBasePlusXid_intro with (xid := "/noderegistries/" ++ r).
  - now apply selfIsBasePlusXid_intro with (xid := packagePathOf r p).
  - now apply selfIsBasePlusXid_intro with (xid := packagePathOf r p).
  - apply selfIsBasePlusXid_intro with (xid := versionPathOf r p v);
      apply (versionInfo_members E req r p v versionData packageMetadata).
  - apply selfIsBasePlusXid_intro with (xid := versionPathOf r p v);
      apply (versionMetaInfo_members E req r p v versionData packageMetadata).
  - now apply selfIsBasePlusXid_intro with (xid := "/noderegistries/npmjs.org").
  - apply selfIsBasePlusXid_intro with (xid := packagesPath ++ "/" ++ toStr name);
      [reflexivity|].
    unfold collectionEntry, get. simpl. now rewrite H.
  - apply selfIsBasePlusXid_intro
      with (xid := packagesPath ++ "/" ++ p ++ "/versions/" ++ versionId);
      [reflexivity|].
    unfold versionEntry, get. simpl. now rewrite H, H0.
  - apply registryInfo_xid_self.
  - apply registryInfo_xid_self.
Qed.

Lemma self_is_base_plus_xid_witness :
  encodeURIComponent (toStr (VStr "express")) = toStr (VStr "express")
  /\ selfIsBasePlusXid (getBaseUrl cachedEnv sortedPackagesRequest)
       (VObj (collectionEntry cachedEnv (getBaseUrl cachedEnv sortedPackagesRequest)
                (VStr "express") VNull VNull)) = true
  /\ encodeURIComponent "demo" = "demo" /\ encodeURIComponent "1.0.0" = "1.0.0"
  /\ selfIsBasePlusXid (getBaseUrl cachedEnv sortedPackagesRequest)
       (versionEntry cachedEnv sortedPackagesRequest "demo" twoVersions "1.0.0") = true.
Proof.
  destruct (self_is_base_plus_xid cachedEnv sortedPackagesRequest)
    as [_ [_ [_ [_ [Hc [Hv _]]]]]].
  split; [reflexivity|]. split; [apply Hc; reflexivity|].
  split; [reflexivity|]. split; [reflexivity|].
  apply Hv; reflexivity.
Defined.

(** No base URL makes the registry document satisfy [self = base + xid]. *)
Lemma registry_self_is_not_base_plus_xid (E : env) (req : request) :
  selfIsBasePlusXid (getBaseUrl E req) (VObj (registryInfo E req)) = false.
Proof.
  assert (Hneq : forall s : string, s <> s ++ "/").
  { induction s as [|c s IH]; simpl; [discriminate|].
    intros H. inversion H. contradiction. }
  destruct (registryInfo_xid_self E req) as [Hx Hs].
  unfold selfIsBasePlusXid. rewrite Hx, Hs.
  apply String.eqb_neq, Hneq.
Qed.

(** C6, as stated, fails.  The handler passes [limit] to the upstream
    search as [size] and never cuts what comes back: when upstream
    answers two hits for [limit=1] the page holds 2 entries, more than
    the limit, and carries a [Link] header although it is not a page of
    exactly [limit] entries.  And for [limit=abc] the limit is NaN, which
    no number of entries is below. *)
Lemma packages_page_exceeds_limit :
  limitOf (limitRequest "1") = Num 1
  /\ statusOf (dispatch generousEnv (limitRequest "1")) = 200%Z
  /\ List.length (keys (bodyOf (dispatch generousEnv (limitRequest "1")))) = 2%nat
  /\ headerOf (dispatch generousEnv (limitRequest "1")) "Link"
     = Some ("<https://bridge.example/noderegistries/npmjs.org/packages?limit=1&offset=1>; rel="
             ++ dquote ++ "next" ++ dquote)
  /\ limitOf (limitRequest "abc") = NaN
  /\ statusOf (dispatch generousEnv (limitRequest "abc")) = 200%Z
  /\ List.length (keys (bodyOf (dispatch generousEnv (limitRequest "abc")))) = 2%nat
  /\ num_le (Num 2) (limitOf (limitRequest "abc")) = false.
Proof. repeat split. Qed.

(** C6, amended.  For every 200 answer of the packages collection, with
    [n] the number of returned entries and an upstream search that
    returns at most the [size] it is asked for: [n <= limit] when the
    limit parses to a number; a [Link] header is present exactly when
    the query was filtered and [n > 0], or unfiltered and [n = limit];
    and a filtered query with no match answers the empty object without
    [Link]. *)
Theorem packages_page_and_link (E : env) (req : request) (registryId : string)
    (resp : response) :
  honoursSize E ->
  snd (packagesHandler E req registryId) = Returned resp ->
  status resp = 200%Z ->
  exists packages,
    body resp = VObj packages
    /\ (forall l, limitOf req = Num l -> (Z.of_nat (List.length packages) <= l)%Z)
    /\ (header resp "Link" <> None <->
          (queryTruthy req "filter" <> None /\ (0 < Z.of_nat (List.length packages))%Z)
          \/ (queryTruthy req "filter" = None
              /\ limitOf req = Num (Z.of_nat (List.length packages))))
    /\ (queryTruthy req "filter" <> None -> List.length packages = O ->
          body resp = VObj [] /\ header resp "Link" = None).
Proof.
  intros Hup H H200. unfold packagesHandler in H.
  destruct (negb (String.eqb registryId "npmjs.org")).
  { simpl in H. inversion H; subst. discriminate H200. }
  simpl in H.
  assert (Hguard : num_le (limitOf req) (Num 0) = false).
  { destruct (num_le (limitOf req) (Num 0)); [|reflexivity].
    simpl in H. inversion H; subst. discriminate H200. }
  rewrite Hguard in H.
  apply served_status in H.
  destruct H as [[-> _]|[packages [t [Hc ->]]]]; [discriminate H200|].
  assert (Hsize : forall l, limitOf req = Num l ->
                            (Z.of_nat (List.length packages) <= l)%Z).
  { intros l Hl. rewrite Hl in Hc, Hguard. simpl in Hguard.
    apply Z.leb_gt in Hguard.
    apply collectPackages_length in Hc; [exact Hc | assumption | lia]. }
  exists packages. split; [reflexivity|]. split; [exact Hsize|].
  assert (Hlink : forall n,
            header (sendJson 200 (linkHeader E req (limitOf req) (offsetOf req) n)
                      (VObj packages)) "Link" <> None
            <-> (match queryTruthy req "filter" with
                 | Some _ => num_gt (Num (Z.of_nat n)) (Num 0)
                 | None => num_ge (Num (Z.of_nat n)) (limitOf req)
                 end = true)).
  { intros n. unfold header, sendJson, linkHeader. simpl.
    destruct (queryTruthy req "filter") as [f|]; simpl.
    - destruct (0 <? Z.of_nat n)%Z; simpl; split; congruence.
    - destruct (limitOf req) as [|l']; simpl; [split; congruence|].
      destruct (l' <=? Z.of_nat n)%Z; simpl; split; congruence. }
  split.
  - rewrite Hlink. destruct (queryTruthy req "filter") as [f|]; simpl.
    + rewrite Z.ltb_lt. split.
      * intros Hn. left. split; [discriminate | exact Hn].
      * intros [[_ Hn]|[Hf _]]; [exact Hn | discriminate].
    + destruct (limitOf req) as [|l] eqn:Hl; simpl.
      * split; [discriminate | intros [[Hf _]|[_ Hn]]; [congruence | discriminate]].
      * rewrite Z.leb_le. specialize (Hsize l eq_refl). split.
        -- intros Hn. right. split; [reflexivity | f_equal; lia].
        -- intros [[Hf _]|[_ Hn]]; [congruence | inversion Hn; lia].
  - intros Hf Hn. destruct packages; [|discriminate]. split; [reflexivity|].
    assert (Hno : ~ header (sendJson 200
                              (linkHeader E req (limitOf req) (offsetOf req)
                                 (@List.length (string * value) []))
                              (VObj [])) "Link" <> None).
    { rewrite Hlink. destruct (queryTruthy req "filter"); [discriminate | congruence]. }
    destruct (header _ "Link"); [|reflexivity].
    exfalso. apply Hno. discriminate.
Qed.

Lemma sample_upstream_honours_size (cache : list string) :
  honoursSize (npmEnv cache noPackument noVersionDoc noHits).
Proof.
  intros text z from popularity v items Hz Hv Ho.
  inversion Hv; subst. inversion Ho; subst. simpl. exact Hz.
Qed.

Lemma packages_page_and_link_witness :
  honoursSize cachedEnv
  /\ limitOf sortedPackagesRequest = Num 2
  /\ exists resp packages,
       snd (packagesHandler cachedEnv sortedPackagesRequest "npmjs.org") = Returned resp
       /\ status resp = 200%Z
       /\ body resp = VObj packages
       /\ (Z.of_nat (List.length packages) <= 2)%Z.
Proof.
  split; [apply sample_upstream_honours_size|]. split; [reflexivity|].
  eexists.
  destruct (packages_page_and_link cachedEnv sortedPackagesRequest "npmjs.org" _
              (sample_upstream_honours_size _) eq_refl eq_refl)
    as [packages [Hb [Hn _]]].
  exists packages. split; [reflexivity|]. split; [reflexivity|].
  split; [exact Hb | exact (Hn 2%Z eq_refl)].
Defined.

Example filtered_without_match :
  bodyOf (dispatch cachedEnv filteredRequest) = VObj []
  /\ headerOf (dispatch cachedEnv filteredRequest) "Link" = None
  /\ headerOf (dispatch cachedEnv sortedPackagesRequest) "Link"
     = Some ("<https://bridge.example/noderegistries/npmjs.org/packages?limit=2&offset=2>; rel="
             ++ dquote ++ "next" ++ dquote).
Proof. repeat split. Qed.

(** C4, as stated, fails: the versions endpoint cuts the version keys
    to its [limit] (100 by default) while [versionscount] counts them
    all.  A package with 101 versions reports [versionscount = 101] on
    the resource and on its meta view, and lists 100 versions. *)
Lemma versionscount_exceeds_listing :
  statusOf (dispatch manyVersionsEnv
              (busyRequest [] "/noderegistries/npmjs.org/packages/busy" [])) = 200%Z
  /\ get (bodyOf (dispatch manyVersionsEnv
                    (busyRequest [] "/noderegistries/npmjs.org/packages/busy" [])))
         "versionscount" = VNum (Num 101)
  /\ get (bodyOf (dispatch manyVersionsEnv
                    (busyRequest ["meta"] "/noderegistries/npmjs.org/packages/busy/meta" [])))
         "versionscount" = VNum (Num 101)
  /\ statusOf (dispatch manyVersionsEnv
                 (busyRequest ["versions"]
                    "/noderegistries/npmjs.org/packages/busy/versions" [])) = 200%Z
  /\ List.length (keys (bodyOf (dispatch manyVersionsEnv
                                  (busyRequest ["versions"]
                                     "/noderegistries/npmjs.org/packages/busy/versions" []))))
     = 100%nat.
Proof. repeat split; vm_compute; reflexivity. Qed.

Lemma versions_object_truthy (metadata : value) (vs : props) :
  get metadata "versions" = VObj vs -> truthy metadata = true.
Proof.
  destruct metadata as [| | b | n | s | items | o]; try discriminate; try reflexivity.
  destruct s; [discriminate | reflexivity].
Qed.

(** C4, amended.  For a package whose upstream document has a
    [versions] object with plain keys, [versionscount] on the resource
    and on its meta view is the number of those keys.  The versions
    endpoint lists the first [limit] of them ([limit] is 100 when
    absent): all of them, so exactly [versionscount], when the limit is
    at least that number, and exactly [limit] otherwise.  That is for a
    limit that parses to a number that is not negative; a negative limit
    [-k] lists all but the last [k], and a limit that does not parse
    lists none. *)
Theorem versionscount_matches_listing (E : env) (req reqVersions : request)
    (p : string) (metadata : value) (vs : props) :
  getPackageMetadata E p = Returned metadata ->
  get metadata "versions" = VObj vs ->
  plainKeys (map fst vs) = true ->
  let count := List.length vs in
  let listed := keys (bodyOf (versionsHandler E reqVersions "npmjs.org" p)) in
  statusOf (packageHandler E req "npmjs.org" p) = 200%Z
  /\ get (bodyOf (packageHandler E req "npmjs.org" p)) "versionscount"
     = VNum (Num (Z.of_nat count))
  /\ statusOf (packageMetaHandler E req "npmjs.org" p) = 200%Z
  /\ get (bodyOf (packageMetaHandler E req "npmjs.org" p)) "versionscount"
     = VNum (Num (Z.of_nat count))
  /\ statusOf (versionsHandler E reqVersions "npmjs.org" p) = 200%Z
  /\ (forall l,
        versionsLimitOf reqVersions = Num l -> (0 <= l)%Z ->
        Permutation listed (firstn (Z.to_nat l) (map fst vs))
        /\ List.length listed = Nat.min (Z.to_nat l) count
        /\ ((Z.of_nat count <= l)%Z -> List.length listed = count)
        /\ ((l < Z.of_nat count)%Z -> Z.of_nat (List.length listed) = l))
  /\ (forall l,
        versionsLimitOf reqVersions = Num l -> (l < 0)%Z ->
        Permutation listed (firstn (count - Z.to_nat (- l)) (map fst vs)))
  /\ (versionsLimitOf reqVersions = NaN -> listed = []).
Proof.
  intros Hm Hvs Hplain count listed.
  pose proof (versions_object_truthy _ _ Hvs) as Ht.
  assert (Hcount : versionsCountOf metadata = count).
  { unfold versionsCountOf. rewrite Hvs. simpl. apply length_map. }
  assert (Hlisted : Permutation listed
                      (slice (map fst vs) (Num 0) (versionsLimitOf reqVersions))).
  { unfold listed, bodyOf, versionsHandler. simpl. rewrite Hm. simpl.
    rewrite Ht, Hvs. simpl. now apply versionsObj_keys. }
  unfold statusOf, bodyOf, packageHandler, packageMetaHandler, versionsHandler.
  simpl. rewrite Hm. simpl. rewrite Ht, Hvs. simpl.
  split; [reflexivity|]. split; [unfold get; simpl; now rewrite Hcount|].
  split; [reflexivity|]. split; [unfold get; simpl; now rewrite Hcount|].
  split; [reflexivity|]. split; [|split].
  - intros l Hl Hpos. rewrite Hl, slice_prefix in Hlisted by assumption.
    assert (Hlen : List.length listed = Nat.min (Z.to_nat l) count).
    { rewrite (Permutation_length Hlisted), length_firstn, length_map. reflexivity. }
    split; [exact Hlisted|]. split; [exact Hlen|]. split; intros; lia.
  - intros l Hl Hneg. rewrite Hl, slice_negative in Hlisted by assumption.
    now rewrite length_map in Hlisted.
  - intros Hl. rewrite Hl, slice_nan in Hlisted.
    apply Permutation_sym in Hlisted. now apply Permutation_nil in Hlisted.
Qed.

Lemma versionscount_matches_listing_witness :
  getPackageMetadata twoVersionsEnv "demo" = Returned twoVersions
  /\ plainKeys (map fst [("2.0.0", VObj [("version", VStr "2.0.0")]);
                         ("1.0.0", VObj [("version", VStr "1.0.0")])]) = true
  /\ versionsLimitOf (versionRequest [] "/noderegistries/npmjs.org/packages/demo/versions")
     = Num 100
  /\ get (bodyOf (packageHandler twoVersionsEnv
                    (versionRequest [] "/noderegistries/npmjs.org/packages/demo")
                    "npmjs.org" "demo")) "versionscount" = VNum (Num 2)
  /\ List.length
       (keys (bodyOf (versionsHandler twoVersionsEnv
                        (versionRequest [] "/noderegistries/npmjs.org/packages/demo/versions")
                        "npmjs.org" "demo"))) = 2%nat.
Proof.
  split; [reflexivity|]. split; [reflexivity|]. split; [reflexivity|].
  destruct (versionscount_matches_listing twoVersionsEnv
              (versionRequest [] "/noderegistries/npmjs.org/packages/demo")
              (versionRequest [] "/noderegistries/npmjs.org/packages/demo/versions")
              "demo" twoVersions
              [("2.0.0", VObj [("version", VStr "2.0.0")]);
               ("1.0.0", VObj [("version", VStr "1.0.0")])]
              eq_refl eq_refl eq_refl)
    as [_ [H1 [_ [_ [_ [H2 _]]]]]].
  split; [exact H1|].
  destruct (H2 100%Z eq_refl) as [_ [_ [H3 _]]]; [lia|].
  apply H3. simpl. lia.
Defined.

(** The three kinds of limit on a package with two versions. *)
Example versions_limit_examples :
  keys (bodyOf (versionsHandler twoVersionsEnv sortedVersionsRequest "npmjs.org" "demo"))
    = ["2.0.0"]
  /\ keys (bodyOf (versionsHandler twoVersionsEnv
                     (request_ "GET" [] "/noderegistries/npmjs.org/packages/demo/versions"
                        [("limit", "-1")]) "npmjs.org" "demo")) = ["2.0.0"]
  /\ keys (bodyOf (versionsHandler twoVersionsEnv
                     (request_ "GET" [] "/noderegistries/npmjs.org/packages/demo/versions"
                        [("limit", "abc")]) "npmjs.org" "demo")) = []
  /\ keys (bodyOf (versionsHandler twoVersionsEnv
                     (request_ "GET" [] "/noderegistries/npmjs.org/packages/demo/versions"
                        [("limit", "0")]) "npmjs.org" "demo")) = [].
Proof. repeat split. Qed.

(** C5, as stated, fails.  The versions collection cuts the version
    keys to the limit before it sorts them, and it never waits for the
    name cache: with the keys 2.0.0, 1.0.0 and [limit=1] it lists 2.0.0,
    where the first element of the sorted keys is 1.0.0.  And on the
    packages collection a [sort] given together with a [filter] is not
    applied and nothing waits for the cache. *)
Lemma versions_cut_before_sorted :
  keys (bodyOf (dispatch twoVersionsEnv sortedVersionsRequest)) = ["2.0.0"]
  /\ slice (sort (compareVersions twoVersionsEnv "asc")
                 (keys (get twoVersions "versions"))) (Num 0) (Num 1) = ["1.0.0"]
  /\ fst (dispatch twoVersionsEnv sortedVersionsRequest) = [GetPackageMetadata "demo"]
  /\ fst (dispatch cachedEnv filterSortRequest) = [OptimizedFilter "name=*"].
Proof. repeat split. Qed.

(** C5, amended.  On the packages collection, for a request without
    [filter] and with [sort], once the limit has passed validation and
    the loaded name cache is not empty: the handler first waits for the
    cache to load, which is its only effect; it answers 200; the names
    it returns are those of [sorted.slice(offset, offset + limit)],
    where [sorted] is the whole loaded cache, sorted (the name
    [__proto__] apart, which an object cannot hold as a key); for an
    offset that is not negative these are the [limit] names that follow
    the first [offset] names of [sorted]; [sorted] is a rearrangement of
    the whole loaded cache; and when the sort parameter has the form
    [field=order] it is in the order of the comparator, provided the
    comparator never puts two names each after the other. *)
Theorem sorted_packages_page (E : env) (req : request) (sortParam : string) :
  queryTruthy req "filter" = None ->
  queryTruthy req "sort" = Some sortParam ->
  num_le (limitOf req) (Num 0) = false ->
  loadedPackageNamesCache E <> [] ->
  let sorted := sortedCache E sortParam in
  let page := slice sorted (offsetOf req) (num_add (offsetOf req) (limitOf req)) in
  fst (packagesHandler E req "npmjs.org") = [AwaitCacheLoad]
  /\ statusOf (packagesHandler E req "npmjs.org") = 200%Z
  /\ (forall name,
        In name (keys (bodyOf (packagesHandler E req "npmjs.org")))
        <-> In name page /\ name <> "__proto__")
  /\ (forall o l,
        offsetOf req = Num o -> limitOf req = Num l -> (0 <= o)%Z ->
        (0 < l)%Z /\ page = firstn (Z.to_nat l) (skipn (Z.to_nat o) sorted))
  /\ Permutation sorted (loadedPackageNamesCache E)
  /\ (forall sortField order,
        split sortParam "=" = [sortField; order] ->
        sortField <> EmptyString -> order <> EmptyString ->
        asymmetric (compareEntries E sortField (toLowerCase order)) ->
        Sorted (inOrder (compareEntries E sortField (toLowerCase order))) sorted).
Proof.
  intros Hf Hs Hlimit Hcache sorted page.
  assert (Hnonempty : negb (Nat.eqb (List.length (loadedPackageNamesCache E)) 0) = true).
  { destruct (loadedPackageNamesCache E); [congruence | reflexivity]. }
  assert (Hpage : packageSlice E sortParam (limitOf req) (offsetOf req) = page)
    by apply packageSlice_window.
  assert (Hrun : packagesHandler E req "npmjs.org"
                 = ([AwaitCacheLoad],
                    Returned
                      (sendJson 200
                         (linkHeader E req (limitOf req) (offsetOf req)
                            (List.length (fold_left (addCached E (getBaseUrl E req)) page [])))
                         (VObj (fold_left (addCached E (getBaseUrl E req)) page []))))).
  { unfold packagesHandler, collectPackages. simpl.
    rewrite Hlimit, Hf, Hs. simpl. rewrite Hnonempty, Hpage. reflexivity. }
  unfold statusOf, bodyOf. rewrite Hrun. simpl.
  split; [reflexivity|]. split; [reflexivity|].
  split.
  { intros name. unfold keys. simpl. unfold addCached.
    rewrite (setAll_keys
               (fun k => VObj (collectionEntry E (getBaseUrl E req) (VStr k)
                                 (VStr (now E)) (VStr (now E))))).
    simpl. tauto. }
  split; [|split].
  - intros o l Ho Hl Hpos. rewrite Hl in Hlimit. simpl in Hlimit.
    apply Z.leb_gt in Hlimit. split; [exact Hlimit|].
    unfold page. rewrite Ho, Hl. apply slice_positions; lia.
  - unfold sorted, sortedCache.
    destruct (split sortParam "=") as [|f [|o [|x rest]]]; try apply Permutation_refl.
    destruct (nonEmpty f && nonEmpty o); [apply sort_perm | apply Permutation_refl].
  - intros sortField order Hsplit Hfield Horder Hasym.
    unfold sorted, sortedCache. rewrite Hsplit.
    apply String.eqb_neq in Hfield, Horder.
    unfold nonEmpty. rewrite Hfield, Horder. simpl.
    now apply sort_sorted.
Qed.

Lemma byteCompare_asymmetric : asymmetric byteCompare.
Proof.
  intros a b. unfold byteCompare.
  rewrite (String.compare_antisym b a).
  destruct (String.compare a b); simpl; lia.
Qed.

Lemma sorted_packages_page_witness :
  queryTruthy sortedPackagesRequest "filter" = None
  /\ queryTruthy sortedPackagesRequest "sort" = Some "name=asc"
  /\ num_le (limitOf sortedPackagesRequest) (Num 0) = false
  /\ loadedPackageNamesCache cachedEnv <> []
  /\ fst (packagesHandler cachedEnv sortedPackagesRequest "npmjs.org") = [AwaitCacheLoad]
  /\ Permutation (sortedCache cachedEnv "name=asc") (loadedPackageNamesCache cachedEnv)
  /\ asymmetric (compareEntries cachedEnv "name" (toLowerCase "asc"))
  /\ Sorted (inOrder (compareEntries cachedEnv "name" (toLowerCase "asc")))
            (sortedCache cachedEnv "name=asc").
Proof.
  assert (Hcache : loadedPackageNamesCache cachedEnv <> []) by discriminate.
  assert (Hasym : asymmetric (compareEntries cachedEnv "name" (toLowerCase "asc"))).
  { intros a b. apply byteCompare_asymmetric. }
  split; [reflexivity|]. split; [reflexivity|]. split; [reflexivity|].
  split; [exact Hcache|].
  destruct (sorted_packages_page cachedEnv sortedPackagesRequest "name=asc"
              eq_refl eq_refl eq_refl Hcache) as [H1 [_ [_ [_ [H2 H3]]]]].
  split; [exact H1|]. split; [exact H2|]. split; [exact Hasym|].
  apply (H3 "name" "asc"); [reflexivity | discriminate | discriminate | exact Hasym].
Defined.

(** The second page of two names, and a page that starts past the end. *)
Example sorted_page_offsets :
  keys (bodyOf (packagesHandler cachedEnv
                  (request_ "GET" packagesSegments "/noderegistries/npmjs.org/packages"
                     [("limit", "2"); ("offset", "2"); ("sort", "name=asc")]) "npmjs.org"))
    = ["react"]
  /\ keys (bodyOf (packagesHandler cachedEnv
                     (request_ "GET" packagesSegments "/noderegistries/npmjs.org/packages"
                        [("limit", "2"); ("offset", "1"); ("sort", "name=desc")])
                     "npmjs.org"))
     = ["lodash"; "express"]
  /\ keys (bodyOf (packagesHandler cachedEnv
                     (request_ "GET" packagesSegments "/noderegistries/npmjs.org/packages"
                        [("limit", "2"); ("offset", "7"); ("sort", "name=asc")])
                     "npmjs.org"))
     = [].
Proof. repeat split. Qed.

Example sorted_page_example :
  keys (bodyOf (dispatch cachedEnv sortedPackagesRequest)) = ["express"; "lodash"]
  /\ sortedCache cachedEnv "name=asc" = ["express"; "lodash"; "react"]
  /\ sortedCache cachedEnv "name=DESC" = ["react"; "lodash"; "express"]
  /\ sortedCache cachedEnv "name" = ["lodash"; "express"; "react"].
Proof. repeat split. Qed.

End NpmClaims.

(* ================================================================== *)
(** * Further properties of the bridge proxy                            *)
(* ================================================================== *)

Module ProxyProperties.
Import JS Spec Proxy JSFacts Samples.

(** *** pathRewrite *)

Lemma startsWith_slash_group (g rest : string) :
  startsWith ("/" ++ g ++ rest) ("/" ++ g) = true.
Proof. simpl. apply startsWith_app. Qed.

(** X1.  The path sent to the facade always begins with [/groupType];
    without an API prefix the rewriting is idempotent; and a path made
    of the API prefix followed by a path under the group is that path. *)
Theorem pathRewrite_under_group (apiPrefix groupType : string) :
  (forall path, startsWith (pathRewrite apiPrefix groupType path) ("/" ++ groupType) = true)
  /\ (forall path,
        pathRewrite EmptyString groupType (pathRewrite EmptyString groupType path)
        = pathRewrite EmptyString groupType path)
  /\ (forall rest,
        apiPrefix <> EmptyString ->
        startsWith rest ("/" ++ groupType) = true ->
        pathRewrite apiPrefix groupType (apiPrefix ++ rest) = rest).
Proof.
  split; [|split].
  - intros path. unfold pathRewrite.
    match goal with
    | |- context [negb (startsWith ?c _)] => set (cleanPath := c)
    end.
    destruct (startsWith cleanPath ("/" ++ groupType)) eqn:E; cbn [negb].
    + exact E.
    + apply startsWith_slash_group.
  - intros path. unfold pathRewrite. cbn [String.eqb negb andb].
    destruct (startsWith path ("/" ++ groupType)) eqn:E; cbn [negb].
    + now rewrite E.
    + now rewrite startsWith_slash_group.
  - intros rest Hp Hr. unfold pathRewrite.
    apply String.eqb_neq in Hp. rewrite Hp, startsWith_app. simpl.
    assert (Hd : drop (String.length apiPrefix) (apiPrefix ++ rest) = rest).
    { clear. induction apiPrefix; simpl; auto. }
    rewrite Hd.
    destruct rest as [|c rest]; [discriminate Hr|].
    simpl. simpl in Hr. now rewrite Hr.
Qed.

Lemma pathRewrite_under_group_witness :
  "/registry" <> EmptyString
  /\ startsWith "/noderegistries/npmjs.org" ("/" ++ "noderegistries") = true
  /\ pathRewrite "/registry" "noderegistries" ("/registry" ++ "/noderegistries/npmjs.org")
     = "/noderegistries/npmjs.org".
Proof.
  split; [discriminate|]. split; [reflexivity|].
  destruct (pathRewrite_under_group "/registry" "noderegistries") as [_ [_ H]].
  apply H; [discriminate | reflexivity].
Defined.

Example pathRewrite_examples :
  pathRewrite EmptyString "noderegistries" "/" = "/noderegistries/"
  /\ pathRewrite "/registry" "noderegistries" "/registry" = "/noderegistries/"
  /\ pathRewrite "/registry" "noderegistries" "/registry/model" = "/noderegistries/model"
  /\ pathRewrite "/registry" "noderegistries" "/registryx" = "/noderegistriesx".
Proof. repeat split. Qed.

(** *** The Link header *)

Lemma includes_false_step (c : ascii) (s t : string) :
  includes (String c s) t = false ->
  startsWith (String c s) t = false /\ includes s t = false.
Proof.
  unfold includes. simpl.
  destruct (startsWith (String c s) t); [discriminate|].
  destruct (indexOf s t); simpl; [discriminate | auto].
Qed.

Lemma replaceEvery_absent (t r : string) :
  forall s before, includes s t = false -> replaceEvery t r O before s = s.
Proof.
  induction s as [|c s IH]; intros before H; simpl.
  - reflexivity.
  - apply includes_false_step in H as [Hs Hi].
    rewrite Hs. f_equal. now apply IH.
Qed.

Lemma replaceEvery_before (t r : string) :
  noDollar r = true ->
  forall s k b1 b2, replaceEvery t r k b1 s = replaceEvery t r k b2 s.
Proof.
  intros Hr. induction s as [|c s IH]; intros k b1 b2; simpl.
  - reflexivity.
  - destruct k as [|k].
    + destruct (startsWith (String c s) t).
      * rewrite !getSubstitution_noDollar by assumption. f_equal. apply IH.
      * f_equal. apply IH.
    + apply IH.
Qed.

Lemma replaceEvery_skip (t r : string) :
  forall u rest before,
    replaceEvery t r (String.length u) before (u ++ rest)
    = replaceEvery t r O (before ++ u) rest.
Proof.
  induction u as [|c u IH]; intros rest before; simpl.
  - assert (H : before ++ EmptyString = before)
      by (clear; induction before; simpl; congruence).
    now rewrite H.
  - rewrite IH. f_equal.
    clear. induction before; simpl; congruence.
Qed.

Lemma replaceEvery_head (t r rest : string) :
  t <> EmptyString -> noDollar r = true ->
  forall before,
    replaceEvery t r O before (t ++ rest) = r ++ replaceEvery t r O EmptyString rest.
Proof.
  intros Ht Hr before. destruct t as [|c t]; [congruence|].
  simpl. rewrite Ascii.eqb_refl, startsWith_app. simpl.
  rewrite getSubstitution_noDollar by assumption.
  rewrite Nat.sub_0_r, replaceEvery_skip. f_equal.
  now apply replaceEvery_before.
Qed.

(** X2.  A [Link] header of the form [<target...>...], whose upstream
    origin occurs only there, has that origin replaced by the bridge
    base URL and everything else kept; a header in which the upstream
    origin does not occur is left as it is.  (The upstream origin is not
    empty and the bridge base URL holds no [$].) *)
Theorem rewriteLinkValue_next (target bridge rest : string) :
  target <> EmptyString ->
  noDollar bridge = true ->
  startsWith ("<" ++ target ++ rest) target = false ->
  includes rest target = false ->
  rewriteLinkValue ("<" ++ target ++ rest) target bridge = "<" ++ bridge ++ rest
  /\ rewriteLinkValue rest target bridge = rest.
Proof.
  intros Ht Hb Hs Hr. unfold rewriteLinkValue.
  apply String.eqb_neq in Ht as Hte. rewrite Hte.
  split.
  - change ("<" ++ target ++ rest) with (String "<" (target ++ rest)) in *.
    simpl replaceEvery. rewrite Hs.
    change ("<" ++ bridge ++ rest) with (String "<" (bridge ++ rest)). f_equal.
    rewrite replaceEvery_head by assumption. f_equal.
    now apply replaceEvery_absent.
  - now apply replaceEvery_absent.
Qed.

Lemma rewriteLinkValue_next_witness :
  upstream <> EmptyString
  /\ noDollar base = true
  /\ rewriteLinkValue
       ("<" ++ upstream ++ "/noderegistries/npmjs.org/packages?limit=2&offset=2>; rel=next")
       upstream base
     = "<" ++ base ++ "/noderegistries/npmjs.org/packages?limit=2&offset=2>; rel=next".
Proof.
  split; [discriminate|]. split; [reflexivity|].
  apply (rewriteLinkValue_next upstream base); try reflexivity. discriminate.
Defined.

Example rewriteLinkValue_examples :
  rewriteLinkValue "<http://up/a>; rel=next, <http://up/b>; rel=prev" "http://up" "https://b"
    = "<https://b/a>; rel=next, <https://b/b>; rel=prev"
  /\ rewriteLinkValue "aaa" "aa" "b" = "ba"
  /\ rewriteLinkValue "ab" EmptyString "-" = "-a-b-"
  /\ rewriteLinkValue "<http://up/a>" "http://up" "[$`|$&]" = "<[<|http://up]/a>".
Proof. repeat split. Qed.

(** *** Response headers *)

Lemma headerValue_replaceHeader (hs : headers) (k v k' : string) :
  headerValue (replaceHeader hs k v) k'
  = if String.eqb k k'
    then match headerValue hs k with Some _ => Some v | None => None end
    else headerValue hs k'.
Proof.
  induction hs as [|[k0 v0] hs IH]; simpl.
  - now destruct (String.eqb k k').
  - destruct (String.eqb_spec k0 k) as [->|N]; simpl.
    + destruct (String.eqb k k'); reflexivity.
    + rewrite IH.
      destruct (String.eqb_spec k k') as [E|E], (String.eqb_spec k0 k') as [E'|E'];
        subst; try congruence; reflexivity.
Qed.

Lemma headerValue_app (hs : headers) (k v k' : string) :
  headerValue (hs ++ [(k, v)])%list k'
  = match headerValue hs k' with
    | Some x => Some x
    | None => if String.eqb k k' then Some v else None
    end.
Proof.
  induction hs as [|[k0 v0] hs IH]; simpl.
  - reflexivity.
  - destruct (String.eqb k0 k'); [reflexivity | exact IH].
Qed.

Lemma headerValue_setHeader_same (hs : headers) (k v : string) :
  headerValue (setHeader hs k v) k = Some v.
Proof.
  unfold setHeader. destruct (headerValue hs k) eqn:E.
  - rewrite headerValue_replaceHeader, String.eqb_refl. now rewrite E.
  - rewrite headerValue_app, E. now rewrite String.eqb_refl.
Qed.

Lemma headerValue_setHeader_other (hs : headers) (k v k' : string) :
  k <> k' -> headerValue (setHeader hs k v) k' = headerValue hs k'.
Proof.
  intros N. apply String.eqb_neq in N. unfold setHeader.
  destruct (headerValue hs k).
  - now rewrite headerValue_replaceHeader, N.
  - rewrite headerValue_app, N. now destruct (headerValue hs k').
Qed.

Lemma headerValue_defaultHeader_other (hs : headers) (k v k' : string) :
  k <> k' -> headerValue (defaultHeader hs k v) k' = headerValue hs k'.
Proof.
  intros N. unfold defaultHeader.
  destruct (headerSet hs k); [reflexivity | now apply headerValue_setHeader_other].
Qed.

Lemma headerValue_defaultHeader_same (hs : headers) (k v : string) :
  headerValue (defaultHeader hs k v) k
  = if headerSet hs k then headerValue hs k else Some v.
Proof.
  unfold defaultHeader.
  destruct (headerSet hs k); [reflexivity | apply headerValue_setHeader_same].
Qed.

Lemma headerValue_rewriteLink_other (hs : headers) (t b k : string) :
  k <> "link" -> headerValue (rewriteLink hs t b) k = headerValue hs k.
Proof.
  intros N. unfold rewriteLink.
  destruct (headerSet hs "link"); [|reflexivity].
  destruct (headerValue hs "link"); [|reflexivity].
  apply headerValue_setHeader_other. congruence.
Qed.

(** After the four defaults, a CORS header holds the upstream value
    when that was set, and the default otherwise. *)
Lemma addCors_value (hs : headers) (k v : string) :
  In (k, v) corsHeaders ->
  headerValue (addCors hs) k = if headerSet hs k then headerValue hs k else Some v.
Proof.
  unfold addCors, corsHeaders. cbn [fold_left fst snd].
  intros [E|[E|[E|[E|[]]]]]; inversion E; subst; clear E;
    repeat (rewrite headerValue_defaultHeader_other by discriminate);
    rewrite headerValue_defaultHeader_same;
    unfold headerSet;
    repeat (rewrite headerValue_defaultHeader_other by discriminate);
    reflexivity.
Qed.

Lemma addCors_other (hs : headers) (k : string) :
  (forall v, ~ In (k, v) corsHeaders) ->
  headerValue (addCors hs) k = headerValue hs k.
Proof.
  intros H. unfold addCors, corsHeaders. cbn [fold_left fst snd].
  repeat (rewrite headerValue_defaultHeader_other;
          [|intros <-; eapply H; simpl; eauto 6]).
  reflexivity.
Qed.

Lemma delivered_header (parse : string -> option value) (stringify : value -> string)
    (t b : string) (code : Z) (hs : headers) (body k : string) :
  k <> "link" -> k <> "content-length" ->
  headerValue (deliveredHeaders (onProxyRes parse stringify t b code hs body)) k
  = headerValue (addCors hs) k.
Proof.
  intros Hl Hc. unfold onProxyRes.
  destruct (negb (includes _ "application/json")); simpl.
  - now apply headerValue_rewriteLink_other.
  - destruct (parse body); simpl; [|reflexivity].
    rewrite headerValue_setHeader_other by congruence.
    now apply headerValue_rewriteLink_other.
Qed.

(** X3.  Whatever the upstream response and whichever way it is
    delivered (passed through, rewritten, or sent as it came because it
    did not parse), each of the four CORS headers is present and not
    empty: it holds the value upstream gave when upstream gave one, and
    the permissive default otherwise. *)
Theorem proxied_response_has_cors (parse : string -> option value)
    (stringify : value -> string) (targetUrl actualBaseUrl : string) (statusCode : Z)
    (upstreamHeaders : headers) (body k v : string) :
  In (k, v) corsHeaders ->
  let out := onProxyRes parse stringify targetUrl actualBaseUrl statusCode
               upstreamHeaders body in
  headerSet (deliveredHeaders out) k = true
  /\ (headerSet upstreamHeaders k = true ->
      headerValue (deliveredHeaders out) k = headerValue upstreamHeaders k)
  /\ (headerSet upstreamHeaders k = false ->
      headerValue (deliveredHeaders out) k = Some v).
Proof.
  intros Hin out.
  assert (Hk : k <> "link" /\ k <> "content-length" /\ v <> EmptyString).
  { destruct Hin as [E|[E|[E|[E|[]]]]]; inversion E; subst;
      repeat split; discriminate. }
  destruct Hk as [Hl [Hc Hv]].
  assert (Hval : headerValue (deliveredHeaders out) k
                 = if headerSet upstreamHeaders k
                   then headerValue upstreamHeaders k else Some v).
  { unfold out. rewrite delivered_header by assumption. now apply addCors_value. }
  repeat split.
  - unfold headerSet at 1. rewrite Hval.
    destruct (headerSet upstreamHeaders k) eqn:E.
    + exact E.
    + apply String.eqb_neq in Hv. now rewrite Hv.
  - intros E. now rewrite Hval, E.
  - intros E. now rewrite Hval, E.
Qed.

Lemma proxied_response_has_cors_witness :
  In ("access-control-allow-origin", "*") corsHeaders
  /\ headerSet upstreamHeadersSample "access-control-allow-origin" = true
  /\ headerValue
       (deliveredHeaders
          (onProxyRes (fun _ => None) (fun _ => EmptyString) upstream base 200
             upstreamHeadersSample "not json"))
       "access-control-allow-origin" = Some "https://app.example".
Proof.
  assert (Hin : In ("access-control-allow-origin", "*") corsHeaders) by (simpl; auto).
  split; [exact Hin|]. split; [reflexivity|].
  destruct (proxied_response_has_cors (fun _ => None) (fun _ => EmptyString) upstream base
              200 upstreamHeadersSample "not json" _ _ Hin) as [_ [H _]].
  rewrite (H eq_refl). reflexivity.
Defined.

(** X4.  When the content type is not JSON the upstream body is
    delivered byte for byte, with the upstream [content-length].  When
    it is JSON and the body parses, the body delivered is the
    serialisation of the rewritten value and [content-length] is its
    length.  When it is JSON and the body does not parse, the upstream
    body is delivered with the upstream [content-length] and the
    upstream [Link] header untouched.  In every case, an upstream
    [content-length] that is the length of the upstream body leaves a
    [content-length] that is the length of the body delivered. *)
Theorem proxied_body_and_length (parse : string -> option value)
    (stringify : value -> string) (targetUrl actualBaseUrl : string) (statusCode : Z)
    (upstreamHeaders : headers) (body : string) :
  let out := onProxyRes parse stringify targetUrl actualBaseUrl statusCode
               upstreamHeaders body in
  let json := includes (match headerValue upstreamHeaders "content-type" with
                        | Some c => c
                        | None => EmptyString
                        end) "application/json" in
  (json = false ->
   deliveredBody out = body
   /\ headerValue (deliveredHeaders out) "content-length"
      = headerValue upstreamHeaders "content-length")
  /\ (json = true ->
      forall data, parse body = Some data ->
      deliveredBody out = stringify (rewriteUrls data targetUrl actualBaseUrl None)
      /\ headerValue (deliveredHeaders out) "content-length"
         = Some (natToString
                   (String.length
                      (stringify (rewriteUrls data targetUrl actualBaseUrl None)))))
  /\ (json = true ->
      parse body = None ->
      deliveredBody out = body
      /\ headerValue (deliveredHeaders out) "content-length"
         = headerValue upstreamHeaders "content-length"
      /\ headerValue (deliveredHeaders out) "link" = headerValue upstreamHeaders "link")
  /\ (headerValue upstreamHeaders "content-length"
        = Some (natToString (String.length body)) ->
      headerValue (deliveredHeaders out) "content-length"
        = Some (natToString (String.length (deliveredBody out)))).
Proof.
  intros out json.
  assert (Hcl : headerValue (addCors upstreamHeaders) "content-length"
                = headerValue upstreamHeaders "content-length").
  { apply addCors_other. intros v [E|[E|[E|[E|[]]]]]; discriminate. }
  assert (Hct : headerValue (addCors upstreamHeaders) "content-type"
                = headerValue upstreamHeaders "content-type").
  { apply addCors_other. intros v [E|[E|[E|[E|[]]]]]; discriminate. }
  assert (Hlk : headerValue (addCors upstreamHeaders) "link"
                = headerValue upstreamHeaders "link").
  { apply addCors_other. intros v [E|[E|[E|[E|[]]]]]; discriminate. }
  unfold out, onProxyRes. rewrite Hct. fold json.
  destruct json; cbn [negb].
  - split; [discriminate|].
    destruct (parse body) as [data|] eqn:Hp; cbn [deliveredBody deliveredHeaders].
    + split; [|split; [discriminate|]].
      * intros _ d Hd. inversion Hd; subst d.
        split; [reflexivity | apply headerValue_setHeader_same].
      * intros _. apply headerValue_setHeader_same.
    + split; [discriminate|]. split.
      * intros _ _. split; [reflexivity|]. split; assumption.
      * intros H. now rewrite Hcl.
  - cbn [deliveredBody deliveredHeaders].
    assert (Hpass : headerValue (rewriteLink (addCors upstreamHeaders) targetUrl
                                   actualBaseUrl) "content-length"
                    = headerValue upstreamHeaders "content-length").
    { rewrite headerValue_rewriteLink_other by discriminate. exact Hcl. }
    split; [intros _; split; [reflexivity | exact Hpass]|].
    split; [discriminate|]. split; [discriminate|].
    intros H. now rewrite Hpass.
Qed.

Lemma proxied_body_and_length_witness :
  includes "application/json; charset=utf-8" "application/json" = true
  /\ deliveredBody
       (onProxyRes (fun _ => Some plainBody) (fun v => toStr (get v "self")) upstream base 200
          upstreamHeadersSample "{}")
     = "https://bridge.example/noderegistries/npmjs.org"
  /\ headerValue
       (deliveredHeaders
          (onProxyRes (fun _ => Some plainBody) (fun v => toStr (get v "self")) upstream base
             200 upstreamHeadersSample "{}"))
       "content-length" = Some "47".
Proof.
  split; [reflexivity|].
  destruct (proxied_body_and_length (fun _ => Some plainBody) (fun v => toStr (get v "self"))
              upstream base 200 upstreamHeadersSample "{}")
    as [_ [H _]].
  destruct (H eq_refl plainBody eq_refl) as [H1 H2].
  split; [rewrite H1; reflexivity | rewrite H2; reflexivity].
Defined.

(** *** What the rewriter sends *)

Lemma plainKeys_intro (l : list string) :
  NoDup l -> ~ In "__proto__" l -> plainKeys l = true.
Proof.
  intros Hn Hp. unfold plainKeys. apply andb_true_iff. split.
  - induction Hn as [|x l Hx Hn IH]; [reflexivity|]. simpl.
    apply has_notIn in Hx. rewrite Hx. simpl. apply IH.
    intros H. apply Hp. now right.
  - apply negb_true_iff. now apply has_notIn.
Qed.

Lemma assign_keys (f : string -> value -> value) (entries acc : props) (x : string) :
  In x (map fst (fold_left (assign f) entries acc)) <->
  In x (map fst acc) \/ (In x (map fst entries) /\ x <> "__proto__").
Proof.
  revert acc; induction entries as [|[k v] entries IH]; intros acc; simpl.
  - tauto.
  - rewrite IH, keys_setProp. split.
    + intros [[H|[-> H]]|[H1 H2]]; auto.
    + intros [H|[[<-|H1] H2]]; auto.
Qed.

(** X20.  Whatever body upstream sent, and whichever URLs are given,
    the rewritten body is made of objects whose keys are pairwise
    distinct and never ["__proto__"]; the keys of a rewritten object
    are those of the object it was made from, ["__proto__"] apart, and
    an array keeps its length. *)
Theorem rewriteUrls_output_plain (data : value) (downstreamUrl bridgeBaseUrl : string)
    (currentKey : option string) :
  plain (rewriteUrls data downstreamUrl bridgeBaseUrl currentKey) = true
  /\ (forall entries k,
        data = VObj entries ->
        In k (keys (rewriteUrls data downstreamUrl bridgeBaseUrl currentKey))
        <-> In k (map fst entries) /\ k <> "__proto__")
  /\ (forall items,
        data = VArr items ->
        exists items',
          rewriteUrls data downstreamUrl bridgeBaseUrl currentKey = VArr items'
          /\ List.length items' = List.length items).
Proof.
  split; [|split].
  - revert currentKey.
    induction data as [| | | | s | items IH | entries IH]
      using ProxyFacts.value_induction; intros key; try reflexivity.
    + rewrite ProxyFacts.rewriteUrls_array. simpl.
      rewrite forallb_forall. intros y Hy.
      apply in_map_iff in Hy as [x [<- Hx]].
      rewrite Forall_forall in IH. now apply IH.
    + rewrite ProxyFacts.rewriteUrls_object. simpl.
      set (f := fun k v => rewriteUrls v downstreamUrl bridgeBaseUrl (Some k)).
      pose proof (ProxyFacts.assign_good f entries [] ProxyFacts.good_nil) as [Hn Hp].
      rewrite plainKeys_intro by assumption. simpl.
      rewrite forallb_forall. intros [k w] Hw.
      apply ProxyFacts.assign_values in Hw as [[]|[x [Hx ->]]].
      rewrite Forall_forall in IH. apply (IH _ Hx).
  - intros entries k ->. rewrite ProxyFacts.rewriteUrls_object.
    unfold keys. cbn [ownProps]. rewrite assign_keys. simpl. tauto.
  - intros items ->. rewrite ProxyFacts.rewriteUrls_array.
    eexists. split; [reflexivity | apply length_map].
Qed.

Lemma rewriteUrls_output_plain_witness :
  plain protoBody = false
  /\ plain (rewriteUrls protoBody upstream base None) = true
  /\ keys (rewriteUrls protoBody upstream base None) = ["name"; "bugs"].
Proof.
  split; [reflexivity|].
  destruct (rewriteUrls_output_plain protoBody upstream base None) as [H _].
  split; [exact H | reflexivity].
Defined.

End ProxyProperties.

(* ================================================================== *)
(** * Further properties of the PyPI facade                             *)
(* ================================================================== *)

Module PypiProperties.
Import JS Http Spec Pypi JSFacts Samples.

Lemma append_empty (s : string) : s ++ EmptyString = s.
Proof. induction s; simpl; congruence. Qed.

Lemma append_assoc (a b c : string) : (a ++ b) ++ c = a ++ (b ++ c).
Proof. induction a; simpl; congruence. Qed.

Lemma lacks_app (c : ascii) (a b : string) :
  lacks c (a ++ b) = lacks c a && lacks c b.
Proof.
  induction a as [|x a IH]; simpl; [reflexivity|].
  rewrite IH. now rewrite andb_assoc.
Qed.

Lemma split_space_step (c : ascii) (s cur : string) :
  split_go " " O cur (String c s)
  = if Ascii.eqb space c then cur :: split_go " " O EmptyString s
    else split_go " " O (cur ++ String c EmptyString) s.
Proof.
  cbn -[Ascii.eqb]. unfold space. now rewrite andb_true_r.
Qed.

(** The pieces of a string split at spaces hold no space. *)
Lemma split_space_pieces (s : string) :
  forall cur, lacks space cur = true ->
              Forall (fun piece => lacks space piece = true) (split_go " " O cur s).
Proof.
  induction s as [|c s IH]; intros cur Hc.
  - simpl. now constructor.
  - rewrite split_space_step. destruct (Ascii.eqb space c) eqn:E.
    + constructor; [assumption | now apply IH].
    + apply IH. rewrite lacks_app, Hc. cbn -[Ascii.eqb].
      rewrite Ascii.eqb_sym in E. now rewrite E.
Qed.

Lemma split_space_whole (s : string) :
  forall cur, lacks space s = true -> split_go " " O cur s = [cur ++ s].
Proof.
  induction s as [|c s IH]; intros cur H.
  - simpl. now rewrite append_empty.
  - cbn -[Ascii.eqb] in H. apply andb_true_iff in H as [Hc Hs].
    apply negb_true_iff in Hc. rewrite Ascii.eqb_sym in Hc.
    rewrite split_space_step, Hc.
    rewrite IH by assumption. now rewrite append_assoc.
Qed.

Lemma split_space_first (u rest : string) :
  forall cur, lacks space u = true ->
              split_go " " O cur (u ++ String space rest)
              = (cur ++ u) :: split_go " " O EmptyString rest.
Proof.
  induction u as [|c u IH]; intros cur H.
  - cbn [String.append]. rewrite split_space_step, Ascii.eqb_refl.
    now rewrite append_empty.
  - cbn -[Ascii.eqb] in H. apply andb_true_iff in H as [Hc Hu].
    apply negb_true_iff in Hc. rewrite Ascii.eqb_sym in Hc.
    cbn [String.append]. rewrite split_space_step, Hc.
    rewrite IH by assumption. now rewrite append_assoc.
Qed.

Lemma unauthorized_status (key : string) (req : request) (r : response) :
  authenticate key req = Some r -> status r = 401%Z.
Proof.
  unfold authenticate.
  destruct (String.eqb (method req) "OPTIONS"); [discriminate|].
  destruct (String.eqb (path req) "/model"
            && (String.eqb (ip req) "127.0.0.1" || String.eqb (ip req) "::1"));
    [discriminate|].
  destruct (authorization req) as [h|]; [|intros H; now inversion H].
  destruct (String.eqb h EmptyString); [intros H; now inversion H|].
  destruct (negb _); [intros H; now inversion H|].
  destruct (nth_error (split h " ") 1) as [c|]; [|intros H; now inversion H].
  destruct (String.eqb c key); [discriminate | intros H; now inversion H].
Qed.

Lemma authenticate_passes (key : string) (req : request) :
  authenticate key req = None ->
  exempt req
  \/ exists h, authorization req = Some h
               /\ toLowerCase (nth 0 (split h " ") EmptyString) = "bearer"
               /\ nth_error (split h " ") 1 = Some key.
Proof.
  unfold authenticate, exempt.
  destruct (String.eqb_spec (method req) "OPTIONS") as [Hm|_]; [auto|].
  destruct (String.eqb_spec (path req) "/model") as [Hp|_];
    destruct (String.eqb_spec (ip req) "127.0.0.1") as [Hi|_];
    destruct (String.eqb_spec (ip req) "::1") as [Hj|_];
    cbn [andb orb]; auto;
    (destruct (authorization req) as [h|]; [|discriminate]);
    (destruct (String.eqb h EmptyString); [discriminate|]);
    (destruct (String.eqb_spec (toLowerCase (nth 0 (split h " ") EmptyString)) "bearer")
      as [Hs|_]; cbn [negb]; [|discriminate]);
    (destruct (nth_error (split h " ") 1) as [c|] eqn:Hc; [|discriminate]);
    (destruct (String.eqb_spec c key) as [->|_]; [|discriminate]);
    intros _; right; now exists h.
Qed.

(** X5.  With an API key configured, a request is answered 401 unless
    it is exempt (OPTIONS, or the path [/model], exactly as the request
    came, from the loopback address) or its [Authorization] header,
    split at spaces, has a first piece that reads [bearer] in any
    letter case and a second piece equal to the key.  Since a piece
    holds no space, a key that contains a space admits no request at
    all: every request that is not exempt gets 401. *)
Theorem pypi_key_required (E : env) (key : string) (req : request) :
  apiKey E = Some key -> key <> EmptyString ->
  (exempt req
   \/ (exists h, authorization req = Some h
                 /\ toLowerCase (nth 0 (split h " ") EmptyString) = "bearer"
                 /\ nth_error (split h " ") 1 = Some key)
   \/ status (app E req) = 401%Z)
  /\ (lacks space key = false -> exempt req \/ status (app E req) = 401%Z).
Proof.
  intros Hk Hne.
  assert (Hmain : exempt req
                  \/ (exists h, authorization req = Some h
                                /\ toLowerCase (nth 0 (split h " ") EmptyString) = "bearer"
                                /\ nth_error (split h " ") 1 = Some key)
                  \/ status (app E req) = 401%Z).
  { unfold app, guard. rewrite Hk.
    apply String.eqb_neq in Hne. rewrite Hne.
    destruct (authenticate key req) as [r|] eqn:Ha.
    - right. right. eapply unauthorized_status. eassumption.
    - apply authenticate_passes in Ha. tauto. }
  split; [exact Hmain|].
  intros Hsp. destruct Hmain as [H|[[h [_ [_ Hc]]]|H]]; auto.
  exfalso. apply nth_error_In in Hc.
  pose proof (split_space_pieces h EmptyString eq_refl) as Hall.
  rewrite Forall_forall in Hall. specialize (Hall _ Hc). congruence.
Qed.

Lemma pypi_key_required_witness :
  apiKey keyedPypi = Some "secret" /\ "secret" <> EmptyString
  /\ (exempt pypiPut
      \/ (exists h, authorization pypiPut = Some h
                    /\ toLowerCase (nth 0 (split h " ") EmptyString) = "bearer"
                    /\ nth_error (split h " ") 1 = Some "secret")
      \/ status (app keyedPypi pypiPut) = 401%Z).
Proof.
  split; [reflexivity|]. split; [discriminate|].
  apply (pypi_key_required keyedPypi "secret" pypiPut); [reflexivity | discriminate].
Defined.

(** The key check reads the path before the trailing slash handler
    has rewritten it: [/model/] from the loopback address is not exempt
    and is answered 401, whatever the method; without a key the same
    PUT reaches the 405 catch-all, which names the rewritten path. *)
Example pypi_model_slash_examples :
  status (app keyedPypi (modelSlashRequest "GET")) = 401%Z
  /\ status (app keyedPypi (modelSlashRequest "PUT")) = 401%Z
  /\ guard keyedPypi (trailingSlash (modelSlashRequest "GET")) = None
  /\ status (app openPypi (modelSlashRequest "PUT")) = 405%Z
  /\ get (body (app openPypi (modelSlashRequest "PUT"))) "detail"
     = VStr "PUT method not supported on /model"
  /\ get (body (app openPypi (modelSlashRequest "GET"))) "instance" = VStr "/model/"
  /\ get (body (app openPypi (modelSlashRequest "GET"))) "detail"
     = VStr "The requested resource '/model' was not found".
Proof. repeat split. Qed.

(** X6.  A request whose [Authorization] header is a scheme that reads
    [bearer] in any letter case, one space, and the configured key
    passes the API key check, provided the key holds no space. *)
Theorem pypi_bearer_accepted (key scheme : string) (req : request) :
  toLowerCase scheme = "bearer" ->
  lacks space scheme = true ->
  lacks space key = true ->
  authorization req = Some (scheme ++ " " ++ key) ->
  authenticate key req = None.
Proof.
  intros Hs Hls Hlk Ha. unfold authenticate. rewrite Ha.
  destruct (String.eqb (method req) "OPTIONS"); [reflexivity|].
  destruct (String.eqb (path req) "/model"
            && (String.eqb (ip req) "127.0.0.1" || String.eqb (ip req) "::1"));
    [reflexivity|].
  assert (Hsplit : split (scheme ++ " " ++ key) " " = [scheme; key]).
  { unfold split. change (" " ++ key) with (String space key).
    rewrite split_space_first by assumption.
    now rewrite split_space_whole by assumption. }
  assert (Hne : String.eqb (scheme ++ " " ++ key) EmptyString = false).
  { destruct scheme; [discriminate Hs | reflexivity]. }
  rewrite Hne, Hsplit. simpl. rewrite Hs. simpl.
  now rewrite String.eqb_refl.
Qed.

Lemma pypi_bearer_accepted_witness :
  toLowerCase "BeArEr" = "bearer"
  /\ lacks space "BeArEr" = true /\ lacks space "secret" = true
  /\ authenticate "secret" (bearerRequest "BeArEr secret") = None.
Proof.
  split; [reflexivity|]. split; [reflexivity|]. split; [reflexivity|].
  apply (pypi_bearer_accepted "secret" "BeArEr"); reflexivity.
Defined.

Example pypi_bearer_examples :
  status (app keyedPypi (bearerRequest "Bearer secret")) = 404%Z
  /\ status (app keyedPypi (bearerRequest "Bearer  secret")) = 401%Z
  /\ status (app keyedPypi (bearerRequest "Bearer secret extra")) = 404%Z
  /\ status (app keyedPypi (bearerRequest "Basic secret")) = 401%Z
  /\ status (app keyedPypi (bearerRequest "Bearer Secret")) = 401%Z.
Proof. repeat split. Qed.

End PypiProperties.

(* ================================================================== *)
(** * Further properties of the npm facade                              *)
(* ================================================================== *)

Module NpmProperties.
Import JS Http Spec Npm JSFacts NpmFacts Samples.

#[local] Arguments bind {A B} m f : simpl never.
#[local] Arguments await {A} e r : simpl never.

(** *** Every request is answered *)

Lemma wellAnswered_problem (code : Z) (hs : list (string * string))
    (title detail instance : string) :
  code = 400%Z \/ code = 404%Z \/ code = 405%Z ->
  wellAnswered (sendJson code hs (createProblemDetails code title detail instance)).
Proof.
  intros H. right. right. left. split; [exact H|].
  unfold isProblem. simpl. now rewrite Z.eqb_refl.
Qed.

Lemma wellAnswered_failure (message : string) : wellAnswered (failure message).
Proof. right. right. right. split; [reflexivity | now exists message]. Qed.

Lemma wellAnswered_ok (hs : list (string * string)) (b : value) :
  wellAnswered (sendJson 200 hs b).
Proof. now left. Qed.

(** A [try] whose every answer is good, with a [catch] that answers
    500, always answers, and well. *)
Lemma guarded_answers (m : M response) (message : string) :
  (forall t r, m = (t, Returned r) -> wellAnswered r) ->
  exists t r, tryCatch m (ret (failure message)) = (t, Returned r) /\ wellAnswered r.
Proof.
  intros H. destruct m as [t [r|]]; simpl.
  - exists t, r. split; [reflexivity | now apply (H t)].
  - eexists. eexists. split; [reflexivity | apply wellAnswered_failure].
Qed.

Ltac answered :=
  repeat match goal with
         | H : ret _ = (_, Returned _) |- _ => inversion H; subst; clear H
         | H : throw = (_, Returned _) |- _ => discriminate H
         | H : bind _ _ = (_, Returned _) |- _ =>
             apply bind_returned in H as (? & ? & ? & _ & H & _)
         | H : (if ?c then _ else _) = (_, Returned _) |- _ => destruct c
         | |- wellAnswered (sendJson 200 _ _) => apply wellAnswered_ok
         | |- wellAnswered (sendJson _ _ (createProblemDetails _ _ _ _)) =>
             apply wellAnswered_problem; auto
         end.

Lemma handle_answers (E : env) (req : request) (e : endpoint) :
  exists t r, handle E req e = (t, Returned r) /\ wellAnswered r.
Proof.
  destruct e; cbn [handle];
    try (eexists; eexists; split; [reflexivity|]; first [now left | now (right; left)]).
  - unfold groupHandler. destruct (negb _);
      eexists; eexists; (split; [reflexivity|]);
      [apply wellAnswered_problem; auto | apply wellAnswered_ok].
  - apply guarded_answers. intros t r H.
    unfold registryNotFound in H. answered.
  - apply guarded_answers. intros t r H.
    unfold registryNotFound, packageNotFound in H. answered.
  - apply guarded_answers. intros t r H.
    unfold registryNotFound, packageNotFound in H. answered.
  - apply guarded_answers. intros t r H.
    unfold registryNotFoundPlain, versionNotFound in H. answered.
  - apply guarded_answers. intros t r H.
    unfold registryNotFoundPlain, versionNotFound in H. answered.
  - apply guarded_answers. intros t r H.
    unfold registryNotFound, packageNotFound in H. answered.
Qed.

(** X7.  Every request that reaches the routes of the npm facade is
    answered, whatever upstream does (a rejected upstream call or a
    malformed upstream document included): with 200, with the 302 of
    [/export], with an RFC 9457 problem whose [status] member equals the
    HTTP status 400, 404 or 405, or with 500 and the body
    [{ error: message }], which is not a problem document. *)
Theorem dispatch_always_answers (E : env) (req : request) :
  exists t resp, dispatch E req = (t, Returned resp) /\ wellAnswered resp.
Proof.
  unfold dispatch.
  destruct (if isRead (method req) then route (segments req) else None) as [e|].
  - apply handle_answers.
  - unfold writeMethodCatchAll, notFoundHandler.
    destruct (has writeMethods (toUpperCase (method req)));
      eexists; eexists; (split; [reflexivity|]); apply wellAnswered_problem; auto.
Qed.

Example failing_upstream_answers_500 :
  statusOf (dispatch failingEnv
              (busyRequest [] "/noderegistries/npmjs.org/packages/busy" [])) = 500%Z
  /\ bodyOf (dispatch failingEnv
               (busyRequest [] "/noderegistries/npmjs.org/packages/busy" []))
     = VObj [("error", VStr "Failed to retrieve package metadata")]
  /\ statusOf (dispatch failingEnv (limitRequest "5")) = 500%Z
  /\ statusOf (dispatch failingEnv filteredRequest) = 200%Z.
Proof. repeat split. Qed.

(** X8.  On each of the seven routes under [/noderegistries/:registryId],
    a registry id other than [npmjs.org] is answered 404 with the
    problem "Registry not found", before anything is awaited or asked
    upstream. *)
Theorem unknown_registry_is_404 (E : env) (req : request) (e : endpoint) (r : string) :
  registryOf e = Some r -> r <> "npmjs.org" ->
  exists resp,
    handle E req e = ([], Returned resp)
    /\ status resp = 404%Z
    /\ isProblem resp = true
    /\ get (body resp) "title" = VStr "Registry not found".
Proof.
  intros He Hr. apply String.eqb_neq in Hr.
  destruct e; inversion He; subst; cbn [handle];
    unfold groupHandler, packagesHandler, packageHandler, packageMetaHandler,
      versionMetaHandler, versionHandler, versionLookup, versionsHandler;
    rewrite Hr; cbn [negb];
    eexists; (split; [reflexivity|]); repeat split.
Qed.

Lemma unknown_registry_is_404_witness :
  registryOf (Versions "example.org" "demo") = Some "example.org"
  /\ "example.org" <> "npmjs.org"
  /\ exists resp,
       handle twoVersionsEnv sortedVersionsRequest (Versions "example.org" "demo")
         = ([], Returned resp)
       /\ status resp = 404%Z.
Proof.
  split; [reflexivity|]. split; [discriminate|].
  destruct (unknown_registry_is_404 twoVersionsEnv sortedVersionsRequest
              (Versions "example.org" "demo") "example.org" eq_refl)
    as [resp [H1 [H2 _]]]; [discriminate|].
  exists resp. split; assumption.
Defined.

(** *** Views of the same entity *)

(** X9.  The meta view of a package and the package resource, built
    from the same upstream document, agree on every attribute of the
    meta view: [xid], [self], [name], [packageid], [epoch], [createdat],
    [modifiedat], [versionid], [isdefault], [metaurl], [versionsurl] and
    [versionscount]. *)
Theorem meta_view_agrees_with_resource (E : env) (req : request)
    (r p : string) (metadata : value) (k : string) :
  keys (metaInfo E req r p metadata)
    = ["xid"; "self"; "name"; "packageid"; "epoch"; "createdat"; "modifiedat";
       "versionid"; "isdefault"; "metaurl"; "versionsurl"; "versionscount"]
  /\ (In k (keys (metaInfo E req r p metadata)) ->
      get (metaInfo E req r p metadata) k = get (packageInfo E req r p metadata) k).
Proof.
  split; [reflexivity|].
  intros H. cbn in H.
  repeat (destruct H as [<-|H]; [reflexivity|]). contradiction.
Qed.

Lemma meta_view_agrees_with_resource_witness :
  In "versionscount" (keys (metaInfo twoVersionsEnv scopedRequest "npmjs.org" "demo" twoVersions))
  /\ get (metaInfo twoVersionsEnv scopedRequest "npmjs.org" "demo" twoVersions) "versionscount"
     = get (packageInfo twoVersionsEnv scopedRequest "npmjs.org" "demo" twoVersions)
         "versionscount".
Proof.
  assert (H : In "versionscount"
                (keys (metaInfo twoVersionsEnv scopedRequest "npmjs.org" "demo" twoVersions)))
    by (cbn; tauto).
  split; [exact H|].
  apply (meta_view_agrees_with_resource twoVersionsEnv scopedRequest "npmjs.org" "demo"
           twoVersions "versionscount"). exact H.
Defined.

(** X10.  The meta view of a version is sent with the attributes
    [xid], [self], [packageid], [epoch], [createdat], [modifiedat],
    [isdefault] and [ancestor], and with [versionid] when the version
    document has one, and with nothing else.  Each attribute it is sent
    with has a defined value, which is the value the full version view,
    built from the same upstream documents, has under that name. *)
Theorem version_meta_agrees_with_version (E : env) (req : request)
    (r p v : string) (versionData packageMetadata : value) :
  (get versionData "versionid" <> VUndefined ->
   keys (versionMetaInfo E req r p v versionData packageMetadata)
   = ["xid"; "self"; "versionid"; "packageid"; "epoch"; "createdat"; "modifiedat";
      "isdefault"; "ancestor"])
  /\ (get versionData "versionid" = VUndefined ->
      keys (versionMetaInfo E req r p v versionData packageMetadata)
      = ["xid"; "self"; "packageid"; "epoch"; "createdat"; "modifiedat";
         "isdefault"; "ancestor"])
  /\ (forall k,
        In k (keys (versionMetaInfo E req r p v versionData packageMetadata)) ->
        get (versionMetaInfo E req r p v versionData packageMetadata) k <> VUndefined
        /\ get (versionMetaInfo E req r p v versionData packageMetadata) k
           = get (versionInfo E req r p v versionData packageMetadata) k).
Proof.
  pose proof (versionInfo_members E req r p v versionData packageMetadata)
    as [F1 [F2 [F3 [F4 [F5 [F6 [F7 [F8 F9]]]]]]]].
  pose proof (versionMetaInfo_members E req r p v versionData packageMetadata)
    as [M1 [M2 [M3 [M4 [M5 [M6 [M7 [M8 M9]]]]]]]].
  assert (Hor : forall a s, or_else a (VStr s) <> VUndefined).
  { intros a s. unfold or_else. destruct a as [| | [|] | [|z] | t | |]; try discriminate.
    - simpl. destruct (negb (z =? 0)%Z); discriminate.
    - simpl. destruct (negb (t =? "")); discriminate. }
  assert (Hkeys : keys (versionMetaInfo E req r p v versionData packageMetadata)
                  = (["xid"; "self"]
                     ++ map fst (sentMember "versionid" (get versionData "versionid"))
                     ++ ["packageid"; "epoch"; "createdat"; "modifiedat"; "isdefault";
                         "ancestor"])%list).
  { unfold keys, versionMetaInfo. cbn [ownProps]. now rewrite !map_app. }
  split; [|split].
  - intros Hd. rewrite Hkeys.
    destruct (get versionData "versionid"); [congruence | reflexivity ..].
  - intros Hu. rewrite Hkeys, Hu. reflexivity.
  - intros k Hk. rewrite Hkeys in Hk.
    assert (Hcases : In k ["xid"; "self"; "packageid"; "epoch"; "createdat"; "modifiedat";
                           "isdefault"; "ancestor"]
                     \/ (k = "versionid" /\ get versionData "versionid" <> VUndefined)).
    { rewrite !in_app_iff in Hk. destruct Hk as [Hk|[Hk|Hk]].
      - left. simpl in Hk |- *. tauto.
      - right. destruct (get versionData "versionid"); simpl in Hk; [contradiction|..];
          destruct Hk as [<-|[]]; split; (reflexivity || discriminate).
      - left. simpl in Hk |- *. tauto. }
    destruct Hcases as [Hin|[-> Hd]].
    + simpl in Hin.
      repeat (destruct Hin as [<-|Hin];
              [split; [first [rewrite M1 | rewrite M2 | rewrite M4 | rewrite M5
                             | rewrite M6 | rewrite M7 | rewrite M8 | rewrite M9];
                       first [discriminate | apply Hor]
                      | congruence]|]).
      contradiction.
    + split; [now rewrite M3 | congruence].
Qed.

Lemma version_meta_agrees_with_version_witness :
  get firstVersionDoc "versionid" <> VUndefined
  /\ keys (versionMetaInfo twoVersionsEnv scopedRequest "npmjs.org" "demo" "1.0.0"
             firstVersionDoc twoVersions)
     = ["xid"; "self"; "versionid"; "packageid"; "epoch"; "createdat"; "modifiedat";
        "isdefault"; "ancestor"]
  /\ keys (versionMetaInfo twoVersionsEnv scopedRequest "npmjs.org" "demo" "1.0.0"
             (VObj [("name", VStr "demo")]) twoVersions)
     = ["xid"; "self"; "packageid"; "epoch"; "createdat"; "modifiedat";
        "isdefault"; "ancestor"].
Proof.
  assert (H : get firstVersionDoc "versionid" <> VUndefined) by discriminate.
  split; [exact H|]. split.
  - apply (version_meta_agrees_with_version twoVersionsEnv scopedRequest "npmjs.org" "demo"
             "1.0.0" firstVersionDoc twoVersions). exact H.
  - apply (version_meta_agrees_with_version twoVersionsEnv scopedRequest "npmjs.org" "demo"
             "1.0.0" (VObj [("name", VStr "demo")]) twoVersions). reflexivity.
Defined.

(** *** The default version *)

(** X11.  At most one version of a package is reported as default.
    When [dist-tags.latest] is a non-empty string, the resource names it
    as [versionid] and it is the one default version.  When
    [dist-tags.latest] is not a string, no version view is default,
    while the resource still carries a [versionid]. *)
Theorem default_version_unique (E : env) (req : request) (r p : string)
    (metadata : value) :
  (forall v1 v2, isDefaultVersion metadata v1 = true ->
                 isDefaultVersion metadata v2 = true -> v1 = v2)
  /\ (forall d, get (get metadata "dist-tags") "latest" = VStr d -> d <> EmptyString ->
                get (packageInfo E req r p metadata) "versionid" = VStr d
                /\ forall v, isDefaultVersion metadata v = true <-> v = d)
  /\ ((forall d, get (get metadata "dist-tags") "latest" <> VStr d) ->
      (forall v, isDefaultVersion metadata v = false)
      /\ truthy (get (packageInfo E req r p metadata) "versionid") = true).
Proof.
  split; [|split].
  - unfold isDefaultVersion. intros v1 v2 H1 H2.
    destruct (get (get metadata "dist-tags") "latest"); try discriminate.
    apply String.eqb_eq in H1, H2. congruence.
  - intros d Hd Hne. split.
    + change (get (packageInfo E req r p metadata) "versionid")
        with (defaultVersionOf metadata).
      apply String.eqb_neq in Hne.
      unfold defaultVersionOf, or_else. rewrite Hd. cbn [truthy]. rewrite Hne.
      cbn [negb truthy]. rewrite Hne. reflexivity.
    + intros v. unfold isDefaultVersion. rewrite Hd. apply String.eqb_eq.
  - intros Hd. split.
    + intros v. unfold isDefaultVersion.
      destruct (get (get metadata "dist-tags") "latest") eqn:El; try reflexivity.
      exfalso. now apply (Hd s).
    + change (get (packageInfo E req r p metadata) "versionid")
        with (defaultVersionOf metadata).
      unfold defaultVersionOf, or_else.
      repeat match goal with
             | |- context [if truthy ?x then _ else _] =>
                 let T := fresh "T" in destruct (truthy x) eqn:T
             end; try assumption; reflexivity.
Qed.

Lemma default_version_unique_witness :
  get (get twoVersions "dist-tags") "latest" = VStr "2.0.0"
  /\ "2.0.0" <> EmptyString
  /\ get (packageInfo twoVersionsEnv scopedRequest "npmjs.org" "demo" twoVersions) "versionid"
     = VStr "2.0.0"
  /\ isDefaultVersion twoVersions "2.0.0" = true.
Proof.
  split; [reflexivity|]. split; [discriminate|].
  destruct (default_version_unique twoVersionsEnv scopedRequest "npmjs.org" "demo" twoVersions)
    as [_ [H _]].
  destruct (H "2.0.0" eq_refl) as [H1 H2]; [discriminate|].
  split; [exact H1 | now apply H2].
Defined.

(** X12.  A package known upstream whose document has no [versions]
    member and no [dist-tags.latest] has a resource, with
    [versionscount = 0] and the placeholder [versionid = "0.0.0"], while
    its versions collection answers 404 "Package not found". *)
Theorem package_without_versions (E : env) (req : request) (p : string)
    (metadata : value) :
  getPackageMetadata E p = Returned metadata ->
  truthy metadata = true ->
  truthy (get metadata "versions") = false ->
  truthy (get (get metadata "dist-tags") "latest") = false ->
  statusOf (packageHandler E req "npmjs.org" p) = 200%Z
  /\ get (bodyOf (packageHandler E req "npmjs.org" p)) "versionscount" = VNum (Num 0)
  /\ get (bodyOf (packageHandler E req "npmjs.org" p)) "versionid" = VStr "0.0.0"
  /\ statusOf (versionsHandler E req "npmjs.org" p) = 404%Z
  /\ get (bodyOf (versionsHandler E req "npmjs.org" p)) "title" = VStr "Package not found".
Proof.
  intros Hm Ht Hv Hl.
  unfold statusOf, bodyOf, packageHandler, versionsHandler.
  cbn [String.eqb Ascii.eqb Bool.eqb negb].
  unfold bind, await, tryCatch. rewrite Hm. cbn [ret]. rewrite Ht, Hv. cbn [negb orb snd ret].
  assert (Hc : versionsCountOf metadata = O).
  { unfold versionsCountOf, or_else. now rewrite Hv. }
  assert (Hd : defaultVersionOf metadata = VStr "0.0.0").
  { unfold defaultVersionOf, or_else. rewrite Hl, Hv. reflexivity. }
  repeat split.
  - change (VNum (Num (Z.of_nat (versionsCountOf metadata))) = VNum (Num 0)).
    now rewrite Hc.
  - exact Hd.
Qed.

Lemma package_without_versions_witness :
  getPackageMetadata bareEnv "bare" = Returned (VObj [("name", VStr "bare")])
  /\ statusOf (packageHandler bareEnv scopedRequest "npmjs.org" "bare") = 200%Z
  /\ statusOf (versionsHandler bareEnv scopedRequest "npmjs.org" "bare") = 404%Z.
Proof.
  split; [reflexivity|].
  destruct (package_without_versions bareEnv scopedRequest "bare"
              (VObj [("name", VStr "bare")]) eq_refl eq_refl eq_refl eq_refl)
    as [H1 [_ [_ [H2 _]]]].
  split; assumption.
Defined.

Lemma lookup_setIf_other (c : bool) (o : props) (k : string) (v : value) (k0 : string) :
  k0 <> k -> lookup (setIf c o k v) k0 = lookup o k0.
Proof.
  intros Hn. unfold setIf. destruct c; [now apply lookup_setProp_other | reflexivity].
Qed.

Section SetAllLookup.
Variable g : string -> value.

Lemma setAll_lookup_out (ks : list string) (acc : props) (x : string) :
  ~ In x ks ->
  lookup (fold_left (fun o k => setProp o k (g k)) ks acc) x = lookup acc x.
Proof.
  revert acc; induction ks as [|k ks IH]; intros acc Hn; simpl; [reflexivity|].
  simpl in Hn. rewrite IH by tauto.
  apply lookup_setProp_other. intros ->. tauto.
Qed.

Lemma setAll_lookup_in (ks : list string) (acc : props) (x : string) :
  In x ks -> x <> "__proto__" ->
  lookup (fold_left (fun o k => setProp o k (g k)) ks acc) x = Some (g x).
Proof.
  revert acc; induction ks as [|k ks IH]; intros acc Hin Hp; simpl; [destruct Hin|].
  destruct (in_dec string_dec x ks) as [Hx|Hx].
  - now apply IH.
  - destruct Hin as [->|Hin]; [|contradiction].
    rewrite setAll_lookup_out by assumption. now apply lookup_setProp_same.
Qed.
End SetAllLookup.

Lemma falsy_no_props (v : value) : truthy v = false -> ownProps v = [].
Proof.
  destruct v as [| | b | n | s | items | o]; try reflexivity; try discriminate.
  destruct s; [reflexivity | discriminate].
Qed.

Lemma falsy_get (v : value) (k : string) : truthy v = false -> get v k = VUndefined.
Proof. intros H. unfold get. now rewrite falsy_no_props. Qed.

Lemma truthy_member_parent (v : value) (k : string) :
  truthy (get v k) = true -> truthy v = true.
Proof.
  destruct (truthy v) eqn:E; [reflexivity|].
  rewrite falsy_get by assumption. discriminate.
Qed.

(** *** Version views *)

Lemma version_served (E : env) (req : request) (p v : string)
    (build : value -> value -> value) (message : string) (versionData packageMetadata : value) :
  getVersionMetadata E p v = Returned versionData ->
  truthy versionData = true ->
  getPackageMetadata E p = Returned packageMetadata ->
  versionLookup E req "npmjs.org" p v build message
  = ([GetVersionMetadata p v; GetPackageMetadata p],
     Returned (sendJson 200 [] (build versionData packageMetadata))).
Proof.
  intros Hv Ht Hp. unfold versionLookup.
  cbn [String.eqb Ascii.eqb Bool.eqb negb].
  unfold bind, await. rewrite Hv, Ht. cbn [negb]. rewrite Hp. reflexivity.
Qed.

(** X13.  A version that upstream serves is answered 200 by both
    version views, with the same [ancestor]: the key listed just before
    the version among the keys of the package document's [versions], and
    the version itself when it is the first key or no key at all. *)
Theorem version_ancestor_is_previous_key (E : env) (req : request) (p v : string)
    (versionData packageMetadata : value) :
  getVersionMetadata E p v = Returned versionData ->
  truthy versionData = true ->
  getPackageMetadata E p = Returned packageMetadata ->
  statusOf (versionHandler E req "npmjs.org" p v) = 200%Z
  /\ statusOf (versionMetaHandler E req "npmjs.org" p v) = 200%Z
  /\ get (bodyOf (versionMetaHandler E req "npmjs.org" p v)) "ancestor"
     = get (bodyOf (versionHandler E req "npmjs.org" p v)) "ancestor"
  /\ (forall pre prev post,
        allVersionsOf packageMetadata = (pre ++ prev :: v :: post)%list ->
        ~ In v pre -> prev <> v ->
        get (bodyOf (versionHandler E req "npmjs.org" p v)) "ancestor" = VStr prev)
  /\ (forall rest,
        allVersionsOf packageMetadata = v :: rest ->
        get (bodyOf (versionHandler E req "npmjs.org" p v)) "ancestor" = VStr v)
  /\ (~ In v (allVersionsOf packageMetadata) ->
      get (bodyOf (versionHandler E req "npmjs.org" p v)) "ancestor" = VStr v).
Proof.
  intros Hv Ht Hp. unfold versionHandler, versionMetaHandler, statusOf, bodyOf.
  rewrite !(version_served E req p v _ _ versionData packageMetadata Hv Ht Hp).
  cbn [snd sendJson status body].
  pose proof (versionInfo_members E req "npmjs.org" p v versionData packageMetadata)
    as [_ [_ [_ [_ [_ [_ [_ [_ Hfull]]]]]]]].
  pose proof (versionMetaInfo_members E req "npmjs.org" p v versionData packageMetadata)
    as [_ [_ [_ [_ [_ [_ [_ [_ Hmeta]]]]]]]].
  rewrite Hfull, Hmeta.
  split; [reflexivity|]. split; [reflexivity|]. split; [reflexivity|].
  split; [|split].
  - intros pre prev post Hk Hn Hd. rewrite Hk. f_equal.
    now apply NpmFacts.ancestorOf_previous.
  - intros rest Hk. rewrite Hk. f_equal. apply NpmFacts.ancestorOf_first.
  - intros Hn. f_equal. now apply NpmFacts.ancestorOf_absent.
Qed.

Lemma version_ancestor_is_previous_key_witness :
  allVersionsOf twoVersions = ["2.0.0"; "1.0.0"]
  /\ get (bodyOf (versionHandler twoVersionsEnv scopedRequest "npmjs.org" "demo" "1.0.0"))
       "ancestor" = VStr "2.0.0"
  /\ get (bodyOf (versionHandler twoVersionsEnv scopedRequest "npmjs.org" "demo" "2.0.0"))
       "ancestor" = VStr "2.0.0".
Proof.
  split; [reflexivity|]. split.
  - destruct (version_ancestor_is_previous_key twoVersionsEnv scopedRequest "demo" "1.0.0"
                firstVersionDoc twoVersions eq_refl eq_refl eq_refl)
      as [_ [_ [_ [H _]]]].
    apply (H [] "2.0.0" []); [reflexivity | simpl; tauto | discriminate].
  - destruct (version_ancestor_is_previous_key twoVersionsEnv scopedRequest "demo" "2.0.0"
                firstVersionDoc twoVersions eq_refl eq_refl eq_refl)
      as [_ [_ [_ [_ [H _]]]]].
    apply (H ["1.0.0"]). reflexivity.
Defined.

(** X14.  A version that upstream serves while the package document is
    absent (null, or any falsy value) is still answered 200 by both
    version views: it is its own ancestor and is not the default. *)
Theorem version_of_absent_package (E : env) (req : request) (p v : string)
    (versionData packageMetadata : value) :
  getVersionMetadata E p v = Returned versionData ->
  truthy versionData = true ->
  getPackageMetadata E p = Returned packageMetadata ->
  truthy packageMetadata = false ->
  statusOf (versionHandler E req "npmjs.org" p v) = 200%Z
  /\ get (bodyOf (versionHandler E req "npmjs.org" p v)) "ancestor" = VStr v
  /\ get (bodyOf (versionHandler E req "npmjs.org" p v)) "isdefault" = VBool false
  /\ statusOf (versionMetaHandler E req "npmjs.org" p v) = 200%Z
  /\ get (bodyOf (versionMetaHandler E req "npmjs.org" p v)) "ancestor" = VStr v
  /\ get (bodyOf (versionMetaHandler E req "npmjs.org" p v)) "isdefault" = VBool false.
Proof.
  intros Hv Ht Hp Hf. unfold versionHandler, versionMetaHandler, statusOf, bodyOf.
  rewrite !(version_served E req p v _ _ versionData packageMetadata Hv Ht Hp).
  cbn [snd sendJson status body].
  pose proof (versionInfo_members E req "npmjs.org" p v versionData packageMetadata)
    as [_ [_ [_ [_ [_ [_ [_ [Hfd Hfa]]]]]]]].
  pose proof (versionMetaInfo_members E req "npmjs.org" p v versionData packageMetadata)
    as [_ [_ [_ [_ [_ [_ [_ [Hmd Hma]]]]]]]].
  rewrite Hfd, Hfa, Hmd, Hma.
  assert (Ha : allVersionsOf packageMetadata = []).
  { unfold allVersionsOf. now rewrite (falsy_get _ _ Hf). }
  assert (Hd : isDefaultVersion packageMetadata v = false).
  { unfold isDefaultVersion. now rewrite (falsy_get _ "dist-tags" Hf). }
  rewrite Ha, Hd. repeat split.
Qed.

Lemma version_of_absent_package_witness :
  getPackageMetadata orphanEnv "demo" = Returned VNull
  /\ statusOf (versionHandler orphanEnv scopedRequest "npmjs.org" "demo" "1.0.0") = 200%Z
  /\ get (bodyOf (versionHandler orphanEnv scopedRequest "npmjs.org" "demo" "1.0.0"))
       "ancestor" = VStr "1.0.0".
Proof.
  split; [reflexivity|].
  destruct (version_of_absent_package orphanEnv scopedRequest "demo" "1.0.0"
              firstVersionDoc VNull eq_refl eq_refl eq_refl eq_refl)
    as [H1 [H2 _]].
  split; assumption.
Defined.

(** *** The versions collection *)

Lemma versions_served (E : env) (req : request) (p : string) (metadata : value) :
  getPackageMetadata E p = Returned metadata ->
  truthy (get metadata "versions") = true ->
  versionsHandler E req "npmjs.org" p
  = ([GetPackageMetadata p],
     Returned (sendJson 200 [] (VObj (versionsObj E req p metadata)))).
Proof.
  intros Hm Hv. pose proof (truthy_member_parent _ _ Hv) as Ht.
  unfold versionsHandler. cbn [String.eqb Ascii.eqb Bool.eqb negb].
  unfold bind, await. rewrite Hm, Ht, Hv. reflexivity.
Qed.

(** X15.  For a package whose document has a [versions] member, the
    versions collection is answered 200 and lists exactly the keys
    among the first [limit] keys of [versions] (all of them but the last
    [-limit] when the limit is negative) other than ["__proto__"]; each
    entry carries its key as [versionid] and in its [xid]; when the
    limit is a number that is not negative, no more than [limit] entries
    are listed. *)
Theorem versions_listing (E : env) (req : request) (p : string) (metadata : value) :
  getPackageMetadata E p = Returned metadata ->
  truthy (get metadata "versions") = true ->
  statusOf (versionsHandler E req "npmjs.org" p) = 200%Z
  /\ (forall k,
        In k (keys (bodyOf (versionsHandler E req "npmjs.org" p)))
        <-> In k (slice (keys (get metadata "versions")) (Num 0) (versionsLimitOf req))
            /\ k <> "__proto__")
  /\ (forall k,
        In k (keys (bodyOf (versionsHandler E req "npmjs.org" p))) ->
        get (get (bodyOf (versionsHandler E req "npmjs.org" p)) k) "versionid" = VStr k
        /\ get (get (bodyOf (versionsHandler E req "npmjs.org" p)) k) "xid"
           = VStr (packagesPath ++ "/" ++ p ++ "/versions/" ++ k))
  /\ (forall l,
        versionsLimitOf req = Num l -> (0 <= l)%Z ->
        (Z.of_nat (List.length (keys (bodyOf (versionsHandler E req "npmjs.org" p)))) <= l)%Z).
Proof.
  intros Hm Hv. unfold statusOf, bodyOf.
  rewrite (versions_served E req p metadata Hm Hv).
  cbn [snd sendJson status body].
  set (g := versionEntry E req p metadata).
  set (window := slice (keys (get metadata "versions")) (Num 0) (versionsLimitOf req)).
  set (ks := sort (compareVersions E (versionSortOrder req)) window).
  assert (Hobj : versionsObj E req p metadata
                 = fold_left (fun o k => setProp o k (g k)) ks []) by reflexivity.
  assert (Hperm : Permutation ks window) by apply NpmFacts.sort_perm.
  assert (Hkeys : forall k, In k (keys (VObj (versionsObj E req p metadata)))
                            <-> In k window /\ k <> "__proto__").
  { intros k. change (keys (VObj (versionsObj E req p metadata)))
      with (map fst (versionsObj E req p metadata)).
    rewrite Hobj, NpmFacts.setAll_keys. simpl. split.
    - intros [[]|[H1 H2]]. split; [|assumption]. eapply Permutation_in; eassumption.
    - intros [H1 H2]. right. split; [|assumption].
      eapply Permutation_in; [apply Permutation_sym|]; eassumption. }
  split; [reflexivity|]. split; [exact Hkeys|]. split.
  - intros k Hk. apply Hkeys in Hk as [Hin Hp].
    assert (Hl : lookup (versionsObj E req p metadata) k = Some (g k)).
    { rewrite Hobj. apply setAll_lookup_in; [|assumption].
      eapply Permutation_in; [apply Permutation_sym|]; eassumption. }
    unfold get at 2 4. cbn [ownProps]. rewrite Hl. split; reflexivity.
  - intros l Hl Hpos.
    change (keys (VObj (versionsObj E req p metadata)))
      with (map fst (versionsObj E req p metadata)).
    rewrite length_map, Hobj.
    pose proof (NpmFacts.setAll_length g ks []) as Hlen.
    pose proof (Permutation_length Hperm) as Hpl.
    assert (Hw : (Z.of_nat (List.length window) <= l)%Z).
    { unfold window. rewrite Hl.
      change (Num l) with (num_add (Num 0) (Num l)).
      now apply NpmFacts.slice_window. }
    simpl in Hlen. lia.
Qed.

Lemma versions_listing_witness :
  versionsLimitOf sortedVersionsRequest = Num 1
  /\ keys (bodyOf (versionsHandler twoVersionsEnv sortedVersionsRequest "npmjs.org" "demo"))
     = ["2.0.0"]
  /\ (Z.of_nat (List.length
                  (keys (bodyOf (versionsHandler twoVersionsEnv sortedVersionsRequest
                                   "npmjs.org" "demo")))) <= 1)%Z.
Proof.
  split; [reflexivity|]. split; [reflexivity|].
  destruct (versions_listing twoVersionsEnv sortedVersionsRequest "demo" twoVersions
              eq_refl eq_refl) as [_ [_ [_ H]]].
  apply (H 1%Z); [reflexivity | lia].
Defined.

(** *** The packages collection *)

Lemma wellKeyed_nil (base : string) : wellKeyed base [].
Proof.
  split; [intros k e []|]. split; [constructor | simpl; tauto].
Qed.

Lemma wellKeyed_setProp (base : string) (s : props) (k : string) (e : value) :
  wellKeyed base s -> keyedEntry base k e -> wellKeyed base (setProp s k e).
Proof.
  intros [Ha Hg] He. split; [|now apply good_setProp].
  intros k0 e0 Hin. apply In_setProp in Hin as [Hin|[-> ->]]; auto.
Qed.

Lemma collectionEntry_keyed (E : env) (base : string) (name createdat modifiedat : value) :
  keyedEntry base (toStr name) (VObj (collectionEntry E base name createdat modifiedat)).
Proof. repeat split. Qed.

Lemma keyedEntry_setIf (base k : string) (c : bool) (e : props) (key : string) (v : value) :
  "name" <> key -> "xid" <> key -> "self" <> key ->
  keyedEntry base k (VObj e) -> keyedEntry base k (VObj (setIf c e key v)).
Proof.
  intros H1 H2 H3. unfold keyedEntry, get. cbn [ownProps].
  now rewrite !lookup_setIf_other by assumption.
Qed.

Lemma forEach_invariant {A S : Type} (P : S -> Prop) (f : S -> A -> M S) (l : list A) :
  (forall s x t s', P s -> f s x = (t, Returned s') -> P s') ->
  forall s t s', P s -> forEach f l s = (t, Returned s') -> P s'.
Proof.
  intros Hf. induction l as [|x l IH]; simpl; intros s t s' Hs H.
  - inversion H; subst. exact Hs.
  - apply NpmFacts.bind_returned in H as [t1 [s1 [t2 [H1 [H2 _]]]]].
    eapply IH; [|exact H2]. eapply Hf; eassumption.
Qed.

Lemma addFiltered_keyed (E : env) (base : string) (s : props) (pkg : value)
    (t : list effect) (s' : props) :
  wellKeyed base s -> addFiltered E base s pkg = (t, Returned s') -> wellKeyed base s'.
Proof.
  intros Hs H. unfold addFiltered in H.
  apply NpmFacts.bind_returned in H as [t1 [n [t2 [_ [H _]]]]].
  cbv zeta in H.
  destruct (truthy (or_else n (get (get pkg "package") "name")));
    inversion H; subst; [|exact Hs].
  apply wellKeyed_setProp; [exact Hs|].
  repeat (apply keyedEntry_setIf; [discriminate | discriminate | discriminate |]).
  apply collectionEntry_keyed.
Qed.

Lemma addSearched_keyed (E : env) (base : string) (s : props) (result : value)
    (t : list effect) (s' : props) :
  wellKeyed base s -> addSearched E base s result = (t, Returned s') -> wellKeyed base s'.
Proof.
  intros Hs H. unfold addSearched in H.
  apply NpmFacts.bind_returned in H as [t1 [n [t2 [_ [H _]]]]].
  cbv zeta in H.
  destruct (truthy (get n "name")); inversion H; subst; [|exact Hs].
  apply wellKeyed_setProp; [exact Hs|].
  repeat (apply keyedEntry_setIf; [discriminate | discriminate | discriminate |]).
  apply collectionEntry_keyed.
Qed.

Lemma addCached_keyed (E : env) (base : string) (names : list string) (s : props) :
  wellKeyed base s -> wellKeyed base (fold_left (addCached E base) names s).
Proof.
  revert s; induction names as [|n names IH]; intros s Hs; simpl; [exact Hs|].
  apply IH. unfold addCached. apply wellKeyed_setProp; [exact Hs|].
  apply (collectionEntry_keyed E base (VStr n)).
Qed.

Lemma searchPopular_keyed (E : env) (base : string) (limit offset : number)
    (t : list effect) (ps : props) :
  searchPopular E base limit offset = (t, Returned ps) -> wellKeyed base ps.
Proof.
  intros H. unfold searchPopular in H.
  apply NpmFacts.bind_returned in H as [t1 [sr [t2 [_ [H _]]]]].
  destruct (truthy (get sr "objects") && lengthPositive (get sr "objects")).
  - destruct (get sr "objects") as [| | | | |items|]; try discriminate H.
    eapply (forEach_invariant (wellKeyed base)); [| apply wellKeyed_nil | exact H].
    intros; eapply addSearched_keyed; eassumption.
  - inversion H; subst. apply wellKeyed_nil.
Qed.

Lemma collectPackages_keyed (E : env) (req : request) (limit offset : number)
    (t : list effect) (ps : props) :
  collectPackages E req limit offset = (t, Returned ps) ->
  wellKeyed (getBaseUrl E req) ps.
Proof.
  intros H. unfold collectPackages in H.
  destruct (queryTruthy req "filter") as [filter|].
  - apply NpmFacts.bind_returned in H as [t1 [rs [t2 [_ [H _]]]]].
    eapply (forEach_invariant (wellKeyed (getBaseUrl E req)));
      [| apply wellKeyed_nil | exact H].
    intros; eapply addFiltered_keyed; eassumption.
  - destruct (queryTruthy req "sort") as [sortParam|].
    + apply NpmFacts.bind_returned in H as [t1 [u [t2 [_ [H _]]]]].
      destruct (negb (Nat.eqb (List.length (loadedPackageNamesCache E)) 0)).
      * inversion H; subst. apply addCached_keyed, wellKeyed_nil.
      * eapply searchPopular_keyed; eassumption.
    + eapply searchPopular_keyed; eassumption.
Qed.

(** X16.  Whichever branch fills it (filter, sorted cache or upstream
    search), a packages collection answered 200 is an object in which
    every entry is stored under the string of its own [name], with
    [xid] ending in that name and [self] in its URL-encoded form; no
    key occurs twice and none is ["__proto__"]. *)
Theorem packages_entries_keyed (E : env) (req : request) (registryId : string) :
  statusOf (packagesHandler E req registryId) = 200%Z ->
  exists packages,
    bodyOf (packagesHandler E req registryId) = VObj packages
    /\ wellKeyed (getBaseUrl E req) packages.
Proof.
  unfold statusOf, bodyOf, packagesHandler.
  destruct (negb (String.eqb registryId "npmjs.org")); [discriminate|].
  destruct (num_le (limitOf req) (Num 0)); [discriminate|].
  destruct (collectPackages E req (limitOf req) (offsetOf req)) as [t [ps|]] eqn:Hc;
    unfold bind, tryCatch; cbn [snd ret sendJson status body]; [|discriminate].
  intros _. exists ps. split; [reflexivity|].
  eapply collectPackages_keyed; eassumption.
Qed.

Lemma packages_entries_keyed_witness :
  statusOf (packagesHandler scopedEnv scopedRequest "npmjs.org") = 200%Z
  /\ exists packages,
       bodyOf (packagesHandler scopedEnv scopedRequest "npmjs.org") = VObj packages
       /\ wellKeyed base packages.
Proof.
  split; [reflexivity|].
  apply (packages_entries_keyed scopedEnv scopedRequest "npmjs.org"). reflexivity.
Defined.

(** *** Filtering without a name cache *)

Lemma searchFallback_other_fields (E : env) (filters : list filterExpr)
    (limit offset : number) :
  (forall fe, In fe filters -> field fe <> "name") ->
  searchFallback E filters limit offset = ([], Returned []).
Proof.
  induction filters as [|fe rest IH]; intros H; simpl; [reflexivity|].
  assert (Hf : field fe <> "name") by (apply H; now left).
  apply String.eqb_neq in Hf. rewrite Hf.
  apply IH. intros fe' Hin. apply H. now right.
Qed.

(** X17.  While the name cache is empty, a filter none of whose
    expressions is on the field [name] selects nothing and reaches no
    upstream service: the collection is answered 200 with the empty
    object and without a [Link] header. *)
Theorem filter_on_other_fields_is_empty (E : env) (req : request) (filter : string) :
  packageNamesCache E = [] ->
  queryTruthy req "filter" = Some filter ->
  (forall fe, In fe (parseFilterExpressions filter) -> field fe <> "name") ->
  num_le (limitOf req) (Num 0) = false ->
  packagesHandler E req "npmjs.org" = ([], Returned (sendJson 200 [] (VObj []))).
Proof.
  intros Hc Hq Hf Hl. unfold packagesHandler.
  cbn [String.eqb Ascii.eqb Bool.eqb negb]. rewrite Hl.
  assert (Hp : collectPackages E req (limitOf req) (offsetOf req) = ([], Returned [])).
  { unfold collectPackages, handlePackageFilter. rewrite Hq, Hc.
    cbn [List.length Nat.eqb negb].
    now rewrite searchFallback_other_fields. }
  rewrite Hp. unfold linkHeader. rewrite Hq. reflexivity.
Qed.

Lemma filter_on_other_fields_is_empty_witness :
  map field (parseFilterExpressions "description=web*") = ["description"]
  /\ packagesHandler failingEnv descriptionFilterRequest "npmjs.org"
     = ([], Returned (sendJson 200 [] (VObj []))).
Proof.
  split; [reflexivity|].
  apply (filter_on_other_fields_is_empty failingEnv descriptionFilterRequest
           "description=web*"); [reflexivity | reflexivity | | reflexivity].
  intros fe [<-|[]]. discriminate.
Defined.

(** White space of any kind around a field name is trimmed: the filter
    [%C2%A0name=react] is a filter on [name] and asks upstream. *)
Example spaced_name_filter_searches :
  map field (parseFilterExpressions (nbsp ++ "name=react")) = ["name"]
  /\ map field (parseFilterExpressions (" name" ++ nbsp ++ " = react ")) = ["name"]
  /\ map fvalue (parseFilterExpressions (" name" ++ nbsp ++ " = react ")) = ["react"]
  /\ fst (packagesHandler failingEnv spacedFilterRequest "npmjs.org")
     = [SearchPackages "react" (Num 20) (Num 0)].
Proof. repeat split. Qed.

(** *** The registry document *)

(** X18.  The registry document names the group npmjs.org exactly
    once: under [endpoints] when the inline flags hold [*] or
    [endpoints], under [noderegistries] otherwise, never under both;
    [model] is present exactly when the flags hold [*] or [model], and
    the other attributes do not depend on the flags. *)
Theorem registry_document_group (E : env) (req : request) :
  hasProp (registryInfo E req) "endpoints"
    = (has (inline req) "*" || has (inline req) "endpoints")
  /\ hasProp (registryInfo E req) "noderegistries"
     = negb (has (inline req) "*" || has (inline req) "endpoints")
  /\ get (VObj (registryInfo E req))
         (if has (inline req) "*" || has (inline req) "endpoints"
          then "endpoints" else "noderegistries")
     = groupReference (getBaseUrl E req)
  /\ hasProp (registryInfo E req) "model"
     = (has (inline req) "*" || has (inline req) "model")
  /\ (get (VObj (registryInfo E req)) "xid" = VStr "/"
      /\ get (VObj (registryInfo E req)) "self" = VStr (getBaseUrl E req)
      /\ get (VObj (registryInfo E req)) "noderegistriesurl"
         = VStr (getBaseUrl E req ++ "/noderegistries")
      /\ get (VObj (registryInfo E req)) "noderegistriescount" = VNum (Num 1)).
Proof.
  unfold registryInfo.
  destruct (has (inline req) "*"), (has (inline req) "endpoints"),
    (has (inline req) "model"); repeat split.
Qed.

(** *** The metadata fetcher of the filter optimizer *)



(** *** Entities that upstream does not have *)

(** X21.  When upstream has no document for a package (null, or any
    falsy value), the package resource, its meta view and its versions
    collection all answer 404 with the same problem document, titled
    "Package not found", after one upstream call. *)
Theorem absent_package_is_404 (E : env) (req : request) (p : string) (metadata : value) :
  getPackageMetadata E p = Returned metadata ->
  truthy metadata = false ->
  packageHandler E req "npmjs.org" p
    = ([GetPackageMetadata p], Returned (packageNotFound req p))
  /\ packageMetaHandler E req "npmjs.org" p
     = ([GetPackageMetadata p], Returned (packageNotFound req p))
  /\ versionsHandler E req "npmjs.org" p
     = ([GetPackageMetadata p], Returned (packageNotFound req p))
  /\ status (packageNotFound req p) = 404%Z
  /\ isProblem (packageNotFound req p) = true
  /\ get (body (packageNotFound req p)) "title" = VStr "Package not found"
  /\ get (body (packageNotFound req p)) "detail"
     = VStr ("Package '" ++ p ++ "' does not exist in registry").
Proof.
  intros Hm Ht.
  unfold packageHandler, packageMetaHandler, versionsHandler.
  cbn [String.eqb Ascii.eqb Bool.eqb negb].
  unfold bind, await. rewrite Hm, Ht. repeat split.
Qed.

Lemma absent_package_is_404_witness :
  getPackageMetadata scopedEnv "ghost" = Returned VNull
  /\ statusOf (packageHandler scopedEnv scopedRequest "npmjs.org" "ghost") = 404%Z.
Proof.
  split; [reflexivity|].
  destruct (absent_package_is_404 scopedEnv scopedRequest "ghost" VNull eq_refl eq_refl)
    as [H _].
  unfold statusOf. rewrite H. reflexivity.
Defined.

(** X22.  When upstream has no document for a version, both version
    views answer 404 with the problem document titled "Version not
    found", and the package document is not asked for. *)
Theorem absent_version_is_404 (E : env) (req : request) (p v : string)
    (versionData : value) :
  getVersionMetadata E p v = Returned versionData ->
  truthy versionData = false ->
  versionHandler E req "npmjs.org" p v
    = ([GetVersionMetadata p v], Returned (versionNotFound req p v))
  /\ versionMetaHandler E req "npmjs.org" p v
     = ([GetVersionMetadata p v], Returned (versionNotFound req p v))
  /\ status (versionNotFound req p v) = 404%Z
  /\ isProblem (versionNotFound req p v) = true
  /\ get (body (versionNotFound req p v)) "title" = VStr "Version not found"
  /\ get (body (versionNotFound req p v)) "detail"
     = VStr ("Version " ++ v ++ " of package " ++ p ++ " does not exist").
Proof.
  intros Hv Ht.
  unfold versionHandler, versionMetaHandler, versionLookup.
  cbn [String.eqb Ascii.eqb Bool.eqb negb].
  unfold bind, await. rewrite Hv, Ht. repeat split.
Qed.

Lemma absent_version_is_404_witness :
  getVersionMetadata scopedEnv "demo" "9.9.9" = Returned VNull
  /\ statusOf (versionHandler scopedEnv scopedRequest "npmjs.org" "demo" "9.9.9") = 404%Z.
Proof.
  split; [reflexivity|].
  destruct (absent_version_is_404 scopedEnv scopedRequest "demo" "9.9.9" VNull
              eq_refl eq_refl) as [H _].
  unfold statusOf. rewrite H. reflexivity.
Defined.

(** X23.  When the upstream call for the package document fails, the
    package resource, its meta view and its versions collection answer
    500 with [{ error }]; so do both version views for a version whose
    own document was served, after both upstream calls. *)
Theorem upstream_failure_is_500 (E : env) (req : request) (p : string) :
  getPackageMetadata E p = Thrown ->
  packageHandler E req "npmjs.org" p
    = ([GetPackageMetadata p], Returned (failure "Failed to retrieve package metadata"))
  /\ packageMetaHandler E req "npmjs.org" p
     = ([GetPackageMetadata p], Returned (failure "Failed to retrieve package metadata"))
  /\ versionsHandler E req "npmjs.org" p
     = ([GetPackageMetadata p], Returned (failure "Failed to retrieve package versions"))
  /\ (forall v versionData,
        getVersionMetadata E p v = Returned versionData ->
        truthy versionData = true ->
        versionHandler E req "npmjs.org" p v
          = ([GetVersionMetadata p v; GetPackageMetadata p],
             Returned (failure "Failed to retrieve package version"))
        /\ versionMetaHandler E req "npmjs.org" p v
           = ([GetVersionMetadata p v; GetPackageMetadata p],
              Returned (failure "Failed to retrieve version metadata")))
  /\ status (failure "Failed to retrieve package metadata") = 500%Z.
Proof.
  intros Hm.
  unfold packageHandler, packageMetaHandler, versionsHandler.
  cbn [String.eqb Ascii.eqb Bool.eqb negb].
  unfold bind, await. rewrite Hm.
  split; [reflexivity|]. split; [reflexivity|]. split; [reflexivity|].
  split; [|reflexivity].
  intros v versionData Hv Ht.
  unfold versionHandler, versionMetaHandler, versionLookup.
  cbn [String.eqb Ascii.eqb Bool.eqb negb].
  unfold bind, await. rewrite Hv, Ht, Hm. split; reflexivity.
Qed.

Lemma upstream_failure_is_500_witness :
  getPackageMetadata failingEnv "demo" = Thrown
  /\ statusOf (packageHandler failingEnv scopedRequest "npmjs.org" "demo") = 500%Z.
Proof.
  split; [reflexivity|].
  destruct (upstream_failure_is_500 failingEnv scopedRequest "demo" eq_refl) as [H _].
  unfold statusOf. rewrite H. reflexivity.
Defined.

End NpmProperties.
